(** * ntgrrc: authentication and session engine of the Netgear switch client

    A shallow embedding of the Go packages [pkg/netgear] and
    [pkg/netgear/internal]: model detection, the password cipher, the two
    login protocols, the token stores and the authenticated-request layer.

    Go strings are byte strings and are modelled by [string] (a list of
    8-bit [ascii] values).  Go maps are [gmap]s.  Code with effects (HTTP
    traffic, the file system, the client's mutable fields) is written in
    explicit state-passing style. *)

From Stdlib Require Import ZArith Ascii String List Lia Bool.
From stdpp Require Import base option gmap strings list pretty.

Local Open Scope string_scope.

(** Let [simpl] compute the concatenation of byte strings. *)
#[local] Arguments String.append !s1 s2 : simpl nomatch.

(** ** The parts of Go's [strings] package the code relies on *)

Module Strings.

(** [s[i]] for an index that the caller has checked to be in range. *)
Definition byteAt (s : string) (i : nat) : ascii :=
  match String.get i s with
  | Some c => c
  | None => zero
  end.

(** [strings.Builder.WriteByte]. *)
Definition WriteByte (b : string) (c : ascii) : string := b +:+ String c "".

(** [strings.HasPrefix]. *)
Fixpoint HasPrefix (s prefix : string) {struct prefix} : bool :=
  match prefix, s with
  | "", _ => true
  | String p prefix', String c s' =>
      if Ascii.eqb c p then HasPrefix s' prefix' else false
  | String _ _, "" => false
  end.

(** [s[n:]]. *)
Fixpoint drop (n : nat) (s : string) : string :=
  match n, s with
  | 0, _ => s
  | S n', String _ s' => drop n' s'
  | S _, "" => ""
  end.

(** [s[:n]]. *)
Fixpoint take (n : nat) (s : string) : string :=
  match n, s with
  | 0, _ => ""
  | S n', String c s' => String c (take n' s')
  | S _, "" => ""
  end.

(** [strings.Index]: the byte offset of the first occurrence of [sub]. *)
Fixpoint Index (s sub : string) : option nat :=
  if HasPrefix s sub then Some 0
  else match s with
       | "" => None
       | String _ s' => S <$> Index s' sub
       end.

(** [strings.Contains]. *)
Definition Contains (s sub : string) : bool :=
  match Index s sub with Some _ => true | None => false end.

(** [strings.SplitN(s, sep, 2)]: at most two pieces, cut at the first
    occurrence of the separator. *)
Definition SplitN2 (s sep : string) : list string :=
  match Index s sep with
  | Some i => [take i s; drop (i + String.length sep) s]
  | None => [s]
  end.

Definition bytes (codes : list nat) : string :=
  string_of_list_ascii (map ascii_of_nat codes).

(** The UTF-8 encodings of the code points for which [unicode.IsSpace]
    holds: tab, line feed, vertical tab, form feed, carriage return,
    space, U+0085, U+00A0, U+1680, U+2000..U+200A, U+2028, U+2029,
    U+202F, U+205F and U+3000. *)
Definition spaces : list string :=
  map bytes
    [ [9]; [10]; [11]; [12]; [13]; [32];
      [194; 133]; [194; 160]; [225; 154; 128];
      [226; 128; 128]; [226; 128; 129]; [226; 128; 130]; [226; 128; 131];
      [226; 128; 132]; [226; 128; 133]; [226; 128; 134]; [226; 128; 135];
      [226; 128; 136]; [226; 128; 137]; [226; 128; 138];
      [226; 128; 168]; [226; 128; 169]; [226; 128; 175];
      [226; 129; 159]; [227; 128; 128] ].

(** The length of the white-space rune that [s] starts with, if any. *)
Fixpoint spacePrefix (sp : list string) (s : string) : option nat :=
  match sp with
  | [] => None
  | w :: sp' =>
      if HasPrefix s w then Some (String.length w) else spacePrefix sp' s
  end.

(** [strings.TrimLeftFunc(s, unicode.IsSpace)]; the fuel bounds the number
    of runes removed and [String.length s] always suffices. *)
Fixpoint trimLeft (fuel : nat) (s : string) : string :=
  match fuel with
  | 0 => s
  | S fuel' =>
      match spacePrefix spaces s with
      | Some n => trimLeft fuel' (drop n s)
      | None => s
      end
  end.

Definition TrimLeft (s : string) : string := trimLeft (String.length s) s.

(** Trailing white space is removed on the reversed bytes, against the
    reversed encodings. *)
Definition rev (s : string) : string :=
  string_of_list_ascii (List.rev (list_ascii_of_string s)).

Fixpoint trimRight (fuel : nat) (r : string) : string :=
  match fuel with
  | 0 => r
  | S fuel' =>
      match spacePrefix (map rev spaces) r with
      | Some n => trimRight fuel' (drop n r)
      | None => r
      end
  end.

Definition TrimRight (s : string) : string :=
  rev (trimRight (String.length s) (rev s)).

(** [strings.TrimSpace]. *)
Definition TrimSpace (s : string) : string := TrimRight (TrimLeft s).

(** [strings.Split(s, sep)] for a non-empty separator: the pieces between
    the occurrences of the separator; every step consumes a byte, so a
    fuel of [String.length s] suffices. *)
Fixpoint split (fuel : nat) (s sep : string) : list string :=
  match fuel with
  | 0 => [s]
  | S fuel' =>
      match Index s sep with
      | Some i => take i s :: split fuel' (drop (i + String.length sep) s) sep
      | None => [s]
      end
  end.

Definition Split (s sep : string) : list string := split (String.length s) s sep.

(** [strings.ReplaceAll(s, old, new)] for a non-empty [old]: the
    occurrences are replaced from left to right, without overlap. *)
Fixpoint replaceAll (fuel : nat) (s old new : string) : string :=
  match fuel with
  | 0 => s
  | S fuel' =>
      match Index s old with
      | Some i =>
          take i s +:+ new
          +:+ replaceAll fuel' (drop (i + String.length old) s) old new
      | None => s
      end
  end.

Definition ReplaceAll (s old new : string) : string :=
  replaceAll (String.length s) s old new.

End Strings.

(** ** [internal]: the password cipher *)

(** [crypto/md5] of the Go standard library (RFC 1321), on 32-bit words
    held in [Z] with the wrap-around written out. *)
Module MD5.
Local Open Scope Z_scope.

Definition mask32 (x : Z) : Z := x mod 2 ^ 32.

Definition rotl32 (x : Z) (c : Z) : Z :=
  mask32 (Z.lor (Z.shiftl x c) (Z.shiftr x (32 - c))).

Definition not32 (x : Z) : Z := Z.lxor x 0xffffffff.

Definition K : list Z :=
  [ 0xd76aa478; 0xe8c7b756; 0x242070db; 0xc1bdceee;
    0xf57c0faf; 0x4787c62a; 0xa8304613; 0xfd469501;
    0x698098d8; 0x8b44f7af; 0xffff5bb1; 0x895cd7be;
    0x6b901122; 0xfd987193; 0xa679438e; 0x49b40821;
    0xf61e2562; 0xc040b340; 0x265e5a51; 0xe9b6c7aa;
    0xd62f105d; 0x02441453; 0xd8a1e681; 0xe7d3fbc8;
    0x21e1cde6; 0xc33707d6; 0xf4d50d87; 0x455a14ed;
    0xa9e3e905; 0xfcefa3f8; 0x676f02d9; 0x8d2a4c8a;
    0xfffa3942; 0x8771f681; 0x6d9d6122; 0xfde5380c;
    0xa4beea44; 0x4bdecfa9; 0xf6bb4b60; 0xbebfbc70;
    0x289b7ec6; 0xeaa127fa; 0xd4ef3085; 0x04881d05;
    0xd9d4d039; 0xe6db99e5; 0x1fa27cf8; 0xc4ac5665;
    0xf4292244; 0x432aff97; 0xab9423a7; 0xfc93a039;
    0x655b59c3; 0x8f0ccc92; 0xffeff47d; 0x85845dd1;
    0x6fa87e4f; 0xfe2ce6e0; 0xa3014314; 0x4e0811a1;
    0xf7537e82; 0xbd3af235; 0x2ad7d2bb; 0xeb86d391 ].

Definition shifts : list Z :=
  [ 7; 12; 17; 22; 7; 12; 17; 22; 7; 12; 17; 22; 7; 12; 17; 22;
    5; 9; 14; 20; 5; 9; 14; 20; 5; 9; 14; 20; 5; 9; 14; 20;
    4; 11; 16; 23; 4; 11; 16; 23; 4; 11; 16; 23; 4; 11; 16; 23;
    6; 10; 15; 21; 6; 10; 15; 21; 6; 10; 15; 21; 6; 10; 15; 21 ].

Definition nthZ (l : list Z) (i : nat) : Z := nth i l 0.

(** The eight length bytes, or the four bytes of a word, least significant
    first. *)
Fixpoint le_bytes (n : nat) (x : Z) : list Z :=
  match n with
  | O => []
  | S n' => (x mod 256) :: le_bytes n' (x / 256)
  end.

Fixpoint le_word (bs : list Z) : Z :=
  match bs with
  | [] => 0
  | b :: bs' => b + 256 * le_word bs'
  end.

Definition pad (msg : list Z) : list Z :=
  let len := Z.of_nat (length msg) in
  let zeros := Z.to_nat ((55 - len) mod 64) in
  msg ++ [0x80] ++ repeat 0 zeros ++ le_bytes 8 ((8 * len) mod 2 ^ 64).

Fixpoint words (n : nat) (bs : list Z) : list Z :=
  match n with
  | O => []
  | S n' => le_word (firstn 4 bs) :: words n' (skipn 4 bs)
  end.

Record state := State { sa : Z; sb : Z; sc : Z; sd : Z }.

Definition init : state :=
  State 0x67452301 0xefcdab89 0x98badcfe 0x10325476.

Definition round (M : list Z) (st : state) (i : nat) : state :=
  let '(State A B C D) := st in
  let '(F, g) :=
    if (i <? 16)%nat then
      (Z.lor (Z.land B C) (Z.land (not32 B) D), i)
    else if (i <? 32)%nat then
      (Z.lor (Z.land D B) (Z.land (not32 D) C), ((5 * i + 1) mod 16)%nat)
    else if (i <? 48)%nat then
      (Z.lxor (Z.lxor B C) D, ((3 * i + 5) mod 16)%nat)
    else
      (Z.lxor C (Z.lor B (not32 D)), ((7 * i) mod 16)%nat) in
  let F' := mask32 (F + A + nthZ K i + nthZ M g) in
  State D (mask32 (B + rotl32 F' (nthZ shifts i))) B C.

Definition block (st : state) (chunk : list Z) : state :=
  let M := words 16 chunk in
  let st' := fold_left (round M) (seq 0 64) st in
  State (mask32 (sa st + sa st')) (mask32 (sb st + sb st'))
        (mask32 (sc st + sc st')) (mask32 (sd st + sd st')).

Fixpoint blocks (n : nat) (st : state) (bs : list Z) : state :=
  match n with
  | O => st
  | S n' => blocks n' (block st (firstn 64 bs)) (skipn 64 bs)
  end.

(** [md5.Sum]: the sixteen digest bytes. *)
Definition Sum (msg : string) : list Z :=
  let bs := pad (map (fun c => Z.of_nat (nat_of_ascii c))
                     (list_ascii_of_string msg)) in
  let st := blocks (length bs / 64) init bs in
  le_bytes 4 (sa st) ++ le_bytes 4 (sb st)
    ++ le_bytes 4 (sc st) ++ le_bytes 4 (sd st).

Definition hexdigit (x : Z) : ascii :=
  nth (Z.to_nat x) (list_ascii_of_string "0123456789abcdef") zero.

(** [fmt.Sprintf("%x", hash)] on a byte array: two lowercase hexadecimal
    digits per byte. *)
Fixpoint hex (bs : list Z) : string :=
  match bs with
  | [] => ""
  | b :: bs' => String (hexdigit (b / 16)) (String (hexdigit (b mod 16)) (hex bs'))
  end.

End MD5.


(** ** External collaborators

    What the code asks of libraries that are not modelled here (the
    regular-expression engine, the HTML parser, the validation of a new
    request and the formatting of floating-point numbers) is taken as an
    interface: the development holds for every implementation of it. *)

Class External := {
  (** [regexp.MustCompile(pattern).FindStringSubmatch(content)]: the
      leftmost match and its capture groups, or the empty list. *)
  FindStringSubmatch : string -> string -> list string;
  (** goquery: [doc.Find("#rand").First().Attr("value")] on the parsed
      document, or [None] when the element or the attribute is absent or
      the document cannot be read. *)
  FindRandValue : string -> option string;
  (** [http.NewRequestWithContext(ctx, method, url, body)] refusing a
      method or an address it cannot parse. *)
  NewRequestError : string -> string -> option string;
  (** Go's [float64] and [fmt.Sprintf("%.2f", x)]. *)
  float64 : Type;
  Sprintf_2f : float64 -> string
}.

(** ** Go [error] values

    The errors that flow through the program: the package's own
    [netgear.Error] (a kind, a message and an optional cause), errors made
    with [fmt.Errorf("...: %w", err)], errors raised inside the standard
    library ([net/http], [io]) and the two [os] errors the code meets. *)

Inductive ErrorType :=
  | ErrorTypeAuth
  | ErrorTypeNetwork
  | ErrorTypeParsing
  | ErrorTypeModel
  | ErrorTypeOperation.

#[warnings="-register-all"]
Inductive error : Type :=
  | NetgearError (Type_ : ErrorType) (Message : string) (Cause : option error)
  | Errorf (msg : string) (cause : error)
  | LibError (msg : string)
  | ErrNotExist
  | ErrPermission.

(** [os.IsNotExist]. *)
Definition IsNotExist (err : error) : bool :=
  match err with
  | ErrNotExist => true
  | _ => false
  end.


(** The double-quote character, for the patterns that contain it. *)
Definition dq : string := String (ascii_of_nat 34) EmptyString.

(** ** Package [internal] *)

Module Internal.
Import Strings.

(** *** utils: the password cipher *)

(** The body of the [for i := 0; i < maxLen; i++] loop of [specialMerge],
    run [n] more times from index [i]. *)
Fixpoint specialMerge_loop (password seedValue : string) (n i : nat)
         (result : string) : string :=
  match n with
  | 0 => result
  | S n' =>
      let result :=
        if Nat.ltb i (String.length password)
        then WriteByte result (byteAt password i) else result in
      let result :=
        if Nat.ltb i (String.length seedValue)
        then WriteByte result (byteAt seedValue i) else result in
      specialMerge_loop password seedValue n' (S i) result
  end.

Definition specialMerge (password seedValue : string) : string :=
  let maxLen := String.length password in
  let maxLen :=
    if Nat.ltb maxLen (String.length seedValue)
    then String.length seedValue else maxLen in
  specialMerge_loop password seedValue maxLen 0 "".

Definition EncryptPassword (password : string) : string :=
  MD5.hex (MD5.Sum password).

Definition EncryptPasswordWithSeed (password seedValue : string) : string :=
  let mergedStr := specialMerge password seedValue in
  let hash := MD5.Sum mergedStr in
  MD5.hex hash.

(** *** parser: model detection *)

(** [for _, model := range models { if strings.Contains(..) { return model } }] *)
Fixpoint firstContained (htmlContent : string) (models : list string)
  : option string :=
  match models with
  | [] => None
  | model :: rest =>
      if Contains htmlContent model then Some model
      else firstContained htmlContent rest
  end.

Definition specificModels : list string :=
  ["GS316EPP"; "GS308EPP"; "GS305EPP"; "GS316EP"; "GS308EP"; "GS305EP"].

Definition looksLikeRedirect (htmlContent : string) : bool :=
  Contains htmlContent "Redirect to Login" || Contains htmlContent "redirect".

Definition DetectFromHTML (htmlContent : string) : string :=
  match firstContained htmlContent specificModels with
  | Some model => model
  | None => if looksLikeRedirect htmlContent then "GS30xEPx" else ""
  end.

(** *** parser: token, error and seed extraction *)

(** [for _, pattern := range patterns { ...; if len(matches) > 1 { return f(matches[1]) } }] *)
Fixpoint firstSubmatch `{External} (patterns : list string) (content : string)
  : option string :=
  match patterns with
  | [] => None
  | pattern :: rest =>
      match FindStringSubmatch pattern content with
      | _ :: m1 :: _ => Some m1
      | _ => firstSubmatch rest content
      end
  end.

Definition gambitPatterns : list string :=
  [ "Gambit[" +:+ dq +:+ "\s]*[:=][" +:+ dq +:+ "\s]*([a-fA-F0-9]+)";
    "gambit[" +:+ dq +:+ "\s]*[:=][" +:+ dq +:+ "\s]*([a-fA-F0-9]+)";
    "rand[" +:+ dq +:+ "\s]*[:=][" +:+ dq +:+ "\s]*([0-9]+)" ].

Definition ExtractGambitToken `{External} (content : string) : string :=
  match firstSubmatch gambitPatterns content with
  | Some m => m
  | None => ""
  end.

Definition errorPatterns : list string :=
  [ "error[" +:+ dq +:+ "\s]*[:=][" +:+ dq +:+ "\s]*" +:+ dq
      +:+ "([^" +:+ dq +:+ "]+)" +:+ dq;
    "<div[^>]*error[^>]*>([^<]+)</div>";
    "alert\s*\(\s*" +:+ dq +:+ "([^" +:+ dq +:+ "]+)" +:+ dq +:+ "\s*\)" ].

Definition ExtractErrorMessage `{External} (content : string) : string :=
  match firstSubmatch errorPatterns content with
  | Some m => TrimSpace m
  | None => ""
  end.

Definition ExtractSeedValue `{External} (content : string) : string :=
  match FindRandValue content with
  | Some randVal => randVal
  | None => ""
  end.

End Internal.

(** The other copy of the parser file kept in the repository (the one
    without [ExtractSeedValue]); only its model detection differs. *)
Module InternalAlt.
Import Strings.

Definition models : list string :=
  ["GS305EP"; "GS305EPP"; "GS308EP"; "GS308EPP"].

Definition DetectFromHTML (htmlContent : string) : string :=
  if Contains htmlContent "GS316EPP" then "GS316EPP"
  else if Contains htmlContent "GS316EP" then "GS316EP"
  else match Internal.firstContained htmlContent models with
       | Some model => model
       | None =>
           if Contains htmlContent "Redirect to Login"
              || Contains htmlContent "redirect"
           then "GS30xEPx" else ""
       end.

End InternalAlt.


(** ** [net/url]: form values *)

Module URL.

(** [url.Values] is [map[string][]string]. *)
Abbreviation Values := (gmap string (list string)).

(** [Values.Set]: the key now holds exactly this value. *)
Definition Set_ (v : Values) (key value : string) : Values :=
  <[key := [value]]> v.

Definition unreserved (c : ascii) : bool :=
  let n := nat_of_ascii c in
  (Nat.leb 48 n && Nat.leb n 57) || (Nat.leb 65 n && Nat.leb n 90)
  || (Nat.leb 97 n && Nat.leb n 122)
  || Nat.eqb n 45 || Nat.eqb n 95 || Nat.eqb n 46 || Nat.eqb n 126.

Definition upperhex (n : nat) : ascii :=
  nth n (list_ascii_of_string "0123456789ABCDEF") zero.

(** [url.QueryEscape]. *)
Fixpoint QueryEscape (s : string) : string :=
  match s with
  | "" => ""
  | String c s' =>
      if unreserved c then String c (QueryEscape s')
      else if Nat.eqb (nat_of_ascii c) 32 then String "+" (QueryEscape s')
      else String "%" (String (upperhex (nat_of_ascii c / 16))
                              (String (upperhex (nat_of_ascii c mod 16))
                                      (QueryEscape s')))
  end.

(** The keys in increasing byte order, as [slices.Sorted] yields them. *)
Fixpoint insertSorted (kv : string * list string)
         (l : list (string * list string)) : list (string * list string) :=
  match l with
  | [] => [kv]
  | kv' :: l' =>
      if String.leb (fst kv) (fst kv') then kv :: l
      else kv' :: insertSorted kv l'
  end.

Definition sortedEntries (v : Values) : list (string * list string) :=
  foldr insertSorted [] (map_to_list v).

Definition join (sep : string) (l : list string) : string :=
  match l with
  | [] => ""
  | x :: l' => fold_left (fun acc y => acc +:+ sep +:+ y) l' x
  end.

(** [Values.Encode]: [key=value] pairs sorted by key and joined by [&]. *)
Definition Encode (v : Values) : string :=
  join "&"
    (flat_map (fun kv => map (fun x => QueryEscape (fst kv) +:+ "=" +:+ QueryEscape x)
                             (snd kv))
              (sortedEntries v)).

End URL.

(** ** Package [internal]: the HTTP client *)

Module HTTP.

Record Request := {
  Method : string;
  Url : string;
  Header : gmap string string;
  Body : option string
}.

Record Response := {
  RespHeader : gmap string (list string);
  RespBody : string + error
}.

(** [http.Header.Get]: the first value stored under the key. *)
Definition HeaderGet (resp : Response) (key : string) : string :=
  match RespHeader resp !! key with
  | Some (v :: _) => v
  | _ => ""
  end.

(** What [http.Client.Do] answers to a request, given the requests the
    device has already received. *)
Definition RoundTripper := list Request -> Request -> Response + error.

Record HTTPClient := {
  client : RoundTripper;
  baseURL : string;
  verbose : bool
}.

(** Code that talks to the network threads the list of requests sent so
    far. *)
Definition Net (A : Type) : Type := list Request -> A * list Request.

Definition ret {A} (a : A) : Net A := fun sent => (a, sent).

Definition bind {A B} (m : Net A) (k : A -> Net B) : Net B :=
  fun sent => let (a, sent') := m sent in k a sent'.

#[global] Instance Net_ret : MRet Net := @ret.
#[global] Instance Net_bind : MBind Net := fun A B k m => bind m k.

(** The request that [HTTPClient.request] builds: the headers handed in
    (already in canonical form in this package) and the default
    [User-Agent] when none is set. *)
Definition newRequest (method fullURL : string) (body : option string)
           (headers : option (gmap string string)) : Request :=
  let hdr : gmap string string := default ∅ headers in
  let hdr :=
    if String.eqb (default "" (hdr !! "User-Agent")) ""
    then <["User-Agent" := "ntgrrc-library/1.0"]> hdr else hdr in
  {| Method := method; Url := fullURL; Header := hdr; Body := body |}.

(** [HTTPClient.request]. *)
Definition request `{External} (h : HTTPClient) (method path : string)
           (body : option string) (headers : option (gmap string string))
  : Net (Response + error) :=
  fun sent =>
    let fullURL := baseURL h +:+ path in
    match NewRequestError method fullURL with
    | Some e => (inr (Errorf "failed to create request" (LibError e)), sent)
    | None =>
        let req := newRequest method fullURL body headers in
        match client h sent req with
        | inr err => (inr (Errorf "request failed" err), (sent ++ [req])%list)
        | inl resp => (inl resp, (sent ++ [req])%list)
        end
    end.

Definition Get `{External} (h : HTTPClient) (path : string)
           (headers : option (gmap string string)) : Net (Response + error) :=
  request h "GET" path None headers.

Definition Post `{External} (h : HTTPClient) (path : string)
           (data : option URL.Values) (headers : option (gmap string string))
  : Net (Response + error) :=
  match data with
  | Some d =>
      let body := URL.Encode d in
      let headers :=
        <["Content-Type" := "application/x-www-form-urlencoded"]>
          (default ∅ headers) in
      request h "POST" path (Some body) (Some headers)
  | None => request h "POST" path None headers
  end.

Definition ReadBody (resp : Response) : string + error :=
  match RespBody resp with
  | inr err => inr (Errorf "failed to read response body" err)
  | inl body => inl body
  end.

(** [NewHTTPClient]: the address gets the http scheme unless it names
    one; [transport] stands for the [http.Client] it creates (with the
    timeout, and redirects not followed). *)
Definition NewHTTPClient (transport : RoundTripper) (address : string)
           (verbose : bool) : HTTPClient :=
  let address :=
    if negb (Strings.HasPrefix address "http://")
       && negb (Strings.HasPrefix address "https://")
    then "http://" +:+ address else address in
  {| client := transport; baseURL := address; verbose := verbose |}.

End HTTP.


(** ** [os] and [path/filepath]

    The file system holds the contents of the regular files and the set
    of paths at which creating, writing or removing is refused.  An
    operation fails only by being refused, before it changes anything:
    a write that breaks off after the file was truncated is outside the
    model, and so are the directories, which [MkdirAll] does not
    record. *)

Module OS.

Record FS := {
  files : gmap string string;
  denied : gset string
}.

Definition ReadFile (fs : FS) (name : string) : string + error :=
  match files fs !! name with
  | Some data => inl data
  | None => inr ErrNotExist
  end.

Definition MkdirAll (fs : FS) (path : string) : FS * option error :=
  if decide (path ∈ denied fs) then (fs, Some ErrPermission) else (fs, None).

Definition WriteFile (fs : FS) (name data : string) : FS * option error :=
  if decide (name ∈ denied fs) then (fs, Some ErrPermission)
  else ({| files := <[name := data]> (files fs); denied := denied fs |}, None).

Definition Remove (fs : FS) (name : string) : FS * option error :=
  match files fs !! name with
  | None => (fs, Some ErrNotExist)
  | Some _ =>
      if decide (name ∈ denied fs) then (fs, Some ErrPermission)
      else ({| files := delete name (files fs); denied := denied fs |}, None)
  end.

(** [filepath.Join]: the non-empty elements separated by a slash (the
    final [Clean] only rewrites redundant separators and dots). *)
Definition Join (elem : list string) : string :=
  URL.join "/" (filter (fun e => e ≠ "") elem).

End OS.

(** [hash/fnv]: the 32-bit FNV-1a hash. *)
Definition fnv32a (s : string) : Z :=
  fold_left (fun h c => (Z.lxor h (Z.of_nat (nat_of_ascii c)) * 16777619) mod 2 ^ 32)%Z
            (list_ascii_of_string s) 2166136261%Z.

(** ** Package [netgear] *)

Module Netgear.
Import Strings HTTP.

(** *** errors *)

Definition NewError (errorType : ErrorType) (message : string)
           (cause : option error) : error :=
  NetgearError errorType message cause.

Definition NewAuthError := NewError ErrorTypeAuth.
Definition NewNetworkError := NewError ErrorTypeNetwork.
Definition NewParsingError := NewError ErrorTypeParsing.
Definition NewModelError := NewError ErrorTypeModel.
Definition NewOperationError := NewError ErrorTypeOperation.

Definition ErrNotAuthenticated : error :=
  NetgearError ErrorTypeAuth "not authenticated" None.
Definition ErrModelNotDetected : error :=
  NetgearError ErrorTypeModel "could not detect switch model" None.
Definition ErrInvalidCredentials : error :=
  NetgearError ErrorTypeAuth "invalid credentials" None.

(** The kind of a package error. *)
Definition errorType (err : error) : option ErrorType :=
  match err with
  | NetgearError t _ _ => Some t
  | _ => None
  end.

(** *** types: models *)

Definition Model := string.

Definition ModelGS305EP : Model := "GS305EP".
Definition ModelGS305EPP : Model := "GS305EPP".
Definition ModelGS308EP : Model := "GS308EP".
Definition ModelGS308EPP : Model := "GS308EPP".
Definition ModelGS316EP : Model := "GS316EP".
Definition ModelGS316EPP : Model := "GS316EPP".
Definition ModelGS30xEPx : Model := "GS30xEPx".

(** [switch m { case a, b, ...: return true; default: return false }] *)
Definition caseOf (m : Model) (cases : list Model) : bool :=
  existsb (String.eqb m) cases.

Definition IsModel30x (m : Model) : bool :=
  caseOf m [ModelGS305EP; ModelGS305EPP; ModelGS308EP; ModelGS308EPP;
            ModelGS30xEPx].

Definition IsModel316 (m : Model) : bool :=
  caseOf m [ModelGS316EP; ModelGS316EPP].

Definition IsSupported (m : Model) : bool :=
  caseOf m [ModelGS305EP; ModelGS305EPP; ModelGS308EP; ModelGS308EPP;
            ModelGS316EP; ModelGS316EPP; ModelGS30xEPx].

(** *** auth: authentication families *)

Definition AuthenticationType := string.
Definition AuthTypeSession : AuthenticationType := "session".
Definition AuthTypeGambit : AuthenticationType := "gambit".

Definition GetAuthenticationType (model : Model) : AuthenticationType :=
  if IsModel316 model then AuthTypeGambit else AuthTypeSession.

(** *** auth: token managers *)

(** The [TokenManager] interface over a store of type [S]; a method that
    writes returns the store it leaves behind. *)
Class TokenManager (S : Type) := {
  GetToken : S -> string -> (string * Model) + error;
  StoreToken : S -> string -> string -> Model -> S * option error;
  DeleteToken : S -> string -> S * option error
}.

Record tokenData := { td_token : string; td_model : Model }.

Module MemoryTokenManager.

Record t := { tokens : gmap string tokenData }.

Definition New : t := {| tokens := ∅ |}.

Definition GetToken (m : t) (address : string) : (string * Model) + error :=
  match tokens m !! address with
  | None => inr (NewAuthError "token not found" None)
  | Some data => inl (td_token data, td_model data)
  end.

Definition StoreToken (m : t) (address token : string) (model : Model)
  : t * option error :=
  ({| tokens := <[address := {| td_token := token; td_model := model |}]>
                  (tokens m) |}, None).

Definition DeleteToken (m : t) (address : string) : t * option error :=
  ({| tokens := delete address (tokens m) |}, None).

End MemoryTokenManager.

#[global] Instance MemoryTokenManager_ops : TokenManager MemoryTokenManager.t := {
  GetToken := MemoryTokenManager.GetToken;
  StoreToken := MemoryTokenManager.StoreToken;
  DeleteToken := MemoryTokenManager.DeleteToken
}.

Module FileTokenManager.

(** The manager's [dir] field together with the file system it acts on;
    [tmp] is what [os.TempDir()] answers. *)
Record t := { dir : string; tmp : string; fs : OS.FS }.

Definition with_fs (m : t) (fs' : OS.FS) : t :=
  {| dir := dir m; tmp := tmp m; fs := fs' |}.

Definition New (dir tmp : string) (fs : OS.FS) : t :=
  let dir := if String.eqb dir "" then OS.Join [tmp; ".config"; "ntgrrc"] else dir in
  {| dir := dir; tmp := tmp; fs := fs |}.

Definition getTokenFilename (m : t) (address : string) : string :=
  let hash := fnv32a address in
  let tokenDir := dir m in
  let tokenDir := if String.eqb tokenDir "" then tmp m else tokenDir in
  OS.Join [tokenDir; ".config"; "ntgrrc"; "token-" +:+ pretty hash].

Definition GetToken (m : t) (address : string) : (string * Model) + error :=
  let tokenFile := getTokenFilename m address in
  match OS.ReadFile (fs m) tokenFile with
  | inr err => inr (NewAuthError "failed to read token file" (Some err))
  | inl content =>
      if String.eqb content "" then
        inr (NewAuthError "token file is empty, please upgrade your token file" None)
      else if negb (Contains content ":") then
        inr (NewAuthError "malformed token file" None)
      else
        match SplitN2 content ":" with
        | [part0; part1] =>
            let modelStr := TrimSpace part0 in
            let token := TrimSpace part1 in
            let model : Model := modelStr in
            if negb (IsSupported model) then
              inr (NewModelError
                     ("unknown model '" +:+ modelStr +:+ "' in token file") None)
            else inl (token, model)
        | _ => inr (NewAuthError "malformed token file" None)
        end
  end.

Definition StoreToken (m : t) (address token : string) (model : Model)
  : t * option error :=
  let tokenDir := OS.Join [dir m; ".config"; "ntgrrc"] in
  match OS.MkdirAll (fs m) tokenDir with
  | (fs1, Some err) =>
      (with_fs m fs1, Some (NewAuthError "failed to create token directory" (Some err)))
  | (fs1, None) =>
      let tokenFile := getTokenFilename m address in
      let content := model +:+ ":" +:+ token in
      match OS.WriteFile fs1 tokenFile content with
      | (fs2, Some err) =>
          (with_fs m fs2, Some (NewAuthError "failed to write token file" (Some err)))
      | (fs2, None) => (with_fs m fs2, None)
      end
  end.

Definition DeleteToken (m : t) (address : string) : t * option error :=
  let tokenFile := getTokenFilename m address in
  match OS.Remove (fs m) tokenFile with
  | (fs1, Some err) =>
      if negb (IsNotExist err)
      then (with_fs m fs1, Some (NewAuthError "failed to delete token file" (Some err)))
      else (with_fs m fs1, None)
  | (fs1, None) => (with_fs m fs1, None)
  end.

End FileTokenManager.

#[global] Instance FileTokenManager_ops : TokenManager FileTokenManager.t := {
  GetToken := FileTokenManager.GetToken;
  StoreToken := FileTokenManager.StoreToken;
  DeleteToken := FileTokenManager.DeleteToken
}.


(** *** password: the password-resolution collaborator *)

Record SwitchConfig := {
  Host : string;
  Password : string;
  ConfigModel : string
}.

(** The [PasswordManager] interface; a method answers [None] where the Go
    method answers [found = false]. *)
Record PasswordManager := {
  GetPassword : string -> option string;
  GetSwitchConfig : string -> option SwitchConfig
}.

(** *** client *)

(** The [Client] struct over a token store of type [S].  The field
    [passwordMgr] exists only in the variant of the client that resolves
    passwords ([None] is Go's nil interface); the stateless [detector]
    is left out. *)
Record Client (S : Type) := {
  address : string;
  model : Model;
  httpClient : HTTPClient;
  token : string;
  tokenMgr : S;
  passwordMgr : option PasswordManager;
  verbose : bool
}.
Arguments address {S}. Arguments model {S}. Arguments httpClient {S}.
Arguments token {S}. Arguments tokenMgr {S}. Arguments passwordMgr {S}.
Arguments verbose {S}.

Definition set_token {S} (c : Client S) (tok : string) : Client S :=
  {| address := address c; model := model c; httpClient := httpClient c;
     token := tok; tokenMgr := tokenMgr c; passwordMgr := passwordMgr c;
     verbose := verbose c |}.

Definition set_tokenMgr {S} (c : Client S) (mgr : S) : Client S :=
  {| address := address c; model := model c; httpClient := httpClient c;
     token := token c; tokenMgr := mgr; passwordMgr := passwordMgr c;
     verbose := verbose c |}.

(** *** types: sparse update records; a nil pointer field is [None] *)

Record PortUpdate := {
  PortID : Z;
  Name : option string;
  Speed : option string;
  IngressLimit : option string;
  EgressLimit : option string;
  FlowControl : option bool
}.

Record POEPortUpdate `{External} := {
  POEPortID : Z;
  Enabled : option bool;
  Mode : option string;
  Priority : option string;
  PowerLimitType : option string;
  PowerLimitW : option float64;
  DetectionType : option string
}.

(** [strconv.Itoa]. *)
Definition Itoa (n : Z) : string := pretty n.

Section ClientMethods.
Context `{External} {S : Type} `{TokenManager S}.

Definition IsAuthenticated (c : Client S) : bool :=
  negb (String.eqb (token c) "").

(** The end of [detectModel]: the string the detector found is refused
    when it is empty or names no supported model, and is the model
    otherwise. *)
Definition validateModel (modelString : string) : Model + error :=
  if String.eqb modelString "" then inr ErrModelNotDetected
  else
    let model : Model := modelString in
    if negb (IsSupported model) then
      inr (NewModelError
             ("detected model " +:+ model +:+ " is not supported") None)
    else inl model.

(** [detectModel], with the second probe of the login page when the
    root page only shows the generic model. *)
Definition detectModel (c : Client S) : Net (Model + error) :=
  resp ← Get (httpClient c) "/" None;
  match resp with
  | inr err => mret (inr (NewNetworkError "failed to connect to switch" (Some err)))
  | inl resp =>
      match ReadBody resp with
      | inr err => mret (inr (NewNetworkError "failed to read response" (Some err)))
      | inl body =>
          let modelString := Internal.DetectFromHTML body in
          modelString ←
            (if String.eqb modelString "GS30xEPx" then
               loginResp ← Get (httpClient c) "/login.cgi" None;
               match loginResp with
               | inr _ => mret modelString
               | inl loginResp =>
                   match ReadBody loginResp with
                   | inr _ => mret modelString
                   | inl loginBody =>
                       let specificModel := Internal.DetectFromHTML loginBody in
                       if negb (String.eqb specificModel "")
                          && negb (String.eqb specificModel "GS30xEPx")
                       then mret specificModel else mret modelString
                   end
               end
             else mret modelString);
          mret (validateModel modelString)
      end
  end.

Definition getSeedValue (c : Client S) (loginPath : string)
  : Net (string + error) :=
  resp ← Get (httpClient c) loginPath None;
  match resp with
  | inr err => mret (inr err)
  | inl resp =>
      match ReadBody resp with
      | inr err => mret (inr err)
      | inl body =>
          let seedValue := Internal.ExtractSeedValue body in
          if String.eqb seedValue "" then
            mret (inr (NewAuthError "seed value not found in login page" None))
          else mret (inl seedValue)
      end
  end.

Definition encryptPassword (password seedValue : string) : string :=
  Internal.EncryptPasswordWithSeed password seedValue.

Definition sessionIdPrefixes : list string := ["SID="].

(** [for _, prefix := range sessionIdPrefixes { if strings.HasPrefix ... }] *)
Fixpoint sessionTokenFrom (cookie : string) (prefixes : list string) : string :=
  match prefixes with
  | [] => ""
  | prefix :: rest =>
      if HasPrefix cookie prefix then
        let sidVal := drop (String.length prefix) cookie in
        match Index sidVal ";" with
        | Some idx => take idx sidVal
        | None => sidVal
        end
      else sessionTokenFrom cookie rest
  end.

Definition extractSessionToken (resp : Response) : string :=
  let cookie := HeaderGet resp "Set-Cookie" in
  sessionTokenFrom cookie sessionIdPrefixes.

Definition loginWithSession (c : Client S) (password : string)
  : Net (string + error) :=
  seed ← getSeedValue c "/login.cgi";
  match seed with
  | inr err => mret (inr (NewAuthError "failed to get seed value" (Some err)))
  | inl seedValue =>
      let encryptedPassword := encryptPassword password seedValue in
      let data := URL.Set_ ∅ "password" encryptedPassword in
      resp ← Post (httpClient c) "/login.cgi" (Some data) None;
      match resp with
      | inr err => mret (inr (NewNetworkError "login request failed" (Some err)))
      | inl resp =>
          let token := extractSessionToken resp in
          if String.eqb token "" then
            let body := match ReadBody resp with inl b => b | inr _ => "" end in
            let errorMsg := Internal.ExtractErrorMessage body in
            if negb (String.eqb errorMsg "") then
              mret (inr (NewAuthError ("login failed: " +:+ errorMsg) None))
            else mret (inr ErrInvalidCredentials)
          else mret (inl token)
      end
  end.

Definition loginWithGambit (c : Client S) (password : string)
  : Net (string + error) :=
  seed ← getSeedValue c "/wmi/login";
  match seed with
  | inr err => mret (inr (NewAuthError "failed to get seed value" (Some err)))
  | inl seedValue =>
      let encryptedPassword := encryptPassword password seedValue in
      let data := URL.Set_ ∅ "LoginPassword" encryptedPassword in
      resp ← Post (httpClient c) "/redirect.html" (Some data) None;
      match resp with
      | inr err => mret (inr (NewNetworkError "gambit login request failed" (Some err)))
      | inl resp =>
          match ReadBody resp with
          | inr err =>
              mret (inr (NewNetworkError "failed to read gambit login response" (Some err)))
          | inl body =>
              let token := Internal.ExtractGambitToken body in
              if String.eqb token "" then
                let errorMsg := Internal.ExtractErrorMessage body in
                if negb (String.eqb errorMsg "") then
                  mret (inr (NewAuthError ("gambit login failed: " +:+ errorMsg) None))
                else mret (inr ErrInvalidCredentials)
              else mret (inl token)
          end
      end
  end.

(** The end of [Login]: give up on an error, otherwise keep the token
    in memory and hand it to the token manager, whose failure is only
    logged. *)
Definition finishLogin (c : Client S) (r : string + error)
  : Client S * option error :=
  match r with
  | inr err => (c, Some err)
  | inl token =>
      let c := set_token c token in
      let (mgr, _) := StoreToken (tokenMgr c) (address c) token (model c) in
      (set_tokenMgr c mgr, None)
  end.

(** The part of [Login] after the password is known: run the protocol
    variant of the model's family. *)
Definition authenticate (c : Client S) (password : string)
  : Net (Client S * option error) :=
  let authType := GetAuthenticationType (model c) in
  if String.eqb authType AuthTypeSession then
    r ← loginWithSession c password; mret (finishLogin c r)
  else if String.eqb authType AuthTypeGambit then
    r ← loginWithGambit c password; mret (finishLogin c r)
  else
    mret (c, Some (NewAuthError
                     ("unsupported authentication type for model " +:+ model c)
                     None)).

(** [Client.Login] of [pkg/netgear/client.go]. *)
Definition Login (c : Client S) (password : string)
  : Net (Client S * option error) :=
  if String.eqb password "" then
    mret (c, Some (NewAuthError "password cannot be empty" None))
  else authenticate c password.

(** [Client.Login] of the client variant with a [passwordMgr] field. *)
Definition LoginWithPasswordManager (c : Client S) (password : string)
  : Net (Client S * option error) :=
  if String.eqb password "" then
    match passwordMgr c with
    | Some mgr =>
        match GetSwitchConfig mgr (address c) with
        | Some config => authenticate c (Password config)
        | None =>
            mret (c, Some (NewAuthError
                             "no password provided and no environment variable found"
                             None))
        end
    | None => mret (c, Some (NewAuthError "password cannot be empty" None))
    end
  else authenticate c password.

(** [makeAuthenticatedRequest]; a nil [url.Values] is [None]. *)
Definition makeAuthenticatedRequest (c : Client S) (method path : string)
           (data : option URL.Values) : Net (string + error) :=
  if negb (IsAuthenticated c) then mret (inr ErrNotAuthenticated)
  else
    let headers : gmap string string := ∅ in
    let authType := GetAuthenticationType (model c) in
    let '(headers, data) :=
      if String.eqb authType AuthTypeSession then
        (<["Cookie" := "SID=" +:+ token c]> headers, data)
      else if String.eqb authType AuthTypeGambit then
        let data : URL.Values := default ∅ data in
        (headers, Some (URL.Set_ data "Gambit" (token c)))
      else (headers, data) in
    if String.eqb method "GET" then
      let path :=
        if Nat.ltb 0 (size (default (∅ : URL.Values) data))
        then path +:+ "?" +:+ URL.Encode (default ∅ data) else path in
      httpResp ← Get (httpClient c) path (Some headers);
      match httpResp with
      | inr err => mret (inr (NewNetworkError "GET request failed" (Some err)))
      | inl httpResp => mret (ReadBody httpResp)
      end
    else
      httpResp ← Post (httpClient c) path data (Some headers);
      match httpResp with
      | inr err => mret (inr (NewNetworkError "POST request failed" (Some err)))
      | inl httpResp => mret (ReadBody httpResp)
      end.

(** *** ports *)

Definition setIf {A} (field : option A) (key : string) (show : A -> string)
           (data : URL.Values) : URL.Values :=
  match field with
  | Some x => URL.Set_ data key (show x)
  | None => data
  end.

(** The form data [PortManager.UpdatePort] builds for one update. *)
Definition portUpdateData (update : PortUpdate) : URL.Values :=
  let data : URL.Values := ∅ in
  let data := URL.Set_ data "port" (Itoa (PortID update)) in
  let data := setIf (Name update) "name" id data in
  let data := setIf (Speed update) "speed" id data in
  let data := setIf (IngressLimit update) "ingress_limit" id data in
  let data := setIf (EgressLimit update) "egress_limit" id data in
  setIf (FlowControl update) "flow_control"
        (fun b : bool => if b then "on" else "off") data.

(** [for _, update := range updates { ... }] of [PortManager.UpdatePort]. *)
Fixpoint applyPortUpdates (c : Client S) (endpoint : string)
         (updates : list PortUpdate) : Net (option error) :=
  match updates with
  | [] => mret None
  | update :: rest =>
      let data := portUpdateData update in
      response ← makeAuthenticatedRequest c "POST" endpoint (Some data);
      match response with
      | inr err =>
          mret (Some (NewOperationError
                        ("failed to update port " +:+ Itoa (PortID update))
                        (Some err)))
      | inl response =>
          let errorMsg := Internal.ExtractErrorMessage response in
          if negb (String.eqb errorMsg "") then
            mret (Some (NewOperationError
                          ("update failed for port " +:+ Itoa (PortID update)
                           +:+ ": " +:+ errorMsg) None))
          else applyPortUpdates c endpoint rest
      end
  end.

Definition PortManager_UpdatePort (c : Client S) (updates : list PortUpdate)
  : Net (option error) :=
  if negb (IsAuthenticated c) then mret (Some ErrNotAuthenticated)
  else if Nat.eqb (length updates) 0 then
    mret (Some (NewOperationError "no updates provided" None))
  else if IsModel30x (model c) then
    applyPortUpdates c "/PortConfig.cgi" updates
  else if IsModel316 (model c) then
    applyPortUpdates c "/iss/specific/interface.html" updates
  else
    mret (Some (NewOperationError "port updates not supported for this model" None)).

(** *** poe *)

(** The form data [POEManager.UpdatePort] builds for one update. *)
Definition poeUpdateData (update : POEPortUpdate) : URL.Values :=
  let data : URL.Values := ∅ in
  let data := URL.Set_ data "port" (Itoa (POEPortID update)) in
  let data := setIf (Enabled update) "enabled"
                    (fun b : bool => if b then "1" else "0") data in
  let data := setIf (Mode update) "mode" id data in
  let data := setIf (Priority update) "priority" id data in
  let data := setIf (PowerLimitType update) "power_limit_type" id data in
  let data := setIf (PowerLimitW update) "power_limit_w" Sprintf_2f data in
  setIf (DetectionType update) "detection_type" id data.

Fixpoint applyPOEUpdates (c : Client S) (endpoint : string)
         (updates : list POEPortUpdate) : Net (option error) :=
  match updates with
  | [] => mret None
  | update :: rest =>
      let data := poeUpdateData update in
      response ← makeAuthenticatedRequest c "POST" endpoint (Some data);
      match response with
      | inr err =>
          mret (Some (NewOperationError
                        ("failed to update port " +:+ Itoa (POEPortID update))
                        (Some err)))
      | inl response =>
          let errorMsg := Internal.ExtractErrorMessage response in
          if negb (String.eqb errorMsg "") then
            mret (Some (NewOperationError
                          ("update failed for port " +:+ Itoa (POEPortID update)
                           +:+ ": " +:+ errorMsg) None))
          else applyPOEUpdates c endpoint rest
      end
  end.

Definition POEManager_UpdatePort (c : Client S) (updates : list POEPortUpdate)
  : Net (option error) :=
  if negb (IsAuthenticated c) then mret (Some ErrNotAuthenticated)
  else if Nat.eqb (length updates) 0 then
    mret (Some (NewOperationError "no updates provided" None))
  else if IsModel30x (model c) then
    applyPOEUpdates c "/PoEPortConfig.cgi" updates
  else if IsModel316 (model c) then
    applyPOEUpdates c "/iss/specific/poePortConf.html" updates
  else
    mret (Some (NewOperationError "POE updates not supported for this model" None)).

(** *** client: construction and logout *)

Definition set_model (c : Client S) (m : Model) : Client S :=
  {| address := address c; model := m; httpClient := httpClient c;
     token := token c; tokenMgr := tokenMgr c; passwordMgr := passwordMgr c;
     verbose := verbose c |}.

(** The client before a token is loaded or a model detected; [mgr] is the
    token manager and [pm] the password manager that the options leave. *)
Definition newClient (transport : RoundTripper) (address : string) (mgr : S)
           (pm : option PasswordManager) (verbose : bool) : Client S :=
  {| address := address; model := "";
     httpClient := NewHTTPClient transport address verbose;
     token := ""; tokenMgr := mgr; passwordMgr := pm; verbose := verbose |}.

(** [NewClient] of [pkg/netgear/client.go]. *)
Definition NewClient (transport : RoundTripper) (address : string) (mgr : S)
           (verbose : bool) : Net (Client S + error) :=
  let client := newClient transport address mgr None verbose in
  match GetToken (tokenMgr client) address with
  | inl (token, model) => mret (inl (set_model (set_token client token) model))
  | inr _ =>
      r ← detectModel client;
      match r with
      | inr err =>
          mret (inr (NewModelError "failed to detect switch model" (Some err)))
      | inl model => mret (inl (set_model client model))
      end
  end.


(** [Client.Logout]: a failure to delete the stored token is only logged. *)
Definition Logout (c : Client S) : Client S * option error :=
  let c := set_token c "" in
  let (mgr, _) := DeleteToken (tokenMgr c) (address c) in
  (set_tokenMgr c mgr, None).

(** *** poe: power cycling *)

Fixpoint cyclePorts (c : Client S) (endpoint : string) (portIDs : list Z)
  : Net (option error) :=
  match portIDs with
  | [] => mret None
  | portID :: rest =>
      let data : URL.Values := ∅ in
      let data := URL.Set_ data "port" (Itoa portID) in
      let data := URL.Set_ data "action" "cycle" in
      response ← makeAuthenticatedRequest c "POST" endpoint (Some data);
      match response with
      | inr err =>
          mret (Some (NewOperationError
                        ("failed to cycle power for port " +:+ Itoa portID)
                        (Some err)))
      | inl response =>
          let errorMsg := Internal.ExtractErrorMessage response in
          if negb (String.eqb errorMsg "") then
            mret (Some (NewOperationError
                          ("power cycle failed for port " +:+ Itoa portID
                           +:+ ": " +:+ errorMsg) None))
          else cyclePorts c endpoint rest
      end
  end.

Definition POEManager_CyclePower (c : Client S) (portIDs : list Z)
  : Net (option error) :=
  if negb (IsAuthenticated c) then mret (Some ErrNotAuthenticated)
  else if Nat.eqb (length portIDs) 0 then
    mret (Some (NewOperationError "no ports specified for power cycle" None))
  else if IsModel30x (model c) then
    cyclePorts c "/PoEPortConfig.cgi" portIDs
  else if IsModel316 (model c) then
    cyclePorts c "/iss/specific/poePortConf.html" portIDs
  else
    mret (Some (NewOperationError
                  "POE power cycle not supported for this model" None)).

End ClientMethods.

(** *** password: the environment password manager *)

Module EnvironmentPasswordManager.
Section Environment.

(** [strings.ToUpper] of the standard library. *)
Variable ToUpper : string -> string.

(** The process environment; [os.Getenv] answers the empty string for a
    variable that is not set. *)
Definition Getenv (env : gmap string string) (key : string) : string :=
  default "" (env !! key).

Definition normalizeHost (host : string) : string :=
  let normalized := ReplaceAll host "." "_" in
  let normalized := ReplaceAll normalized ":" "_" in
  ToUpper normalized.

(** [for _, entry := range entries { ... }] of [parseMultiSwitchConfig]. *)
Fixpoint parseEntries (entries : list string) (targetHost : string)
  : option SwitchConfig :=
  match entries with
  | [] => None
  | entry :: rest =>
      let entry := TrimSpace entry in
      if String.eqb entry "" then parseEntries rest targetHost
      else
        match SplitN2 entry "=" with
        | [part0; part1] =>
            let host := TrimSpace part0 in
            let passwordAndModel := TrimSpace part1 in
            if negb (String.eqb host targetHost) then parseEntries rest targetHost
            else if Contains passwordAndModel "," then
              match SplitN2 passwordAndModel "," with
              | [modelPart0; modelPart1] =>
                  Some {| Host := host; Password := TrimSpace modelPart0;
                          ConfigModel := TrimSpace modelPart1 |}
              | _ =>
                  (* not reached: a string that contains the separator
                     splits in two *)
                  Some {| Host := host; Password := ""; ConfigModel := "" |}
              end
            else
              Some {| Host := host; Password := passwordAndModel;
                      ConfigModel := "" |}
        | _ => parseEntries rest targetHost
        end
  end.

Definition parseMultiSwitchConfig (env : gmap string string) (targetHost : string)
  : option SwitchConfig :=
  let switchesVar := Getenv env "NETGEAR_SWITCHES" in
  if String.eqb switchesVar "" then None
  else parseEntries (Split switchesVar ";") targetHost.

Definition GetSwitchConfig (env : gmap string string) (address : string)
  : option SwitchConfig :=
  let normalizedHost := normalizeHost address in
  let envVar := "NETGEAR_PASSWORD_" +:+ normalizedHost in
  let password := Getenv env envVar in
  if negb (String.eqb password "") then
    let modelVar := "NETGEAR_MODEL_" +:+ normalizedHost in
    let model := Getenv env modelVar in
    Some {| Host := address; Password := password; ConfigModel := model |}
  else parseMultiSwitchConfig env address.

Definition GetPassword (env : gmap string string) (address : string)
  : option string :=
  match GetSwitchConfig env address with
  | Some config => Some (Password config)
  | None => None
  end.

(** The manager as a [PasswordManager]. *)
Definition manager (env : gmap string string) : PasswordManager :=
  {| Netgear.GetPassword := GetPassword env;
     Netgear.GetSwitchConfig := GetSwitchConfig env |}.

End Environment.
End EnvironmentPasswordManager.

End Netgear.

(** ** The cipher as the specification words it *)

(** Emit [password[0]], [seed[0]], [password[1]], [seed[1]], ... and, past
    the end of the shorter string, the rest of the longer one. *)
Fixpoint interleave (password seed : string) : string :=
  match password, seed with
  | String a password', String b seed' =>
      String a (String b (interleave password' seed'))
  | "", rest => rest
  | rest, "" => rest
  end.

(** The lowercase hexadecimal digits. *)
Definition hexDigits : list ascii := list_ascii_of_string "0123456789abcdef".

(** ** Fixtures for the examples

    A file system, token files and a device that plays the part of a
    switch, on which the statements below are run. *)

Module Fixture.
Import Netgear.

Definition emptyFS : OS.FS := {| OS.files := ∅; OS.denied := ∅ |}.

Definition fileManager : FileTokenManager.t :=
  FileTokenManager.New "/var/tokens" "/tmp" emptyFS.

(** A manager whose token file for the address holds [content]. *)
Definition managerWithFile (address content : string) : FileTokenManager.t :=
  FileTokenManager.with_fs fileManager
    {| OS.files := {[ FileTokenManager.getTokenFilename fileManager address := content ]};
       OS.denied := ∅ |}.

(** A regular-expression engine that knows the answers to the searches
    listed in [table] and finds nothing else. *)
Definition scripted (table : list (string * string * list string))
           (pattern content : string) : list string :=
  match find (fun e => String.eqb (fst (fst e)) pattern
                       && String.eqb (snd (fst e)) content) table with
  | Some e => snd e
  | None => []
  end.

Definition loginPage : string :=
  "<html><title>GS305EP</title><input id=rand value=1234567890></html>".

Definition errorPage : string := "<div class=error>Wrong password</div>".

Definition gambitPage : string := "<script>var Gambit=abc2;</script>".

Definition searches : list (string * string * list string) :=
  [ ("<div[^>]*error[^>]*>([^<]+)</div>", errorPage,
     [errorPage; "Wrong password"]);
    ("Gambit[" +:+ dq +:+ "\s]*[:=][" +:+ dq +:+ "\s]*([a-fA-F0-9]+)", gambitPage,
     ["Gambit=abc2"; "abc2"]) ].

(** Libraries for the examples: the scripted searches, the seed of
    [loginPage], requests that can always be built, and amounts of
    power counted in hundredths of a watt. *)
Definition libraries : External := {|
  FindStringSubmatch := scripted searches;
  FindRandValue := fun content =>
    if Strings.Contains content "id=rand value=1234567890"
    then Some "1234567890" else None;
  NewRequestError := fun _ _ => None;
  float64 := Z;
  Sprintf_2f := fun x =>
    pretty (x / 100)%Z +:+ "." +:+ pretty ((x / 10) mod 10)%Z +:+ pretty (x mod 10)%Z
|}.

Definition page (body : string) : HTTP.Response :=
  {| HTTP.RespHeader := ∅; HTTP.RespBody := inl body |}.

(** A family-A switch at 192.168.1.1 with password secret: the root
    page redirects, the login page shows the model and the seed, and a
    good login is answered with the session cookie. *)
Definition switchA : HTTP.RoundTripper := fun _ req =>
  if String.eqb (HTTP.Method req) "GET" then
    if String.eqb (HTTP.Url req) "http://192.168.1.1/" then
      inl (page "<script>top.location.href=redirect</script>")
    else if String.eqb (HTTP.Url req) "http://192.168.1.1/login.cgi" then
      inl (page loginPage)
    else inl (page "ok")
  else if String.eqb (HTTP.Url req) "http://192.168.1.1/login.cgi" then
    if decide (HTTP.Body req
               = Some ("password="
                       +:+ Internal.EncryptPasswordWithSeed "secret" "1234567890"))
    then inl {| HTTP.RespHeader := {[ "Set-Cookie" := ["SID=tok1;Path=/"] ]};
                HTTP.RespBody := inl "" |}
    else inl (page errorPage)
  else inl (page "").

(** A response that sets a language cookie before the session cookie,
    and a family-A switch that answers every login with it. *)
Definition twoCookies : HTTP.Response :=
  {| HTTP.RespHeader := {[ "Set-Cookie" := ["lang=en"; "SID=tok1;Path=/"] ]};
     HTTP.RespBody := inl "" |}.

Definition switchTwoCookies : HTTP.RoundTripper := fun _ req =>
  if String.eqb (HTTP.Method req) "GET" then inl (page loginPage)
  else inl twoCookies.

(** A switch that answers every request with its error page. *)
Definition switchError : HTTP.RoundTripper := fun _ _ => inl (page errorPage).

(** A family-B switch: the login posted to the redirect page is answered
    with a page that embeds the token. *)
Definition switchB : HTTP.RoundTripper := fun _ req =>
  if String.eqb (HTTP.Method req) "GET" then inl (page loginPage)
  else if String.eqb (HTTP.Url req) "http://192.168.1.1/redirect.html" then
    inl (page gambitPage)
  else inl (page "").

Definition clientOf (device : HTTP.RoundTripper) (model : Model) (token : string)
           (passwordMgr : option PasswordManager)
  : Client MemoryTokenManager.t :=
  {| address := "192.168.1.1"; model := model;
     httpClient := {| HTTP.client := device;
                      HTTP.baseURL := "http://192.168.1.1";
                      HTTP.verbose := false |};
     token := token; tokenMgr := MemoryTokenManager.New;
     passwordMgr := passwordMgr; verbose := false |}.



(** An update of port 1 with no optional field set. *)
Definition emptyPortUpdate : PortUpdate :=
  {| PortID := 1; Name := None; Speed := None; IngressLimit := None;
     EgressLimit := None; FlowControl := None |}.

Definition emptyPOEUpdate : @POEPortUpdate libraries :=
  {| POEPortID := 1; Enabled := None; Mode := None; Priority := None;
     PowerLimitType := None; PowerLimitW := None; DetectionType := None |}.

(** Upper case of the ASCII letters, as [strings.ToUpper] gives on ASCII
    text. *)
Definition asciiUpper (s : string) : string :=
  string_of_list_ascii
    (map (fun c => let n := nat_of_ascii c in
                   if Nat.leb 97 n && Nat.leb n 122 then ascii_of_nat (n - 32) else c)
         (list_ascii_of_string s)).

(** An environment with a password for 192.168.1.1 of its own and a list
    of switches. *)
Definition environment : gmap string string :=
  {[ "NETGEAR_PASSWORD_192_168_1_1" := "secret";
     "NETGEAR_SWITCHES" := "192.168.1.1=other; switch.local = pw2 , GS316EP" ]}.

(** A file manager that may not write the token file of 192.168.1.1. *)
Definition deniedManager : FileTokenManager.t :=
  FileTokenManager.with_fs fileManager
    {| OS.files := {[ FileTokenManager.getTokenFilename fileManager "192.168.1.1"
                      := "GS305EP:old" ]};
       OS.denied := {[ FileTokenManager.getTokenFilename fileManager "192.168.1.1" ]} |}.

End Fixture.

(** * Properties *)

(** ** Byte strings *)

Section StringFacts.
Import Strings.

Lemma append_nil_r (s : string) : s +:+ "" = s.
Proof. induction s as [|c s IH]; simpl; [reflexivity | now rewrite IH]. Qed.

Lemma append_assoc (a b c : string) : (a +:+ b) +:+ c = a +:+ (b +:+ c).
Proof. induction a as [|x a IH]; simpl; [reflexivity | now rewrite IH]. Qed.

Lemma drop_all (i : nat) (s : string) :
  String.length s <= i -> drop i s = "".
Proof.
  revert i; induction s as [|c s IH]; intros [|i] Hle; simpl in *;
    try reflexivity; try lia.
  apply IH; lia.
Qed.

Lemma drop_step (i : nat) (s : string) :
  i < String.length s -> drop i s = String (byteAt s i) (drop (S i) s).
Proof.
  revert i; induction s as [|c s IH]; intros i Hlt; simpl in Hlt; [lia|].
  destruct i as [|i]; [reflexivity|].
  change (drop (S i) (String c s)) with (drop i s).
  rewrite (IH i) by lia. reflexivity.
Qed.

Lemma interleave_nil_r (s : string) : interleave s "" = s.
Proof. destruct s; reflexivity. Qed.

(** The loop of [specialMerge], started at index [i] with enough
    iterations left, appends the interleaving of the two suffixes. *)
Lemma specialMerge_loop_interleave (password seedValue : string) (n : nat) :
  forall (i : nat) (acc : string),
    String.length password <= i + n ->
    String.length seedValue <= i + n ->
    Internal.specialMerge_loop password seedValue n i acc
    = acc +:+ interleave (drop i password) (drop i seedValue).
Proof.
  induction n as [|n IH]; intros i acc Hp Hs; simpl.
  - rewrite !drop_all by lia. simpl. now rewrite append_nil_r.
  - rewrite IH by lia.
    destruct (Nat.ltb_spec i (String.length password)) as [Hip|Hip];
      destruct (Nat.ltb_spec i (String.length seedValue)) as [His|His].
    + rewrite (drop_step i password), (drop_step i seedValue) by assumption.
      unfold WriteByte. simpl. rewrite !append_assoc. reflexivity.
    + rewrite (drop_step i password) by assumption.
      rewrite (drop_all i seedValue), (drop_all (S i) seedValue) by lia.
      rewrite !interleave_nil_r.
      unfold WriteByte. rewrite append_assoc. reflexivity.
    + rewrite (drop_step i seedValue) by assumption.
      rewrite (drop_all i password), (drop_all (S i) password) by lia.
      unfold WriteByte. simpl. rewrite append_assoc. reflexivity.
    + rewrite !(drop_all i), !(drop_all (S i)) by lia. reflexivity.
Qed.

Lemma specialMerge_interleave (password seedValue : string) :
  Internal.specialMerge password seedValue = interleave password seedValue.
Proof.
  unfold Internal.specialMerge.
  rewrite specialMerge_loop_interleave; [reflexivity | |];
    destruct (Nat.ltb_spec (String.length password) (String.length seedValue)); lia.
Qed.

End StringFacts.

(** ** The password cipher *)

(** The digests of RFC 1321's first test strings. *)
Example md5_empty : MD5.hex (MD5.Sum "") = "d41d8cd98f00b204e9800998ecf8427e".
Proof. vm_compute. reflexivity. Qed.

Example md5_abc : MD5.hex (MD5.Sum "abc") = "900150983cd24fb0d6963f7d28e17f72".
Proof. vm_compute. reflexivity. Qed.

Example md5_two_blocks :
  MD5.hex (MD5.Sum "12345678901234567890123456789012345678901234567890123456789012345678901234567890")
  = "57edf4a22be3c955ac49da2e2107b67a".
Proof. vm_compute. reflexivity. Qed.

(** C1: for every password and seed, [EncryptPasswordWithSeed] is the
    lowercase hexadecimal MD5 digest of their interleaving, the merge of
    the code being the interleaving of the specification; the interleaving
    of ab and 1234 is a1b234 and that of abcd and 1 is a1bcd. *)
Theorem EncryptPasswordWithSeed_interleave :
  forall password seed : string,
    Internal.specialMerge password seed = interleave password seed
    /\ Internal.EncryptPasswordWithSeed password seed
       = MD5.hex (MD5.Sum (interleave password seed))
    /\ Internal.specialMerge "ab" "1234" = "a1b234"
    /\ Internal.specialMerge "abcd" "1" = "a1bcd"
    /\ interleave "ab" "1234" = "a1b234"
    /\ interleave "abcd" "1" = "a1bcd".
Proof.
  intros password seed.
  split; [apply specialMerge_interleave|].
  split; [unfold Internal.EncryptPasswordWithSeed; now rewrite specialMerge_interleave|].
  repeat split; reflexivity.
Qed.

(** ** Model detection *)

Section Detection.
Import Strings.

Lemma HasPrefix_nil (s : string) : HasPrefix s "" = true.
Proof. destruct s; reflexivity. Qed.

Lemma HasPrefix_app_l (s a b : string) :
  HasPrefix s (a +:+ b) = true -> HasPrefix s a = true.
Proof.
  revert s; induction a as [|x a IH]; intros s Hp; [apply HasPrefix_nil|].
  destruct s as [|c s]; simpl in *; [discriminate|].
  destruct (Ascii.eqb c x); [now apply IH | discriminate].
Qed.

Lemma Contains_cons (c : ascii) (s sub : string) :
  Contains (String c s) sub = HasPrefix (String c s) sub || Contains s sub.
Proof.
  unfold Contains.
  change (Index (String c s) sub)
    with (if HasPrefix (String c s) sub then Some 0 else S <$> Index s sub).
  destruct (HasPrefix (String c s) sub); [reflexivity|].
  now destruct (Index s sub).
Qed.

(** A fragment that contains a name contains every prefix of the name. *)
Lemma Contains_app_l (s a b : string) :
  Contains s (a +:+ b) = true -> Contains s a = true.
Proof.
  induction s as [|c s IH].
  - unfold Contains.
    change (Index "" (a +:+ b))
      with (if HasPrefix "" (a +:+ b) then Some 0 else None).
    change (Index "" a) with (if HasPrefix "" a then Some 0 else None).
    destruct (HasPrefix "" (a +:+ b)) eqn:Hp; [|discriminate].
    intros _. now rewrite (HasPrefix_app_l _ _ _ Hp).
  - rewrite !Contains_cons. intros [Hp|Hc]%orb_true_iff; apply orb_true_iff.
    + left. exact (HasPrefix_app_l _ _ _ Hp).
    + right. now apply IH.
Qed.

Definition ppModels : list string := ["GS316EPP"; "GS308EPP"; "GS305EPP"].

(** The detector of the current parser returns a name the fragment
    contains, and a PP variant whenever the fragment contains one. *)
Lemma DetectFromHTML_specific (html : string) :
  forall m, In m Internal.specificModels -> Contains html m = true ->
    In (Internal.DetectFromHTML html) Internal.specificModels
    /\ Contains html (Internal.DetectFromHTML html) = true
    /\ (In m ppModels -> In (Internal.DetectFromHTML html) ppModels).
Proof.
  intros m Hin Hc. unfold Internal.DetectFromHTML. simpl.
  destruct (Contains html "GS316EPP") eqn:E1; [simpl; tauto|].
  destruct (Contains html "GS308EPP") eqn:E2; [simpl; tauto|].
  destruct (Contains html "GS305EPP") eqn:E3; [simpl; tauto|].
  destruct (Contains html "GS316EP") eqn:E4;
    [ simpl; repeat split; try tauto;
      intros Hpp; simpl in Hpp; intuition (subst; congruence) |].
  destruct (Contains html "GS308EP") eqn:E5;
    [ simpl; repeat split; try tauto;
      intros Hpp; simpl in Hpp; intuition (subst; congruence) |].
  destruct (Contains html "GS305EP") eqn:E6;
    [ simpl; repeat split; try tauto;
      intros Hpp; simpl in Hpp; intuition (subst; congruence) |].
  simpl in Hin. intuition (subst; congruence).
Qed.

(** Without a specific name the answer is the generic placeholder on a
    redirect page and the empty string otherwise. *)
Lemma DetectFromHTML_generic (html : string) :
  (forall m, In m Internal.specificModels -> Contains html m = false) ->
  Internal.DetectFromHTML html
  = if Internal.looksLikeRedirect html then "GS30xEPx" else "".
Proof.
  intros Hno. unfold Internal.DetectFromHTML. simpl.
  rewrite !Hno by (simpl; tauto). reflexivity.
Qed.

(** The other copy of the detector tests GS305EP before GS305EPP, and
    GS308EP before GS308EPP: a fragment with the PP name is given the
    short name. *)
Lemma DetectFromHTML_alt_short (html : string) :
  Contains html "GS316EP" = false ->
  (Contains html "GS305EPP" = true ->
   InternalAlt.DetectFromHTML html = "GS305EP")
  /\ (Contains html "GS305EP" = false -> Contains html "GS308EPP" = true ->
      InternalAlt.DetectFromHTML html = "GS308EP").
Proof.
  intros H16. unfold InternalAlt.DetectFromHTML.
  assert (Contains html "GS316EPP" = false) as H16P.
  { destruct (Contains html "GS316EPP") eqn:E; [|reflexivity].
    apply (Contains_app_l html "GS316EP" "P") in E. congruence. }
  rewrite H16P, H16. simpl. split.
  - intros H5. apply (Contains_app_l html "GS305EP" "P") in H5. now rewrite H5.
  - intros H5 H8. apply (Contains_app_l html "GS308EP" "P") in H8.
    rewrite H5.
    destruct (Contains html "GS305EPP") eqn:E.
    { apply (Contains_app_l html "GS305EP" "P") in E. congruence. }
    now rewrite H8.
Qed.

End Detection.

(** C2: on the fragment GS305EPP the second copy of [DetectFromHTML]
    answers the short name GS305EP (and GS308EP on GS308EPP), where the
    claim promises the PP variant; the current copy answers the PP
    variant. *)
Theorem DetectFromHTML_alt_GS305EPP :
  InternalAlt.DetectFromHTML "GS305EPP" = "GS305EP"
  /\ InternalAlt.DetectFromHTML "<title>GS308EPP</title>" = "GS308EP"
  /\ Internal.DetectFromHTML "GS305EPP" = "GS305EPP"
  /\ Internal.DetectFromHTML "<title>GS308EPP</title>" = "GS308EPP".
Proof. repeat split; vm_compute; reflexivity. Qed.

(** ** Token managers *)

Section TokenStores.
Import Strings Netgear.

Lemma caseOf_In (m : Model) (cases : list Model) :
  caseOf m cases = true -> In m cases.
Proof.
  unfold caseOf. intros (x & Hx & Heq)%existsb_exists.
  apply String.eqb_eq in Heq. now subst.
Qed.

(** What [GetToken] finds in the line [StoreToken] wrote. *)
Lemma stored_line_parses (model token : string) :
  IsSupported model = true ->
  String.eqb (model +:+ ":" +:+ token) "" = false
  /\ Contains (model +:+ ":" +:+ token) ":" = true
  /\ SplitN2 (model +:+ ":" +:+ token) ":" = [model; token]
  /\ TrimSpace model = model.
Proof.
  intros Hs. apply caseOf_In in Hs. simpl in Hs.
  repeat destruct Hs as [<-|Hs]; try contradiction;
    repeat split; vm_compute; reflexivity.
Qed.

Lemma Index_nonempty (s sub : string) (i : nat) :
  Index s sub = Some i -> sub <> "" -> String.eqb s "" = false.
Proof.
  intros Hi Hsub. destruct s; [|reflexivity].
  destruct sub; [congruence | discriminate].
Qed.

Lemma getTokenFilename_with_fs (m : FileTokenManager.t) (fs' : OS.FS) (address : string) :
  FileTokenManager.getTokenFilename (FileTokenManager.with_fs m fs') address
  = FileTokenManager.getTokenFilename m address.
Proof. reflexivity. Qed.

(** [GetToken] on a file with a colon: the model is what precedes the
    first colon and the token is everything after it. *)
Lemma FileTokenManager_GetToken_colon (m : FileTokenManager.t)
      (address content : string) (i : nat) :
  OS.files (FileTokenManager.fs m) !! FileTokenManager.getTokenFilename m address
    = Some content ->
  Index content ":" = Some i ->
  FileTokenManager.GetToken m address
  = if IsSupported (TrimSpace (take i content))
    then inl (TrimSpace (drop (i + 1) content), TrimSpace (take i content))
    else inr (NewModelError
                ("unknown model '" +:+ TrimSpace (take i content)
                 +:+ "' in token file") None).
Proof.
  intros Hfile Hidx. unfold FileTokenManager.GetToken, OS.ReadFile.
  rewrite Hfile.
  rewrite (Index_nonempty content ":" i Hidx) by discriminate.
  unfold Contains, SplitN2. rewrite Hidx. simpl.
  now destruct (IsSupported (TrimSpace (take i content))).
Qed.

Lemma FileTokenManager_store_get (m : FileTokenManager.t)
      (address token : string) (model : Model) :
  IsSupported model = true ->
  snd (FileTokenManager.StoreToken m address token model) = None ->
  FileTokenManager.GetToken
    (fst (FileTokenManager.StoreToken m address token model)) address
  = inl (TrimSpace token, model).
Proof.
  intros Hs. unfold FileTokenManager.StoreToken, OS.MkdirAll, OS.WriteFile.
  destruct (decide (_ ∈ _)); [discriminate|].
  destruct (decide (_ ∈ _)); [discriminate|]. intros _.
  destruct (stored_line_parses model token Hs) as (Hne & Hc & Hsplit & Htrim).
  unfold FileTokenManager.GetToken, OS.ReadFile.
  cbn [fst FileTokenManager.fs FileTokenManager.with_fs OS.files].
  rewrite getTokenFilename_with_fs, lookup_insert_eq, Hne, Hc, Hsplit.
  cbn [negb]. rewrite Htrim, Hs. reflexivity.
Qed.

Lemma FileTokenManager_delete_get (m : FileTokenManager.t) (address : string) :
  snd (FileTokenManager.DeleteToken m address) = None ->
  FileTokenManager.GetToken
    (fst (FileTokenManager.DeleteToken m address)) address
  = inr (NewAuthError "failed to read token file" (Some ErrNotExist))
  /\ FileTokenManager.DeleteToken
       (fst (FileTokenManager.DeleteToken m address)) address
     = (fst (FileTokenManager.DeleteToken m address), None).
Proof.
  unfold FileTokenManager.DeleteToken, OS.Remove.
  destruct (OS.files (FileTokenManager.fs m)
              !! FileTokenManager.getTokenFilename m address) eqn:Hfile.
  - destruct (decide (_ ∈ _)); [discriminate|]. simpl. intros _.
    unfold FileTokenManager.GetToken, OS.ReadFile.
    rewrite getTokenFilename_with_fs. simpl. rewrite lookup_delete_eq.
    split; reflexivity.
  - simpl. intros _. unfold FileTokenManager.GetToken, OS.ReadFile.
    rewrite getTokenFilename_with_fs. simpl. rewrite Hfile.
    split; [reflexivity|]. now destruct m.
Qed.

End TokenStores.

(** C3 (as the code has it): in the memory manager a stored pair is read
    back exactly, a deleted entry reads as the token-not-found error and
    deleting never fails; in the file manager a token stored for a
    supported model is read back with the model and with the white space
    around the token removed (so exactly, when the token has none), an
    entry deleted without error reads as the authentication error for the
    unreadable file, and deleting it again is not an error. *)
Theorem token_store_roundtrip :
  (forall (m : Netgear.MemoryTokenManager.t) (address token : string)
          (model : Netgear.Model),
      snd (Netgear.StoreToken m address token model) = None
      /\ Netgear.GetToken (fst (Netgear.StoreToken m address token model)) address
         = inl (token, model))
  /\ (forall (m : Netgear.MemoryTokenManager.t) (address : string),
      snd (Netgear.DeleteToken m address) = None
      /\ Netgear.GetToken (fst (Netgear.DeleteToken m address)) address
         = inr (Netgear.NewAuthError "token not found" None)
      /\ snd (Netgear.DeleteToken (fst (Netgear.DeleteToken m address)) address)
         = None)
  /\ (forall (m : Netgear.FileTokenManager.t) (address token : string)
             (model : Netgear.Model),
      Netgear.IsSupported model = true ->
      snd (Netgear.StoreToken m address token model) = None ->
      Netgear.GetToken (fst (Netgear.StoreToken m address token model)) address
      = inl (Strings.TrimSpace token, model)
      /\ (Strings.TrimSpace token = token ->
          Netgear.GetToken (fst (Netgear.StoreToken m address token model)) address
          = inl (token, model)))
  /\ (forall (m : Netgear.FileTokenManager.t) (address : string),
      snd (Netgear.DeleteToken m address) = None ->
      Netgear.GetToken (fst (Netgear.DeleteToken m address)) address
      = inr (Netgear.NewAuthError "failed to read token file" (Some ErrNotExist))
      /\ snd (Netgear.DeleteToken (fst (Netgear.DeleteToken m address)) address)
         = None).
Proof.
  split; [|split; [|split]].
  - intros m address token model. split; [reflexivity|].
    cbn. unfold Netgear.MemoryTokenManager.GetToken. cbn.
    now rewrite lookup_insert_eq.
  - intros m address. split; [reflexivity|]. split; [|reflexivity].
    cbn. unfold Netgear.MemoryTokenManager.GetToken. cbn.
    now rewrite lookup_delete_eq.
  - intros m address token model Hs Hok.
    pose proof (FileTokenManager_store_get m address token model Hs Hok) as Hget.
    split; [exact Hget|]. intros Htrim.
    change (Netgear.GetToken
              (fst (Netgear.StoreToken m address token model)) address)
      with (Netgear.FileTokenManager.GetToken
              (fst (Netgear.FileTokenManager.StoreToken m address token model))
              address).
    rewrite Hget, Htrim. reflexivity.
  - intros m address Hok.
    destruct (FileTokenManager_delete_get m address Hok) as [Hget Hagain].
    split; [exact Hget|].
    change (snd (Netgear.FileTokenManager.DeleteToken
                   (fst (Netgear.FileTokenManager.DeleteToken m address)) address)
            = None).
    now rewrite Hagain.
Qed.

(** The file manager stores and reads back GS305EP with abc123, and
    deletes the entry twice without error. *)
Lemma token_store_roundtrip_witness :
  Netgear.GetToken
    (fst (Netgear.StoreToken Fixture.fileManager "192.168.1.1" "abc123"
                             Netgear.ModelGS305EP))
    "192.168.1.1"
  = inl ("abc123", Netgear.ModelGS305EP)
  /\ snd (Netgear.DeleteToken
            (fst (Netgear.DeleteToken
                    (Fixture.managerWithFile "192.168.1.1" "GS305EP:abc123")
                    "192.168.1.1"))
            "192.168.1.1")
     = None.
Proof.
  split.
  - apply (proj1 (proj2 (proj2 token_store_roundtrip))
             Fixture.fileManager "192.168.1.1" "abc123" Netgear.ModelGS305EP);
      vm_compute; reflexivity.
  - apply (proj2 (proj2 (proj2 token_store_roundtrip))
             (Fixture.managerWithFile "192.168.1.1" "GS305EP:abc123") "192.168.1.1").
    vm_compute; reflexivity.
Defined.

(** C3 as stated fails in the file manager: a token stored with a leading
    space is read back without it. *)
Lemma token_store_roundtrip_counterexample :
  Netgear.IsSupported Netgear.ModelGS305EP = true
  /\ snd (Netgear.StoreToken Fixture.fileManager "192.168.1.1" " abc123"
                             Netgear.ModelGS305EP) = None
  /\ Netgear.GetToken
       (fst (Netgear.StoreToken Fixture.fileManager "192.168.1.1" " abc123"
                                Netgear.ModelGS305EP))
       "192.168.1.1"
     = inl ("abc123", Netgear.ModelGS305EP)
  /\ Netgear.GetToken
       (fst (Netgear.StoreToken Fixture.fileManager "192.168.1.1" " abc123"
                                Netgear.ModelGS305EP))
       "192.168.1.1"
     <> inl (" abc123", Netgear.ModelGS305EP).
Proof.
  split; [reflexivity|]. split; [vm_compute; reflexivity|].
  assert (Netgear.GetToken
       (fst (Netgear.StoreToken Fixture.fileManager "192.168.1.1" " abc123"
                                Netgear.ModelGS305EP))
       "192.168.1.1"
     = inl ("abc123", Netgear.ModelGS305EP)) as Hget by (vm_compute; reflexivity).
  split; [exact Hget|]. rewrite Hget. discriminate.
Qed.

(** C4 (as the code has it): for the token file of an address,
    GS305EP:abc123 reads as token abc123 of model GS305EP; an empty file,
    a missing file and a file without a colon give three different
    authentication errors; a model segment that is no supported model
    gives a Model-kind error; and with further colons there is no error
    and the token is everything after the first colon. *)
Theorem FileTokenManager_GetToken_contents
        (m : Netgear.FileTokenManager.t) (address : string) :
  (OS.files (Netgear.FileTokenManager.fs m)
     !! Netgear.FileTokenManager.getTokenFilename m address = Some "GS305EP:abc123" ->
   Netgear.FileTokenManager.GetToken m address = inl ("abc123", Netgear.ModelGS305EP))
  /\ (OS.files (Netgear.FileTokenManager.fs m)
        !! Netgear.FileTokenManager.getTokenFilename m address = Some "" ->
      Netgear.FileTokenManager.GetToken m address
      = inr (Netgear.NewAuthError
               "token file is empty, please upgrade your token file" None))
  /\ (OS.files (Netgear.FileTokenManager.fs m)
        !! Netgear.FileTokenManager.getTokenFilename m address = None ->
      Netgear.FileTokenManager.GetToken m address
      = inr (Netgear.NewAuthError "failed to read token file" (Some ErrNotExist)))
  /\ (forall content : string,
      OS.files (Netgear.FileTokenManager.fs m)
        !! Netgear.FileTokenManager.getTokenFilename m address = Some content ->
      content <> "" -> Strings.Contains content ":" = false ->
      Netgear.FileTokenManager.GetToken m address
      = inr (Netgear.NewAuthError "malformed token file" None))
  /\ (Netgear.NewAuthError "token file is empty, please upgrade your token file" None
      <> Netgear.NewAuthError "failed to read token file" (Some ErrNotExist)
      /\ Netgear.NewAuthError "token file is empty, please upgrade your token file" None
         <> Netgear.NewAuthError "malformed token file" None
      /\ Netgear.NewAuthError "failed to read token file" (Some ErrNotExist)
         <> Netgear.NewAuthError "malformed token file" None)
  /\ (forall (content : string) (i : nat),
      OS.files (Netgear.FileTokenManager.fs m)
        !! Netgear.FileTokenManager.getTokenFilename m address = Some content ->
      Strings.Index content ":" = Some i ->
      Netgear.IsSupported (Strings.TrimSpace (Strings.take i content)) = false ->
      exists msg : string,
        Netgear.FileTokenManager.GetToken m address
        = inr (NetgearError ErrorTypeModel msg None))
  /\ (forall (content : string) (i : nat),
      OS.files (Netgear.FileTokenManager.fs m)
        !! Netgear.FileTokenManager.getTokenFilename m address = Some content ->
      Strings.Index content ":" = Some i ->
      Netgear.IsSupported (Strings.TrimSpace (Strings.take i content)) = true ->
      Netgear.FileTokenManager.GetToken m address
      = inl (Strings.TrimSpace (Strings.drop (i + 1) content),
             Strings.TrimSpace (Strings.take i content)))
  /\ (OS.files (Netgear.FileTokenManager.fs m)
        !! Netgear.FileTokenManager.getTokenFilename m address
      = Some "GS305EP:abc123:extra:data" ->
      Netgear.FileTokenManager.GetToken m address
      = inl ("abc123:extra:data", Netgear.ModelGS305EP)).
Proof.
  repeat apply conj.
  - intros Hfile.
    rewrite (FileTokenManager_GetToken_colon m address _ 7 Hfile) by reflexivity.
    vm_compute. reflexivity.
  - intros Hfile. unfold Netgear.FileTokenManager.GetToken, OS.ReadFile.
    now rewrite Hfile.
  - intros Hfile. unfold Netgear.FileTokenManager.GetToken, OS.ReadFile.
    now rewrite Hfile.
  - intros content Hfile Hne Hc.
    unfold Netgear.FileTokenManager.GetToken, OS.ReadFile. rewrite Hfile, Hc.
    destruct (String.eqb_spec content ""); [contradiction | reflexivity].
  - discriminate.
  - discriminate.
  - discriminate.
  - intros content i Hfile Hidx Hs.
    rewrite (FileTokenManager_GetToken_colon m address content i Hfile Hidx), Hs.
    eexists. reflexivity.
  - intros content i Hfile Hidx Hs.
    now rewrite (FileTokenManager_GetToken_colon m address content i Hfile Hidx), Hs.
  - intros Hfile.
    rewrite (FileTokenManager_GetToken_colon m address _ 7 Hfile) by reflexivity.
    vm_compute. reflexivity.
Qed.

(** The token file of 192.168.1.1 holding GS305EP:abc123, and the same
    address with an unknown model in its file. *)
Lemma FileTokenManager_GetToken_contents_witness :
  Netgear.FileTokenManager.GetToken
    (Fixture.managerWithFile "192.168.1.1" "GS305EP:abc123") "192.168.1.1"
  = inl ("abc123", Netgear.ModelGS305EP)
  /\ exists msg : string,
      Netgear.FileTokenManager.GetToken
        (Fixture.managerWithFile "192.168.1.1" "UnsupportedModel:token123")
        "192.168.1.1"
      = inr (NetgearError ErrorTypeModel msg None).
Proof.
  split.
  - apply (proj1 (FileTokenManager_GetToken_contents
                    (Fixture.managerWithFile "192.168.1.1" "GS305EP:abc123")
                    "192.168.1.1")).
    vm_compute. reflexivity.
  - apply (proj1 (proj2 (proj2 (proj2 (proj2 (proj2
             (FileTokenManager_GetToken_contents
                (Fixture.managerWithFile "192.168.1.1" "UnsupportedModel:token123")
                "192.168.1.1"))))))
             "UnsupportedModel:token123" 16).
    + vm_compute. reflexivity.
    + vm_compute. reflexivity.
    + vm_compute. reflexivity.
Defined.

(** C4 as stated fails on its last part: the segments after the token are
    not dropped, they are part of the token that is returned. *)
Lemma FileTokenManager_GetToken_counterexample :
  Netgear.FileTokenManager.GetToken
    (Fixture.managerWithFile "192.168.1.1" "GS305EP:abc123:extra") "192.168.1.1"
  = inl ("abc123:extra", Netgear.ModelGS305EP)
  /\ Netgear.FileTokenManager.GetToken
       (Fixture.managerWithFile "192.168.1.1" "GS305EP:abc123:extra") "192.168.1.1"
     <> inl ("abc123", Netgear.ModelGS305EP).
Proof.
  assert (Netgear.FileTokenManager.GetToken
            (Fixture.managerWithFile "192.168.1.1" "GS305EP:abc123:extra")
            "192.168.1.1"
          = inl ("abc123:extra", Netgear.ModelGS305EP)) as Hget
      by (vm_compute; reflexivity).
  split; [exact Hget|]. rewrite Hget. discriminate.
Qed.

(** ** Authenticated requests *)

Section Requests.
Import Strings HTTP Netgear.
Context `{External} {S : Type} `{TokenManager S}.

Lemma IsAuthenticated_true (c : Client S) :
  token c <> "" -> IsAuthenticated c = true.
Proof.
  intros Hne. unfold IsAuthenticated.
  destruct (String.eqb_spec (token c) ""); [contradiction | reflexivity].
Qed.

Lemma size_Set_pos (data : URL.Values) (key value : string) :
  Nat.ltb 0 (size (URL.Set_ data key value)) = true.
Proof.
  apply Nat.ltb_lt. unfold URL.Set_.
  pose proof (proj2 (map_size_non_empty_iff (<[key:=[value]]> data))
                    (insert_non_empty data key [value])).
  lia.
Qed.

Lemma newRequest_header (method fullURL key : string) (body : option string)
      (headers : gmap string string) :
  key <> "User-Agent" ->
  Header (newRequest method fullURL body (Some headers)) !! key = headers !! key.
Proof.
  intros Hk. unfold newRequest. cbn [Header default].
  destruct (String.eqb _ ""); [|reflexivity].
  now rewrite lookup_insert_ne.
Qed.

(** [request] sends nothing when the request cannot be built, and
    otherwise hands it to the device and records it. *)
Lemma request_eq (h : HTTPClient) (method path : string) (body : option string)
      (headers : option (gmap string string)) (sent : list Request) :
  request h method path body headers sent
  = match NewRequestError method (baseURL h +:+ path) with
    | Some e => (inr (Errorf "failed to create request" (LibError e)), sent)
    | None =>
        (match client h sent (newRequest method (baseURL h +:+ path) body headers) with
         | inr err => inr (Errorf "request failed" err)
         | inl resp => inl resp
         end,
         (sent ++ [newRequest method (baseURL h +:+ path) body headers])%list)
    end.
Proof.
  unfold request. destruct (NewRequestError method (baseURL h +:+ path)); [reflexivity|].
  now destruct (client h sent _).
Qed.

Ltac pick_request :=
  match goal with
  | |- context [client _ _ (newRequest ?m ?u ?b ?h)] =>
      exists (newRequest m u b h)
  end.

Ltac finish_request :=
  first
    [ cbn [Method Url newRequest];
      destruct (NewRequestError _ _); [reflexivity | now destruct (client _ _ _)]
    | rewrite newRequest_header by discriminate;
      rewrite ?lookup_insert_ne by discriminate;
      now rewrite ?lookup_insert_eq, ?lookup_empty ].

(** What an authenticated client sends: the one request it builds, with
    the cookie of family A or the Gambit parameter of family B, the form
    data in the address for GET and in the body otherwise; nothing is
    sent when the library refuses to build that request. *)
Lemma makeAuthenticatedRequest_sends (c : Client S) (method path : string)
      (data : option URL.Values) (sent : list Request) :
  token c <> "" ->
  exists (req : Request) (sentData : option URL.Values),
    sentData = (if IsModel316 (model c)
                then Some (URL.Set_ (default ∅ data) "Gambit" (token c))
                else data)
    /\ Header req !! "Cookie"
       = (if IsModel316 (model c) then None else Some ("SID=" +:+ token c))
    /\ Method req = (if String.eqb method "GET" then "GET" else "POST")
    /\ Url req
       = baseURL (httpClient c)
         +:+ (if String.eqb method "GET" && Nat.ltb 0 (size (default (∅ : URL.Values) sentData))
              then path +:+ "?" +:+ URL.Encode (default ∅ sentData)
              else path)
    /\ Body req = (if String.eqb method "GET" then None else URL.Encode <$> sentData)
    /\ makeAuthenticatedRequest c method path data sent
       = match NewRequestError (Method req) (Url req) with
         | Some e =>
             (inr (NewNetworkError
                     (if String.eqb method "GET"
                      then "GET request failed" else "POST request failed")
                     (Some (Errorf "failed to create request" (LibError e)))),
              sent)
         | None =>
             (match client (httpClient c) sent req with
              | inr err =>
                  inr (NewNetworkError
                         (if String.eqb method "GET"
                          then "GET request failed" else "POST request failed")
                         (Some (Errorf "request failed" err)))
              | inl resp => ReadBody resp
              end, (sent ++ [req])%list)
         end.
Proof.
  intros Htok. unfold makeAuthenticatedRequest.
  rewrite (IsAuthenticated_true c Htok). cbn [negb].
  unfold GetAuthenticationType.
  destruct (IsModel316 (model c));
    [ change (String.eqb AuthTypeGambit AuthTypeSession) with false;
      change (String.eqb AuthTypeGambit AuthTypeGambit) with true
    | change (String.eqb AuthTypeSession AuthTypeSession) with true ];
    cbv iota beta;
    destruct (String.eqb method "GET") eqn:Hm; cbn [andb];
    unfold mbind, Net_bind, bind, mret, Net_ret, ret, Get, Post.
  - rewrite request_eq.
    cbn [default id]. rewrite size_Set_pos.
    pick_request. eexists. split; [reflexivity|].
    cbn [default id]. rewrite size_Set_pos. repeat split; finish_request.
  - rewrite request_eq.
    pick_request. eexists. split; [reflexivity|]. repeat split; finish_request.
  - rewrite request_eq.
    pick_request. eexists. split; [reflexivity|]. repeat split; finish_request.
  - destruct data as [d|]; rewrite request_eq;
      pick_request; eexists; (split; [reflexivity|]); repeat split;
      finish_request.
Qed.

Lemma session_family (c : Client S) :
  GetAuthenticationType (model c) = AuthTypeSession -> IsModel316 (model c) = false.
Proof. unfold GetAuthenticationType. now destruct (IsModel316 (model c)). Qed.

Lemma gambit_family (c : Client S) :
  GetAuthenticationType (model c) = AuthTypeGambit -> IsModel316 (model c) = true.
Proof. unfold GetAuthenticationType. now destruct (IsModel316 (model c)). Qed.

(** C5: without a token [makeAuthenticatedRequest] fails with
    [ErrNotAuthenticated] and sends nothing; with a token it builds one
    request and, unless the library refuses to build it (then nothing is
    sent and an error returned), sends exactly that request.  For a
    family-A model the request carries the header Cookie with SID= and
    the token, for a family-B model it carries the form data with Gambit
    set to the token and no cookie, and for GET non-empty form data is
    encoded in the address after a question mark and there is no
    body. *)
Theorem makeAuthenticatedRequest_credential (c : Client S) (method path : string)
        (data : option URL.Values) (sent : list Request) :
  (token c = "" ->
   makeAuthenticatedRequest c method path data sent = (inr ErrNotAuthenticated, sent))
  /\ (token c <> "" ->
      exists req : Request,
        Method req = (if String.eqb method "GET" then "GET" else "POST")
        /\ (NewRequestError (Method req) (Url req) = None ->
            makeAuthenticatedRequest c method path data sent
            = (match client (httpClient c) sent req with
               | inr err =>
                   inr (NewNetworkError
                          (if String.eqb method "GET"
                           then "GET request failed" else "POST request failed")
                          (Some (Errorf "request failed" err)))
               | inl resp => ReadBody resp
               end, (sent ++ [req])%list))
        /\ (forall e : string,
               NewRequestError (Method req) (Url req) = Some e ->
               exists err : error,
                 makeAuthenticatedRequest c method path data sent = (inr err, sent))
        /\ (GetAuthenticationType (model c) = AuthTypeSession ->
            Header req !! "Cookie" = Some ("SID=" +:+ token c)
            /\ (method = "GET" -> forall d : URL.Values,
                  data = Some d -> 0 < size d ->
                  Url req = baseURL (httpClient c) +:+ path +:+ "?" +:+ URL.Encode d
                  /\ Body req = None)
            /\ (method = "GET" -> size (default (∅ : URL.Values) data) = 0 ->
                Url req = baseURL (httpClient c) +:+ path /\ Body req = None)
            /\ (method <> "GET" ->
                Url req = baseURL (httpClient c) +:+ path
                /\ Body req = URL.Encode <$> data))
        /\ (GetAuthenticationType (model c) = AuthTypeGambit ->
            exists d : URL.Values,
              d = URL.Set_ (default ∅ data) "Gambit" (token c)
              /\ d !! "Gambit" = Some [token c]
              /\ Header req !! "Cookie" = None
              /\ (method = "GET" ->
                  Url req = baseURL (httpClient c) +:+ path +:+ "?" +:+ URL.Encode d
                  /\ Body req = None)
              /\ (method <> "GET" ->
                  Url req = baseURL (httpClient c) +:+ path
                  /\ Body req = Some (URL.Encode d)))).
Proof.
  split.
  - intros Htok. unfold makeAuthenticatedRequest, IsAuthenticated.
    now rewrite Htok.
  - intros Htok.
    destruct (makeAuthenticatedRequest_sends c method path data sent Htok)
      as (req & sentData & Hdata & Hcookie & Hmethod & Hurl & Hbody & Hrun).
    exists req. split; [exact Hmethod|].
    split; [intros Hnew; now rewrite Hrun, Hnew|].
    split; [intros e Hnew; rewrite Hrun, Hnew; now eexists|].
    split.
    + intros Hfam. rewrite (session_family c Hfam) in Hdata, Hcookie.
      subst sentData. split; [exact Hcookie|]. split; [|split].
      * intros -> d -> Hsize. cbn [String.eqb Ascii.eqb Bool.eqb andb default id] in Hurl, Hbody.
        apply Nat.ltb_lt in Hsize. rewrite Hsize in Hurl. now split.
      * intros -> Hsize. cbn [String.eqb Ascii.eqb Bool.eqb andb] in Hurl, Hbody.
        rewrite Hsize in Hurl. now split.
      * intros Hne. destruct (String.eqb_spec method "GET"); [contradiction|].
        now split.
    + intros Hfam. rewrite (gambit_family c Hfam) in Hdata, Hcookie.
      subst sentData. eexists. split; [reflexivity|]. split.
      * unfold URL.Set_. apply lookup_insert_eq.
      * split; [exact Hcookie|].
        cbn [default id] in Hurl. rewrite size_Set_pos in Hurl. split.
        -- intros ->. cbn [String.eqb Ascii.eqb Bool.eqb andb] in Hurl, Hbody.
           now split.
        -- intros Hne. destruct (String.eqb_spec method "GET"); [contradiction|].
           rewrite andb_false_l in Hurl. now split.
Qed.

End Requests.

(** An unauthenticated client is refused before anything is sent; the
    client authenticated with tok1 at the family-A switch sends its
    cookie, and the one authenticated with abc2 at the family-B switch
    sends the token in the address of its GET. *)
Lemma makeAuthenticatedRequest_credential_witness :
  @Netgear.makeAuthenticatedRequest Fixture.libraries _
     (Fixture.clientOf Fixture.switchA Netgear.ModelGS305EP "" None)
     "GET" "/getPoePortStatus.cgi" None []
  = (inr Netgear.ErrNotAuthenticated, [])
  /\ (exists req : HTTP.Request,
      snd (@Netgear.makeAuthenticatedRequest Fixture.libraries _
             (Fixture.clientOf Fixture.switchA Netgear.ModelGS305EP "tok1" None)
             "GET" "/getPoePortStatus.cgi" None [])
      = [req]
      /\ HTTP.Header req !! "Cookie" = Some "SID=tok1")
  /\ exists req : HTTP.Request,
      snd (@Netgear.makeAuthenticatedRequest Fixture.libraries _
             (Fixture.clientOf Fixture.switchB Netgear.ModelGS316EP "abc2" None)
             "GET" "/iss/specific/poePortStatus.html" None [])
      = [req]
      /\ HTTP.Url req
         = "http://192.168.1.1/iss/specific/poePortStatus.html?Gambit=abc2"
      /\ HTTP.Body req = None.
Proof.
  split; [|split].
  - apply (proj1 (@makeAuthenticatedRequest_credential Fixture.libraries _
                    (Fixture.clientOf Fixture.switchA Netgear.ModelGS305EP "" None)
                    "GET" "/getPoePortStatus.cgi" None [])).
    reflexivity.
  - destruct (proj2 (@makeAuthenticatedRequest_credential Fixture.libraries _
                       (Fixture.clientOf Fixture.switchA Netgear.ModelGS305EP "tok1" None)
                       "GET" "/getPoePortStatus.cgi" None []))
      as (req & _ & Hrun & _ & Hsession & _).
    + discriminate.
    + exists req. split; [now rewrite (Hrun eq_refl)|].
      apply Hsession. reflexivity.
  - destruct (proj2 (@makeAuthenticatedRequest_credential Fixture.libraries _
                       (Fixture.clientOf Fixture.switchB Netgear.ModelGS316EP "abc2" None)
                       "GET" "/iss/specific/poePortStatus.html" None []))
      as (req & _ & Hrun & _ & _ & Hgambit).
    + discriminate.
    + exists req. split; [now rewrite (Hrun eq_refl)|].
      destruct (Hgambit eq_refl) as (d & -> & _ & _ & Hget & _).
      destruct (Hget eq_refl) as [Hurl Hbody].
      split; [rewrite Hurl; vm_compute; reflexivity | exact Hbody].
Defined.

(** ** The session login *)

Section SessionLogin.
Import Strings HTTP Netgear.
Context `{External} {S : Type} `{TokenManager S}.

Lemma HasPrefix_app (p s : string) : HasPrefix (p +:+ s) p = true.
Proof.
  induction p as [|c p IH]; simpl; [reflexivity|].
  now rewrite Ascii.eqb_refl.
Qed.

Lemma drop_app (p s : string) : drop (String.length p) (p +:+ s) = s.
Proof. induction p as [|c p IH]; simpl; [reflexivity | exact IH]. Qed.

Lemma take_app (p s : string) : take (String.length p) (p +:+ s) = p.
Proof. induction p as [|c p IH]; simpl; [now destruct s | now rewrite IH]. Qed.

Lemma Index_cons (c : ascii) (s sub : string) :
  Index (String c s) sub
  = if HasPrefix (String c s) sub then Some 0 else Datatypes.S <$> Index s sub.
Proof. reflexivity. Qed.

Lemma Index_none_app (tok rest : string) :
  Index tok ";" = None ->
  Index (tok +:+ ";" +:+ rest) ";" = Some (String.length tok).
Proof.
  induction tok as [|c tok IH]; intros Hnone.
  - reflexivity.
  - rewrite Index_cons in Hnone.
    change ((String c tok) +:+ ";" +:+ rest)
      with (String c (tok +:+ ";" +:+ rest)).
    rewrite Index_cons.
    change (HasPrefix (String c tok) ";")
      with (if Ascii.eqb c ";" then true else false) in Hnone.
    change (HasPrefix (String c (tok +:+ ";" +:+ rest)) ";")
      with (if Ascii.eqb c ";" then true else false).
    destruct (Ascii.eqb c ";"); [discriminate|].
    destruct (Index tok ";") eqn:E; [discriminate|].
    now rewrite IH.
Qed.

(** The token of a cookie SID=tok followed by attributes, or by nothing. *)
Lemma sessionTokenFrom_SID (tok rest : string) :
  Index tok ";" = None ->
  sessionTokenFrom ("SID=" +:+ tok +:+ ";" +:+ rest) sessionIdPrefixes = tok
  /\ sessionTokenFrom ("SID=" +:+ tok) sessionIdPrefixes = tok.
Proof.
  intros Hnone. unfold sessionIdPrefixes, sessionTokenFrom.
  rewrite !HasPrefix_app, !drop_app.
  rewrite (Index_none_app tok rest Hnone), Hnone, take_app. now split.
Qed.

(** [loginWithSession] once the seed is fetched and the login posted. *)
Lemma loginWithSession_posted (c : Client S) (password : string)
      (sent sent1 sent2 : list Request) (seedValue : string) (resp : Response) :
  getSeedValue c "/login.cgi" sent = (inl seedValue, sent1) ->
  Post (httpClient c) "/login.cgi"
       (Some (URL.Set_ ∅ "password"
                (Internal.EncryptPasswordWithSeed password seedValue)))
       None sent1 = (inl resp, sent2) ->
  loginWithSession c password sent
  = (if String.eqb (extractSessionToken resp) "" then
       if negb (String.eqb
                  (Internal.ExtractErrorMessage
                     (match ReadBody resp with inl b => b | inr _ => "" end)) "")
       then inr (NewAuthError
                   ("login failed: "
                    +:+ Internal.ExtractErrorMessage
                          (match ReadBody resp with inl b => b | inr _ => "" end))
                   None)
       else inr ErrInvalidCredentials
     else inl (extractSessionToken resp), sent2).
Proof.
  intros Hseed Hpost. unfold loginWithSession, mbind, Net_bind, bind.
  rewrite Hseed. unfold encryptPassword. rewrite Hpost.
  destruct (String.eqb (extractSessionToken resp) ""); [|reflexivity].
  now destruct (negb _).
Qed.

Lemma Login_session (c : Client S) (password : string) (sent : list Request) :
  password <> "" ->
  GetAuthenticationType (model c) = AuthTypeSession ->
  Login c password sent
  = (finishLogin c (fst (loginWithSession c password sent)),
     snd (loginWithSession c password sent)).
Proof.
  intros Hpw Hfam. unfold Login, authenticate.
  destruct (String.eqb_spec password ""); [contradiction|].
  rewrite Hfam. change (String.eqb AuthTypeSession AuthTypeSession) with true.
  cbv iota. unfold mbind, Net_bind, bind.
  now destruct (loginWithSession c password sent).
Qed.

(** C6 (as the code has it): the session token is read from the first
    Set-Cookie header of the response only: it is what follows SID= in
    that header, up to the first semicolon (tok1 for SID=tok1;Path=/),
    and it is empty when that header does not begin with SID=, whatever
    the later Set-Cookie headers are, or when there is none.  A login
    whose response gives a non-empty token succeeds and holds that
    token; when the token is empty the login fails with the error
    message found in the response body, if there is one, and with
    [ErrInvalidCredentials] otherwise. *)
Theorem session_token_extraction (c : Client S) (password : string)
        (sent sent1 sent2 : list Request) (seedValue : string) (resp : Response) :
  (forall first tok rest : string, forall others : list string,
      RespHeader resp !! "Set-Cookie" = Some (first :: others) ->
      Index tok ";" = None ->
      (first = "SID=" +:+ tok +:+ ";" +:+ rest -> extractSessionToken resp = tok)
      /\ (first = "SID=" +:+ tok -> extractSessionToken resp = tok))
  /\ (forall (first : string) (others : list string),
         RespHeader resp !! "Set-Cookie" = Some (first :: others) ->
         HasPrefix first "SID=" = false ->
         extractSessionToken resp = "")
  /\ (RespHeader resp !! "Set-Cookie" = None
      \/ RespHeader resp !! "Set-Cookie" = Some [] ->
      extractSessionToken resp = "")
  /\ (forall others : list string,
         RespHeader resp !! "Set-Cookie" = Some ("SID=tok1;Path=/" :: others) ->
         extractSessionToken resp = "tok1")
  /\ (password <> "" ->
      GetAuthenticationType (model c) = AuthTypeSession ->
      getSeedValue c "/login.cgi" sent = (inl seedValue, sent1) ->
      Post (httpClient c) "/login.cgi"
           (Some (URL.Set_ ∅ "password"
                    (Internal.EncryptPasswordWithSeed password seedValue)))
           None sent1 = (inl resp, sent2) ->
      (extractSessionToken resp <> "" ->
       snd (fst (Login c password sent)) = None
       /\ token (fst (fst (Login c password sent))) = extractSessionToken resp
       /\ snd (Login c password sent) = sent2)
      /\ (extractSessionToken resp = "" ->
          (Internal.ExtractErrorMessage
             (match ReadBody resp with inl b => b | inr _ => "" end) <> "" ->
           Login c password sent
           = ((c, Some (NewAuthError
                          ("login failed: "
                           +:+ Internal.ExtractErrorMessage
                                 (match ReadBody resp with inl b => b | inr _ => "" end))
                          None)), sent2))
          /\ (Internal.ExtractErrorMessage
                (match ReadBody resp with inl b => b | inr _ => "" end) = "" ->
              Login c password sent = ((c, Some ErrInvalidCredentials), sent2)))).
Proof.
  split; [|split; [|split; [|split]]].
  - intros first tok rest others Hhdr Hnone.
    unfold extractSessionToken, HeaderGet. rewrite Hhdr.
    split; intros ->; apply (sessionTokenFrom_SID tok rest Hnone).
  - intros first others Hhdr Hp.
    unfold extractSessionToken, HeaderGet. rewrite Hhdr.
    unfold sessionIdPrefixes, sessionTokenFrom. now rewrite Hp.
  - unfold extractSessionToken, HeaderGet. intros [-> | ->]; reflexivity.
  - intros others Hhdr. unfold extractSessionToken, HeaderGet. rewrite Hhdr.
    reflexivity.
  - intros Hpw Hfam Hseed Hpost.
    rewrite (Login_session c password sent Hpw Hfam).
    rewrite (loginWithSession_posted c password sent sent1 sent2 seedValue resp Hseed Hpost).
    cbn [fst snd]. split.
    + intros Hne. destruct (String.eqb_spec (extractSessionToken resp) "");
        [contradiction|].
      unfold finishLogin. cbn [set_token tokenMgr address model].
      destruct (StoreToken _ _ _ _) as [mgr e]. now repeat split.
    + intros Hempty. rewrite Hempty. cbn [String.eqb]. split; intros Hmsg.
      * destruct (String.eqb_spec (Internal.ExtractErrorMessage
           (match ReadBody resp with inl b => b | inr _ => "" end)) "");
          [contradiction | reflexivity].
      * rewrite Hmsg. reflexivity.
Qed.

End SessionLogin.

(** The family-A switch answers a good login with SID=tok1;Path=/, and
    the client then holds tok1; it answers a wrong password with its
    error page, whose message becomes the login error. *)
Lemma session_token_extraction_witness :
  Netgear.token (fst (fst (@Netgear.Login Fixture.libraries _ _
                     (Fixture.clientOf Fixture.switchA Netgear.ModelGS305EP "" None)
                     "secret" [])))
  = "tok1"
  /\ fst (@Netgear.Login Fixture.libraries _ _
            (Fixture.clientOf Fixture.switchA Netgear.ModelGS305EP "" None)
            "wrong" [])
     = (Fixture.clientOf Fixture.switchA Netgear.ModelGS305EP "" None,
        Some (Netgear.NewAuthError "login failed: Wrong password" None)).
Proof.
  pose (c := Fixture.clientOf Fixture.switchA Netgear.ModelGS305EP "" None).
  pose (sent1 := snd (@Netgear.getSeedValue Fixture.libraries _ c "/login.cgi" [])).
  pose (post := fun password : string =>
          @HTTP.Post Fixture.libraries (Netgear.httpClient c) "/login.cgi"
            (Some (URL.Set_ ∅ "password"
                     (Internal.EncryptPasswordWithSeed password "1234567890")))
            None sent1).
  split.
  - destruct (proj1 (proj2 (proj2 (proj2 (proj2
                (@session_token_extraction Fixture.libraries _ _ c "secret"
                   [] sent1 (snd (post "secret")) "1234567890"
                   {| HTTP.RespHeader := {[ "Set-Cookie" := ["SID=tok1;Path=/"] ]};
                      HTTP.RespBody := inl "" |}))))
              ltac:(discriminate) eq_refl
              ltac:(vm_compute; reflexivity) ltac:(vm_compute; reflexivity))
              ltac:(vm_compute; discriminate))
      as (_ & Htok & _).
    fold c. rewrite Htok. reflexivity.
  - assert (@Netgear.Login Fixture.libraries _ _ c "wrong" []
            = ((c, Some (Netgear.NewAuthError
                           ("login failed: "
                            +:+ @Internal.ExtractErrorMessage Fixture.libraries
                                  (match HTTP.ReadBody (Fixture.page Fixture.errorPage) with
                                   | inl b => b
                                   | inr _ => ""
                                   end))
                           None)), snd (post "wrong"))) as Hlogin.
    { apply (proj2 (proj2 (proj2 (proj2
               (@session_token_extraction Fixture.libraries _ _ c "wrong"
                  [] sent1 (snd (post "wrong")) "1234567890"
                  (Fixture.page Fixture.errorPage)))))).
      - discriminate.
      - reflexivity.
      - vm_compute. reflexivity.
      - vm_compute. reflexivity.
      - vm_compute. reflexivity.
      - vm_compute. discriminate. }
    fold c. rewrite Hlogin. vm_compute. reflexivity.
Defined.

(** C6 as stated fails: the device sets a language cookie before the
    session cookie, so a Set-Cookie header beginning with SID= is in
    the response, yet no token is extracted and the login with the right
    password fails with [ErrInvalidCredentials]. *)
Lemma session_token_extraction_counterexample :
  (In "SID=tok1;Path=/" ["lang=en"; "SID=tok1;Path=/"]
   /\ HTTP.RespHeader Fixture.twoCookies !! "Set-Cookie"
      = Some ["lang=en"; "SID=tok1;Path=/"]
   /\ Strings.HasPrefix "SID=tok1;Path=/" "SID=" = true)
  /\ Netgear.extractSessionToken Fixture.twoCookies = ""
  /\ fst (@Netgear.Login Fixture.libraries _ _
            (Fixture.clientOf Fixture.switchTwoCookies Netgear.ModelGS305EP "" None)
            "secret" [])
     = (Fixture.clientOf Fixture.switchTwoCookies Netgear.ModelGS305EP "" None,
        Some Netgear.ErrInvalidCredentials).
Proof.
  split; [|split].
  - split; [right; left; reflexivity | split; reflexivity].
  - reflexivity.
  - vm_compute. reflexivity.
Qed.

(** ** Login *)

Section LoginProperties.
Import Strings HTTP Netgear.
Context `{External} {S : Type} `{TokenManager S}.

(** A failed protocol run leaves the client as it was; a successful one
    changes the token and the token manager only. *)
Lemma finishLogin_cases (c : Client S) (r : string + error) :
  match r with
  | inr err => finishLogin c r = (c, Some err)
  | inl tok =>
      snd (finishLogin c r) = None
      /\ token (fst (finishLogin c r)) = tok
      /\ model (fst (finishLogin c r)) = model c
      /\ address (fst (finishLogin c r)) = address c
      /\ tokenMgr (fst (finishLogin c r))
         = fst (StoreToken (tokenMgr c) (address c) tok (model c))
  end.
Proof.
  destruct r as [tok|err]; [|reflexivity].
  unfold finishLogin. cbn [set_token address model tokenMgr token].
  destruct (StoreToken (tokenMgr c) (address c) tok (model c)) as [mgr e].
  repeat split.
Qed.

(** [authenticate] runs exactly one protocol variant, chosen by the
    family of the model, and finishes with its result. *)
Lemma authenticate_run (c : Client S) (password : string) (sent : list Request) :
  exists (r : string + error) (sent' : list Request),
    ((GetAuthenticationType (model c) = AuthTypeSession
      /\ loginWithSession c password sent = (r, sent'))
     \/ (GetAuthenticationType (model c) = AuthTypeGambit
         /\ loginWithGambit c password sent = (r, sent')))
    /\ authenticate c password sent = (finishLogin c r, sent').
Proof.
  unfold authenticate, GetAuthenticationType.
  destruct (IsModel316 (model c)).
  - change (String.eqb AuthTypeGambit AuthTypeSession) with false.
    change (String.eqb AuthTypeGambit AuthTypeGambit) with true. cbv iota.
    unfold mbind, Net_bind, bind.
    destruct (loginWithGambit c password sent) as [r sent'] eqn:E.
    exists r, sent'. split; [right; now split | reflexivity].
  - change (String.eqb AuthTypeSession AuthTypeSession) with true. cbv iota.
    unfold mbind, Net_bind, bind.
    destruct (loginWithSession c password sent) as [r sent'] eqn:E.
    exists r, sent'. split; [left; now split | reflexivity].
Qed.

Lemma authenticate_atomic (c c' : Client S) (password : string)
      (sent sent' : list Request) (result : option error) :
  authenticate c password sent = ((c', result), sent') ->
  match result with
  | Some err => c' = c
  | None =>
      exists tok : string,
        ((GetAuthenticationType (model c) = AuthTypeSession
          /\ loginWithSession c password sent = (inl tok, sent'))
         \/ (GetAuthenticationType (model c) = AuthTypeGambit
             /\ loginWithGambit c password sent = (inl tok, sent')))
        /\ token c' = tok /\ model c' = model c /\ address c' = address c
  end.
Proof.
  destruct (authenticate_run c password sent) as (r & s1 & Hvariant & ->).
  pose proof (finishLogin_cases c r) as Hfin.
  intros Heq. injection Heq as Hc ->.
  destruct r as [tok|err].
  - destruct Hfin as (Hnone & Htok & Hmodel & Haddr & _).
    rewrite Hc in Hnone, Htok, Hmodel, Haddr. cbn [fst snd] in *.
    subst result. exists tok. repeat split; assumption.
  - rewrite Hfin in Hc. injection Hc as <- <-. reflexivity.
Qed.


(** C10: a [Login] that returns an error leaves the client as it was,
    token and model included; a [Login] that succeeds has obtained its
    token from the protocol variant of the model's family, and only the
    token (and the token manager) changed.  Both hold for the variant
    with a password manager. *)
Theorem Login_atomic (c c' : Client S) (password : string)
        (sent sent' : list Request) :
  (forall err : error,
      Login c password sent = ((c', Some err), sent') ->
      c' = c /\ token c' = token c /\ model c' = model c)
  /\ (Login c password sent = ((c', None), sent') ->
      exists tok : string,
        ((GetAuthenticationType (model c) = AuthTypeSession
          /\ loginWithSession c password sent = (inl tok, sent'))
         \/ (GetAuthenticationType (model c) = AuthTypeGambit
             /\ loginWithGambit c password sent = (inl tok, sent')))
        /\ token c' = tok /\ model c' = model c /\ address c' = address c)
  /\ (forall err : error,
      LoginWithPasswordManager c password sent = ((c', Some err), sent') ->
      c' = c /\ token c' = token c /\ model c' = model c)
  /\ (LoginWithPasswordManager c password sent = ((c', None), sent') ->
      exists resolved tok : string,
        ((GetAuthenticationType (model c) = AuthTypeSession
          /\ loginWithSession c resolved sent = (inl tok, sent'))
         \/ (GetAuthenticationType (model c) = AuthTypeGambit
             /\ loginWithGambit c resolved sent = (inl tok, sent')))
        /\ token c' = tok /\ model c' = model c /\ address c' = address c).
Proof.
  repeat apply conj.
  - intros err. unfold Login.
    destruct (String.eqb password "").
    + intros [= <- _ _]. now repeat split.
    + intros Hrun. apply authenticate_atomic in Hrun. subst c'. now repeat split.
  - unfold Login. destruct (String.eqb password ""); [discriminate|].
    intros Hrun. exact (authenticate_atomic _ _ _ _ _ _ Hrun).
  - intros err. unfold LoginWithPasswordManager.
    destruct (String.eqb password "");
      [destruct (passwordMgr c) as [mgr|];
       [destruct (GetSwitchConfig mgr (address c)) as [config|]|]|].
    + intros Hrun. apply authenticate_atomic in Hrun. subst c'. now repeat split.
    + intros [= <- _ _]. now repeat split.
    + intros [= <- _ _]. now repeat split.
    + intros Hrun. apply authenticate_atomic in Hrun. subst c'. now repeat split.
  - unfold LoginWithPasswordManager.
    destruct (String.eqb password "");
      [destruct (passwordMgr c) as [mgr|];
       [destruct (GetSwitchConfig mgr (address c)) as [config|]|]|];
      try discriminate.
    + intros Hrun. exists (Password config).
      exact (authenticate_atomic _ _ _ _ _ _ Hrun).
    + intros Hrun. exists password.
      exact (authenticate_atomic _ _ _ _ _ _ Hrun).
Qed.

End LoginProperties.



(** A wrong password at the family-A switch: the login fails and the
    client is unchanged. *)
Lemma Login_atomic_witness :
  fst (fst (@Netgear.Login Fixture.libraries _ _
              (Fixture.clientOf Fixture.switchA Netgear.ModelGS305EP "old" None)
              "wrong" []))
  = Fixture.clientOf Fixture.switchA Netgear.ModelGS305EP "old" None
  /\ Netgear.token
       (fst (fst (@Netgear.Login Fixture.libraries _ _
                    (Fixture.clientOf Fixture.switchA Netgear.ModelGS305EP "old" None)
                    "wrong" [])))
     = "old".
Proof.
  destruct (@Netgear.Login Fixture.libraries _ _
              (Fixture.clientOf Fixture.switchA Netgear.ModelGS305EP "old" None)
              "wrong" []) as [[c' result] sent'] eqn:Hrun.
  assert (result = Some (Netgear.NewAuthError "login failed: Wrong password" None))
    as Hres.
  { change result with
      (snd (fst ((c', result, sent') :
                   Netgear.Client Netgear.MemoryTokenManager.t * option error
                   * list HTTP.Request))).
    rewrite <- Hrun. vm_compute. reflexivity. }
  subst result.
  destruct (proj1 (@Login_atomic Fixture.libraries _ _
                     (Fixture.clientOf Fixture.switchA Netgear.ModelGS305EP "old" None)
                     c' "wrong" [] sent') _ Hrun) as (Hc & Htok & _).
  cbn [fst]. split; [exact Hc | exact Htok].
Defined.

(** ** Models and families *)

Section Models.
Import Strings HTTP Netgear.
Context `{External} {S : Type} `{TokenManager S}.





End Models.



(** ** Port and POE updates *)

Section Updates.
Import Strings HTTP Netgear.
Context `{External} {S : Type} `{TokenManager S}.

(** What one update does once the client is authenticated and the POST
    to the endpoint can be built: the form data is posted to the
    endpoint and the answer decides the result. *)
Lemma post_update (c : Client S) (endpoint : string) (data : URL.Values)
      (sent : list Request) :
  token c <> "" ->
  NewRequestError "POST" (baseURL (httpClient c) +:+ endpoint) = None ->
  exists (req : Request) (response : string + error),
    makeAuthenticatedRequest c "POST" endpoint (Some data) sent
    = (response, (sent ++ [req])%list)
    /\ Method req = "POST"
    /\ Url req = baseURL (httpClient c) +:+ endpoint
    /\ Body req
       = Some (URL.Encode (if IsModel316 (model c)
                           then URL.Set_ data "Gambit" (token c) else data))
    /\ (forall (resp : Response) (body : string),
           client (httpClient c) sent req = inl resp ->
           ReadBody resp = inl body -> response = inl body).
Proof.
  intros Htok Hnew.
  destruct (makeAuthenticatedRequest_sends c "POST" endpoint (Some data) sent Htok)
    as (req & sentData & Hdata & _ & Hmethod & Hurl & Hbody & Hrun).
  cbn [String.eqb Ascii.eqb Bool.eqb andb default id] in *.
  rewrite Hmethod, Hurl, Hnew in Hrun.
  exists req. eexists. split; [exact Hrun|].
  split; [exact Hmethod|]. split; [exact Hurl|]. split.
  - rewrite Hbody, Hdata. now destruct (IsModel316 (model c)).
  - intros resp body Hresp Hread. now rewrite Hresp.
Qed.

Lemma supported_family (m : Model) :
  IsSupported m = true -> IsModel30x m = true \/ IsModel316 m = true.
Proof.
  intros Hs. apply caseOf_In in Hs. simpl in Hs.
  repeat destruct Hs as [<-|Hs]; try contradiction;
    first [left; reflexivity | right; reflexivity].
Qed.

Ltac finish_update Hm Hu Hb Hok :=
  eexists; eexists; split; [reflexivity|];
  split; [exact Hm|]; split; [exact Hu|]; split; [exact Hb|];
  intros resp body' Hresp Hread Hmsg;
  specialize (Hok resp body' Hresp Hread);
  first [ discriminate Hok
        | injection Hok as ->; congruence
        | injection Hok as ->;
          match goal with
          | E : negb (String.eqb _ "") = _ |- _ =>
              rewrite Hmsg in E; discriminate E
          end
        | reflexivity ].

(** C8 (as the code has it): an authenticated [UpdatePort] of either
    manager refuses an empty list of updates with the Operation error
    that no updates were provided, sending nothing; an update with no
    optional field set is sent like any other, as one POST to the
    endpoint of the model whose form data is the port (and the Gambit
    token for family B) whenever that one request can be built, and
    succeeds when the device answers a page without an error
    message. *)
Theorem UpdatePort_no_fields (c : Client S) (sent : list Request) (port : Z) :
  (token c <> "" ->
   PortManager_UpdatePort c [] sent
   = (Some (NewOperationError "no updates provided" None), sent)
   /\ POEManager_UpdatePort c [] sent
      = (Some (NewOperationError "no updates provided" None), sent))
  /\ (token c <> "" ->
      IsSupported (model c) = true ->
      NewRequestError "POST"
        (baseURL (httpClient c)
         +:+ (if IsModel30x (model c)
              then "/PortConfig.cgi" else "/iss/specific/interface.html"))
      = None ->
      exists (req : Request) (result : option error),
        PortManager_UpdatePort c
          [{| PortID := port; Name := None; Speed := None; IngressLimit := None;
              EgressLimit := None; FlowControl := None |}] sent
        = (result, (sent ++ [req])%list)
        /\ Method req = "POST"
        /\ Url req
           = baseURL (httpClient c)
             +:+ (if IsModel30x (model c)
                  then "/PortConfig.cgi" else "/iss/specific/interface.html")
        /\ Body req
           = Some (URL.Encode
                     (if IsModel316 (model c)
                      then URL.Set_ (URL.Set_ ∅ "port" (Itoa port)) "Gambit" (token c)
                      else URL.Set_ ∅ "port" (Itoa port)))
        /\ (forall (resp : Response) (body : string),
               client (httpClient c) sent req = inl resp ->
               ReadBody resp = inl body ->
               Internal.ExtractErrorMessage body = "" ->
               result = None))
  /\ (token c <> "" ->
      IsSupported (model c) = true ->
      NewRequestError "POST"
        (baseURL (httpClient c)
         +:+ (if IsModel30x (model c)
              then "/PoEPortConfig.cgi" else "/iss/specific/poePortConf.html"))
      = None ->
      exists (req : Request) (result : option error),
        POEManager_UpdatePort c
          [{| POEPortID := port; Enabled := None; Mode := None; Priority := None;
              PowerLimitType := None; PowerLimitW := None;
              DetectionType := None |}] sent
        = (result, (sent ++ [req])%list)
        /\ Method req = "POST"
        /\ Url req
           = baseURL (httpClient c)
             +:+ (if IsModel30x (model c)
                  then "/PoEPortConfig.cgi" else "/iss/specific/poePortConf.html")
        /\ Body req
           = Some (URL.Encode
                     (if IsModel316 (model c)
                      then URL.Set_ (URL.Set_ ∅ "port" (Itoa port)) "Gambit" (token c)
                      else URL.Set_ ∅ "port" (Itoa port)))
        /\ (forall (resp : Response) (body : string),
               client (httpClient c) sent req = inl resp ->
               ReadBody resp = inl body ->
               Internal.ExtractErrorMessage body = "" ->
               result = None)).
Proof.
  split; [|split].
  - intros Htok. unfold PortManager_UpdatePort, POEManager_UpdatePort.
    rewrite (IsAuthenticated_true c Htok). split; reflexivity.
  - intros Htok Hs Hnew. unfold PortManager_UpdatePort.
    rewrite (IsAuthenticated_true c Htok). cbn [negb length Nat.eqb].
    destruct (IsModel30x (model c)) eqn:E30;
      [|destruct (IsModel316 (model c)) eqn:E316;
        [|destruct (supported_family _ Hs); congruence]];
      cbv iota in Hnew;
      cbn [applyPortUpdates]; unfold portUpdateData;
      cbn [PortID Name Speed IngressLimit EgressLimit FlowControl setIf];
      unfold mbind, Net_bind, bind, mret, Net_ret, ret;
      match goal with
      | |- context [makeAuthenticatedRequest c "POST" ?e (Some ?d) sent] =>
          destruct (post_update c e d sent Htok Hnew)
            as (req & response & Hrun & Hm & Hu & Hb & Hok)
      end;
      rewrite Hrun; try rewrite E316 in Hb;
      (destruct response as [body|err];
       [destruct (negb (String.eqb (Internal.ExtractErrorMessage body) "")) eqn:Emsg|]);
      finish_update Hm Hu Hb Hok.
  - intros Htok Hs Hnew. unfold POEManager_UpdatePort.
    rewrite (IsAuthenticated_true c Htok). cbn [negb length Nat.eqb].
    destruct (IsModel30x (model c)) eqn:E30;
      [|destruct (IsModel316 (model c)) eqn:E316;
        [|destruct (supported_family _ Hs); congruence]];
      cbv iota in Hnew;
      cbn [applyPOEUpdates]; unfold poeUpdateData;
      cbn [POEPortID Enabled Mode Priority PowerLimitType PowerLimitW
           DetectionType setIf];
      unfold mbind, Net_bind, bind, mret, Net_ret, ret;
      match goal with
      | |- context [makeAuthenticatedRequest c "POST" ?e (Some ?d) sent] =>
          destruct (post_update c e d sent Htok Hnew)
            as (req & response & Hrun & Hm & Hu & Hb & Hok)
      end;
      rewrite Hrun; try rewrite E316 in Hb;
      (destruct response as [body|err];
       [destruct (negb (String.eqb (Internal.ExtractErrorMessage body) "")) eqn:Emsg|]);
      finish_update Hm Hu Hb Hok.
Qed.

End Updates.

(** The client authenticated at the family-A switch: an empty list of
    updates is refused, an update of port 1 with no field set is posted. *)
Lemma UpdatePort_no_fields_witness :
  @Netgear.PortManager_UpdatePort Fixture.libraries _
     (Fixture.clientOf Fixture.switchA Netgear.ModelGS305EP "tok1" None) [] []
  = (Some (Netgear.NewOperationError "no updates provided" None), [])
  /\ exists (req : HTTP.Request) (result : option error),
      @Netgear.PortManager_UpdatePort Fixture.libraries _
         (Fixture.clientOf Fixture.switchA Netgear.ModelGS305EP "tok1" None)
         [Fixture.emptyPortUpdate] []
      = (result, [req])
      /\ HTTP.Method req = "POST"
      /\ HTTP.Url req = "http://192.168.1.1/PortConfig.cgi".
Proof.
  pose proof (@UpdatePort_no_fields Fixture.libraries _
                (Fixture.clientOf Fixture.switchA Netgear.ModelGS305EP "tok1" None)
                [] 1%Z) as (Hnone & Hport & _).
  split.
  - apply Hnone. discriminate.
  - destruct Hport as (req & result & Hrun & Hm & Hu & _).
    + discriminate.
    + reflexivity.
    + reflexivity.
    + exists req, result. split; [exact Hrun|]. split; [exact Hm | exact Hu].
Defined.

(** C8 as stated fails: updates of port 1 with no optional field set are
    not refused; each is posted to the device with the port as its only
    form field, and the call returns no error. *)
Lemma UpdatePort_no_fields_counterexample :
  (Netgear.Name Fixture.emptyPortUpdate = None
   /\ Netgear.Speed Fixture.emptyPortUpdate = None
   /\ Netgear.IngressLimit Fixture.emptyPortUpdate = None
   /\ Netgear.EgressLimit Fixture.emptyPortUpdate = None
   /\ Netgear.FlowControl Fixture.emptyPortUpdate = None)
  /\ fst (@Netgear.PortManager_UpdatePort Fixture.libraries _
            (Fixture.clientOf Fixture.switchA Netgear.ModelGS305EP "tok1" None)
            [Fixture.emptyPortUpdate] [])
     = None
  /\ map (fun req => (HTTP.Method req, HTTP.Url req, HTTP.Body req))
         (snd (@Netgear.PortManager_UpdatePort Fixture.libraries _
                 (Fixture.clientOf Fixture.switchA Netgear.ModelGS305EP "tok1" None)
                 [Fixture.emptyPortUpdate] []))
     = [("POST", "http://192.168.1.1/PortConfig.cgi", Some "port=1")]
  /\ fst (@Netgear.POEManager_UpdatePort Fixture.libraries _
            (Fixture.clientOf Fixture.switchA Netgear.ModelGS305EP "tok1" None)
            [Fixture.emptyPOEUpdate] [])
     = None
  /\ map (fun req => (HTTP.Method req, HTTP.Url req, HTTP.Body req))
         (snd (@Netgear.POEManager_UpdatePort Fixture.libraries _
                 (Fixture.clientOf Fixture.switchA Netgear.ModelGS305EP "tok1" None)
                 [Fixture.emptyPOEUpdate] []))
     = [("POST", "http://192.168.1.1/PoEPortConfig.cgi", Some "port=1")].
Proof.
  split; [repeat split|].
  repeat split; vm_compute; reflexivity.
Qed.

(** * Further properties of the code *)

(** ** The cipher *)

Section CipherFacts.
Import Strings.

Lemma interleave_length (p s : string) :
  String.length (interleave p s) = String.length p + String.length s.
Proof.
  revert s; induction p as [|a p IH]; intros [|b s]; simpl; try lia.
  rewrite IH. lia.
Qed.

Lemma le_bytes_range (n : nat) (x : Z) :
  Forall (fun b => (0 <= b < 256)%Z) (MD5.le_bytes n x).
Proof.
  revert x; induction n as [|n IH]; intros x; simpl; constructor.
  - apply Z.mod_pos_bound. lia.
  - apply IH.
Qed.

Lemma le_bytes_length (n : nat) (x : Z) : length (MD5.le_bytes n x) = n.
Proof. revert x; induction n as [|n IH]; intros x; simpl; [|rewrite IH]; reflexivity. Qed.

Lemma hexdigit_hex (x : Z) : (0 <= x < 16)%Z -> In (MD5.hexdigit x) hexDigits.
Proof.
  intros Hx. unfold MD5.hexdigit, hexDigits. apply nth_In.
  change (length (list_ascii_of_string "0123456789abcdef")) with 16.
  change (Z.to_nat x < 16). lia.
Qed.

Lemma hex_format (bs : list Z) :
  Forall (fun b => (0 <= b < 256)%Z) bs ->
  String.length (MD5.hex bs) = 2 * length bs
  /\ Forall (fun c => In c hexDigits) (list_ascii_of_string (MD5.hex bs)).
Proof.
  induction 1 as [|b bs Hb _ [IHlen IHall]]; simpl; [split; [reflexivity | constructor]|].
  split; [rewrite IHlen; lia|].
  constructor; [|constructor; [|exact IHall]]; apply hexdigit_hex.
  - split; [apply Z.div_pos; lia | apply Z.div_lt_upper_bound; lia].
  - apply Z.mod_pos_bound. lia.
Qed.

Lemma Sum_format (msg : string) :
  length (MD5.Sum msg) = 16 /\ Forall (fun b => (0 <= b < 256)%Z) (MD5.Sum msg).
Proof.
  unfold MD5.Sum.
  generalize (MD5.blocks
                (length (MD5.pad (map (fun c => Z.of_nat (nat_of_ascii c))
                                      (list_ascii_of_string msg))) / 64)
                MD5.init
                (MD5.pad (map (fun c => Z.of_nat (nat_of_ascii c))
                              (list_ascii_of_string msg)))).
  intros st. split.
  - rewrite !length_app, !le_bytes_length. reflexivity.
  - rewrite !Forall_app. repeat split; apply le_bytes_range.
Qed.

Lemma digest_format (msg : string) :
  String.length (MD5.hex (MD5.Sum msg)) = 32
  /\ Forall (fun c => In c hexDigits) (list_ascii_of_string (MD5.hex (MD5.Sum msg))).
Proof.
  destruct (Sum_format msg) as [Hlen Hrange].
  destruct (hex_format _ Hrange) as [Hl Hall].
  split; [rewrite Hl, Hlen; reflexivity | exact Hall].
Qed.

End CipherFacts.

(** X1: the merge of the cipher keeps every byte: its length is the sum
    of the lengths of the password and of the seed, and merging with an
    empty string gives the other string back. *)
Theorem specialMerge_length (password seedValue : string) :
  String.length (Internal.specialMerge password seedValue)
  = String.length password + String.length seedValue
  /\ Internal.specialMerge password "" = password
  /\ Internal.specialMerge "" seedValue = seedValue.
Proof.
  rewrite !specialMerge_interleave. split; [apply interleave_length|].
  split; [apply interleave_nil_r | reflexivity].
Qed.

(** X2: whatever the password and the seed, the encrypted password (with
    or without seed) is a string of exactly 32 characters, each of them
    a lowercase hexadecimal digit. *)
Theorem EncryptPassword_format (password seedValue : string) :
  (String.length (Internal.EncryptPasswordWithSeed password seedValue) = 32
   /\ Forall (fun c => In c hexDigits)
             (list_ascii_of_string
                (Internal.EncryptPasswordWithSeed password seedValue)))
  /\ (String.length (Internal.EncryptPassword password) = 32
      /\ Forall (fun c => In c hexDigits)
                (list_ascii_of_string (Internal.EncryptPassword password))).
Proof. split; apply digest_format. Qed.

(** ** Detection and models *)

Section DetectionFacts.
Import Strings Netgear.

Lemma DetectFromHTML_range (html : string) :
  In (Internal.DetectFromHTML html) Internal.specificModels
  \/ Internal.DetectFromHTML html = "GS30xEPx"
  \/ Internal.DetectFromHTML html = "".
Proof.
  unfold Internal.DetectFromHTML. simpl.
  repeat match goal with
         | |- context [if Contains html ?m then _ else _] =>
             destruct (Contains html m); [left; simpl; tauto|]
         end.
  destruct (Internal.looksLikeRedirect html); [right; left | right; right];
    reflexivity.
Qed.

Lemma DetectFromHTML_supported (html : string) :
  Internal.DetectFromHTML html = ""
  \/ IsSupported (Internal.DetectFromHTML html) = true.
Proof.
  destruct (DetectFromHTML_range html) as [Hin|[->| ->]];
    [right | right; reflexivity | left; reflexivity].
  simpl in Hin. repeat destruct Hin as [<-|Hin]; try contradiction; reflexivity.
Qed.

End DetectionFacts.

(** X3: the detector of the current parser returns a model name that the
    page contains whenever it contains one, and never a name that is a
    proper prefix of another contained name; without any name it returns
    the generic placeholder on a redirect page and the empty string
    otherwise; whatever it returns is empty or a supported model. *)
Theorem DetectFromHTML_most_specific (html : string) :
  (forall m : string,
      In m Internal.specificModels -> Strings.Contains html m = true ->
      In (Internal.DetectFromHTML html) Internal.specificModels
      /\ Strings.Contains html (Internal.DetectFromHTML html) = true
      /\ (forall m' : string,
             In m' Internal.specificModels -> Strings.Contains html m' = true ->
             Strings.HasPrefix m' (Internal.DetectFromHTML html) = true ->
             m' = Internal.DetectFromHTML html))
  /\ ((forall m : string,
          In m Internal.specificModels -> Strings.Contains html m = false) ->
      Internal.DetectFromHTML html
      = if Internal.looksLikeRedirect html then "GS30xEPx" else "")
  /\ (Internal.DetectFromHTML html = ""
      \/ Netgear.IsSupported (Internal.DetectFromHTML html) = true).
Proof.
  split; [|split; [apply DetectFromHTML_generic | apply DetectFromHTML_supported]].
  intros m Hin Hc.
  destruct (DetectFromHTML_specific html m Hin Hc) as (Hres & Hcont & _).
  split; [exact Hres|]. split; [exact Hcont|].
  intros m' Hin' Hc'. revert Hres Hcont.
  unfold Internal.DetectFromHTML. simpl.
  destruct (Strings.Contains html "GS316EPP") eqn:E1;
    [|destruct (Strings.Contains html "GS308EPP") eqn:E2;
      [|destruct (Strings.Contains html "GS305EPP") eqn:E3;
        [|destruct (Strings.Contains html "GS316EP") eqn:E4;
          [|destruct (Strings.Contains html "GS308EP") eqn:E5;
            [|destruct (Strings.Contains html "GS305EP") eqn:E6]]]]];
    intros Hres Hcont Hp; simpl in Hin';
    repeat destruct Hin' as [<-|Hin']; try contradiction;
    try reflexivity; try congruence; try (vm_compute in Hp; discriminate Hp).
Qed.

(** A page that names GS305EPP (and so GS305EP) next to a redirect
    marker is detected as GS305EPP. *)
Lemma DetectFromHTML_most_specific_witness :
  Internal.DetectFromHTML "<title>GS305EPP</title> redirect" = "GS305EPP"
  /\ Internal.DetectFromHTML "<p>Redirect to Login</p>" = "GS30xEPx".
Proof.
  split.
  - symmetry.
    apply (proj2 (proj2 (proj1 (DetectFromHTML_most_specific
                                  "<title>GS305EPP</title> redirect")
                               "GS305EP" ltac:(simpl; tauto) eq_refl))
             "GS305EPP"); [simpl; tauto | reflexivity | reflexivity].
  - apply (proj1 (proj2 (DetectFromHTML_most_specific "<p>Redirect to Login</p>"))).
    intros m Hin. simpl in Hin.
    repeat destruct Hin as [<-|Hin]; try contradiction; reflexivity.
Defined.

(** X4: the two series split the supported models: a model is supported
    exactly when it is of the 30x series or of the 316 series, and no
    model is of both, so the endpoint of an operation is decided by the
    model alone. *)
Theorem model_series_partition (m : Netgear.Model) :
  Netgear.IsSupported m = Netgear.IsModel30x m || Netgear.IsModel316 m
  /\ Netgear.IsModel30x m && Netgear.IsModel316 m = false.
Proof.
  unfold Netgear.IsSupported, Netgear.IsModel30x, Netgear.IsModel316,
    Netgear.caseOf. cbn [existsb].
  destruct (String.eqb_spec m Netgear.ModelGS305EP); [subst; split; reflexivity|].
  destruct (String.eqb_spec m Netgear.ModelGS305EPP); [subst; split; reflexivity|].
  destruct (String.eqb_spec m Netgear.ModelGS308EP); [subst; split; reflexivity|].
  destruct (String.eqb_spec m Netgear.ModelGS308EPP); [subst; split; reflexivity|].
  destruct (String.eqb_spec m Netgear.ModelGS316EP); [subst; split; reflexivity|].
  destruct (String.eqb_spec m Netgear.ModelGS316EPP); [subst; split; reflexivity|].
  destruct (String.eqb_spec m Netgear.ModelGS30xEPx); [subst; split; reflexivity|].
  split; reflexivity.
Qed.

(** ** Token managers, once more *)

(** X5: in the memory manager the addresses are independent and the last
    write wins: storing or deleting the token of one address leaves what
    is read at every other address unchanged, and after two stores at the
    same address the second pair is read. *)
Theorem MemoryTokenManager_frame (m : Netgear.MemoryTokenManager.t)
        (a b token token' : string) (model model' : Netgear.Model) :
  (a <> b ->
   Netgear.MemoryTokenManager.GetToken
     (fst (Netgear.MemoryTokenManager.StoreToken m a token model)) b
   = Netgear.MemoryTokenManager.GetToken m b
   /\ Netgear.MemoryTokenManager.GetToken
        (fst (Netgear.MemoryTokenManager.DeleteToken m a)) b
      = Netgear.MemoryTokenManager.GetToken m b)
  /\ Netgear.MemoryTokenManager.GetToken
       (fst (Netgear.MemoryTokenManager.StoreToken
               (fst (Netgear.MemoryTokenManager.StoreToken m a token model))
               a token' model')) a
     = inl (token', model').
Proof.
  unfold Netgear.MemoryTokenManager.GetToken. cbn. split.
  - intros Hne. now rewrite lookup_insert_ne, lookup_delete_ne.
  - now rewrite lookup_insert_eq.
Qed.

(** Storing for 192.168.1.1 does not make 192.168.1.2 readable. *)
Lemma MemoryTokenManager_frame_witness :
  Netgear.MemoryTokenManager.GetToken
    (fst (Netgear.MemoryTokenManager.StoreToken
            Netgear.MemoryTokenManager.New "192.168.1.1" "tok1" Netgear.ModelGS305EP))
    "192.168.1.2"
  = inr (Netgear.NewAuthError "token not found" None).
Proof.
  rewrite (proj1 (proj1 (MemoryTokenManager_frame
                           Netgear.MemoryTokenManager.New
                           "192.168.1.1" "192.168.1.2" "tok1" "tok1"
                           Netgear.ModelGS305EP Netgear.ModelGS305EP)
                        ltac:(discriminate))).
  reflexivity.
Defined.

Section FileStoreFacts.
Import Strings Netgear.

Lemma with_fs_same (m : FileTokenManager.t) :
  FileTokenManager.with_fs m (FileTokenManager.fs m) = m.
Proof. now destruct m. Qed.


End FileStoreFacts.



(** ** Form data and cookies *)

Section FormFacts.
Import Strings HTTP Netgear.
Context `{External}.

Lemma setIf_lookup {A} (field : option A) (key k : string) (show : A -> string)
      (data : URL.Values) :
  setIf field key show data !! k
  = if decide (key = k)
    then match field with Some x => Some [show x] | None => data !! k end
    else data !! k.
Proof.
  unfold setIf, URL.Set_. destruct field as [x|].
  - rewrite lookup_insert. destruct (decide (key = k)); reflexivity.
  - destruct (decide (key = k)); reflexivity.
Qed.

End FormFacts.

(** X7: the form data of an update holds exactly the fields that are
    set: the port always, each optional field of a [PortUpdate] or a
    [POEPortUpdate] under its own key when it is set and not at all when
    it is not, and no other key. *)
Theorem update_form_fields `{External} (u : Netgear.PortUpdate)
        (p : Netgear.POEPortUpdate) (k : string) :
  (Netgear.portUpdateData u !! "port" = Some [Netgear.Itoa (Netgear.PortID u)]
   /\ Netgear.portUpdateData u !! "name" = (fun x => [x]) <$> Netgear.Name u
   /\ Netgear.portUpdateData u !! "speed" = (fun x => [x]) <$> Netgear.Speed u
   /\ Netgear.portUpdateData u !! "ingress_limit"
      = (fun x => [x]) <$> Netgear.IngressLimit u
   /\ Netgear.portUpdateData u !! "egress_limit"
      = (fun x => [x]) <$> Netgear.EgressLimit u
   /\ Netgear.portUpdateData u !! "flow_control"
      = (fun b : bool => [if b then "on" else "off"]) <$> Netgear.FlowControl u
   /\ (~ In k ["port"; "name"; "speed"; "ingress_limit"; "egress_limit";
               "flow_control"] ->
       Netgear.portUpdateData u !! k = None))
  /\ (Netgear.poeUpdateData p !! "port" = Some [Netgear.Itoa (Netgear.POEPortID p)]
      /\ Netgear.poeUpdateData p !! "enabled"
         = (fun b : bool => [if b then "1" else "0"]) <$> Netgear.Enabled p
      /\ Netgear.poeUpdateData p !! "mode" = (fun x => [x]) <$> Netgear.Mode p
      /\ Netgear.poeUpdateData p !! "priority" = (fun x => [x]) <$> Netgear.Priority p
      /\ Netgear.poeUpdateData p !! "power_limit_type"
         = (fun x => [x]) <$> Netgear.PowerLimitType p
      /\ Netgear.poeUpdateData p !! "power_limit_w"
         = (fun x => [Sprintf_2f x]) <$> Netgear.PowerLimitW p
      /\ Netgear.poeUpdateData p !! "detection_type"
         = (fun x => [x]) <$> Netgear.DetectionType p
      /\ (~ In k ["port"; "enabled"; "mode"; "priority"; "power_limit_type";
                  "power_limit_w"; "detection_type"] ->
          Netgear.poeUpdateData p !! k = None)).
Proof.
  split.
  - unfold Netgear.portUpdateData.
    repeat split; try (intros Hk; cbn [In] in Hk);
      rewrite !setIf_lookup; unfold URL.Set_; rewrite lookup_insert, lookup_empty;
      repeat (case_decide; try congruence; try tauto);
      repeat match goal with
             | |- context [match ?o with Some _ => _ | None => _ end] => destruct o
             end; reflexivity.
  - unfold Netgear.poeUpdateData.
    repeat split; try (intros Hk; cbn [In] in Hk);
      rewrite !setIf_lookup; unfold URL.Set_; rewrite lookup_insert, lookup_empty;
      repeat (case_decide; try congruence; try tauto);
      repeat match goal with
             | |- context [match ?o with Some _ => _ | None => _ end] => destruct o
             end; reflexivity.
Qed.

(** Nothing but the port is sent for an update without fields. *)
Lemma update_form_fields_witness :
  @Netgear.portUpdateData Fixture.emptyPortUpdate !! "name" = None
  /\ @Netgear.portUpdateData Fixture.emptyPortUpdate !! "action" = None.
Proof.
  destruct (@update_form_fields Fixture.libraries Fixture.emptyPortUpdate
              Fixture.emptyPOEUpdate "action") as [(_ & Hname & _ & _ & _ & _ & Hother) _].
  split; [exact Hname|]. apply Hother.
  cbn [In]. intros Hin.
  repeat destruct Hin as [Hin|Hin]; try discriminate Hin; exact Hin.
Defined.

Section CookieFacts.
Import Strings HTTP Netgear.

Lemma HasPrefix_split (s p : string) :
  HasPrefix s p = true -> s = p +:+ drop (String.length p) s.
Proof.
  revert s; induction p as [|c p IH]; intros s Hp; [reflexivity|].
  destruct s as [|a s]; simpl in Hp; [discriminate|].
  destruct (Ascii.eqb_spec a c); [subst|discriminate].
  simpl. f_equal. now apply IH.
Qed.

(** The first semicolon of a string: what precedes it has none, and the
    string is that prefix, the semicolon and the rest. *)
Lemma Index_semicolon_split (s : string) (i : nat) :
  Index s ";" = Some i ->
  Index (take i s) ";" = None
  /\ s = take i s +:+ ";" +:+ drop (i + 1) s.
Proof.
  revert i; induction s as [|a s IH]; intros i Hi; [discriminate|].
  rewrite Index_cons in Hi.
  change (HasPrefix (String a s) ";")
    with (if Ascii.eqb a ";" then true else false) in Hi.
  destruct (Ascii.eqb_spec a ";") as [->|Hne].
  - injection Hi as <-. split; reflexivity.
  - destruct (Index s ";") as [j|] eqn:E; [|discriminate].
    injection Hi as <-. destruct (IH j eq_refl) as [Hnone Hsplit].
    split.
    + change (take (Datatypes.S j) (String a s)) with (String a (take j s)).
      rewrite Index_cons.
      change (HasPrefix (String a (take j s)) ";")
        with (if Ascii.eqb a ";" then true else false).
      destruct (Ascii.eqb_spec a ";"); [contradiction|]. now rewrite Hnone.
    + simpl. f_equal. exact Hsplit.
Qed.

End CookieFacts.

(** X8: whatever the response, the session token that is extracted holds
    no semicolon; it is empty when the first Set-Cookie header does not
    start with SID=, and otherwise the header is SID=, the token, and
    either nothing or a semicolon and the attributes. *)
Theorem extractSessionToken_shape (resp : HTTP.Response) :
  Strings.Index (Netgear.extractSessionToken resp) ";" = None
  /\ (Strings.HasPrefix (HTTP.HeaderGet resp "Set-Cookie") "SID=" = false ->
      Netgear.extractSessionToken resp = "")
  /\ (Strings.HasPrefix (HTTP.HeaderGet resp "Set-Cookie") "SID=" = true ->
      exists rest : string,
        HTTP.HeaderGet resp "Set-Cookie"
        = "SID=" +:+ Netgear.extractSessionToken resp +:+ rest
        /\ (rest = "" \/ Strings.HasPrefix rest ";" = true)).
Proof.
  unfold Netgear.extractSessionToken, Netgear.sessionIdPrefixes,
    Netgear.sessionTokenFrom.
  destruct (Strings.HasPrefix (HTTP.HeaderGet resp "Set-Cookie") "SID=") eqn:Hp.
  - pose proof (HasPrefix_split _ _ Hp) as Hsplit.
    change (String.length "SID=") with 4 in *.
    destruct (Strings.Index (Strings.drop 4 (HTTP.HeaderGet resp "Set-Cookie")) ";")
      as [i|] eqn:Hi.
    + destruct (Index_semicolon_split _ _ Hi) as [Hnone Hrest].
      split; [exact Hnone|]. split; [discriminate|]. intros _.
      exists (";" +:+ Strings.drop (i + 1)
                        (Strings.drop 4 (HTTP.HeaderGet resp "Set-Cookie"))).
      split; [|right; reflexivity].
      rewrite <- Hrest. exact Hsplit.
    + split; [exact Hi|]. split; [discriminate|]. intros _.
      exists "". split; [|left; reflexivity].
      rewrite append_nil_r. exact Hsplit.
  - split; [reflexivity|]. split; [reflexivity | discriminate].
Qed.

(** The cookie of the family-A switch, and a cookie of another name. *)
Lemma extractSessionToken_shape_witness :
  Netgear.extractSessionToken
    {| HTTP.RespHeader := {[ "Set-Cookie" := ["gambitCookie=abc;Path=/"] ]};
       HTTP.RespBody := inl "" |}
  = ""
  /\ exists rest : string,
      HTTP.HeaderGet
        {| HTTP.RespHeader := {[ "Set-Cookie" := ["SID=tok1;Path=/"] ]};
           HTTP.RespBody := inl "" |} "Set-Cookie"
      = "SID="
        +:+ Netgear.extractSessionToken
              {| HTTP.RespHeader := {[ "Set-Cookie" := ["SID=tok1;Path=/"] ]};
                 HTTP.RespBody := inl "" |}
        +:+ rest
      /\ (rest = "" \/ Strings.HasPrefix rest ";" = true).
Proof.
  split.
  - apply (proj1 (proj2 (extractSessionToken_shape
                           {| HTTP.RespHeader :=
                                {[ "Set-Cookie" := ["gambitCookie=abc;Path=/"] ]};
                              HTTP.RespBody := inl "" |}))).
    reflexivity.
  - apply (proj2 (proj2 (extractSessionToken_shape
                           {| HTTP.RespHeader := {[ "Set-Cookie" := ["SID=tok1;Path=/"] ]};
                              HTTP.RespBody := inl "" |}))).
    reflexivity.
Defined.

(** ** The HTTP client *)

Section HTTPFacts.
Import Strings HTTP Netgear.
Context `{External}.


Lemma newRequest_header_any (method fullURL key : string) (body : option string)
      (headers : option (gmap string string)) :
  key <> "User-Agent" ->
  Header (newRequest method fullURL body headers) !! key
  = default ∅ headers !! key.
Proof.
  intros Hk. unfold newRequest. cbn [Header].
  destruct (String.eqb _ ""); cbv iota; [|reflexivity].
  now rewrite lookup_insert_ne.
Qed.

(** [request] either cannot build the request and sends nothing, or
    sends exactly the request it built. *)
Lemma request_cases (h : HTTPClient) (method path : string) (body : option string)
      (headers : option (gmap string string)) (sent : list Request) :
  (exists e : string,
      request h method path body headers sent
      = (inr (Errorf "failed to create request" (LibError e)), sent))
  \/ (request h method path body headers sent
      = (match client h sent (newRequest method (baseURL h +:+ path) body headers) with
         | inr err => inr (Errorf "request failed" err)
         | inl resp => inl resp
         end,
         (sent ++ [newRequest method (baseURL h +:+ path) body headers])%list)).
Proof.
  unfold request. destruct (NewRequestError method (baseURL h +:+ path)) as [e|].
  - left. now exists e.
  - right. now destruct (client h sent _).
Qed.

Lemma request_inv (h : HTTPClient) (method path : string) (body : option string)
      (headers : option (gmap string string)) (sent sent' : list Request)
      (r : Response + error) :
  request h method path body headers sent = (r, sent') ->
  (sent' = sent /\ exists e : error, r = inr (Errorf "failed to create request" e))
  \/ (sent' = (sent ++ [newRequest method (baseURL h +:+ path) body headers])%list
      /\ (r = match client h sent (newRequest method (baseURL h +:+ path) body headers) with
              | inr err => inr (Errorf "request failed" err)
              | inl resp => inl resp
              end)).
Proof.
  destruct (request_cases h method path body headers sent) as [[e ->]| ->];
    intros [= <- <-]; [left | right]; split; try reflexivity.
  now eexists.
Qed.

End HTTPFacts.



(** ** Model detection over the network *)

Section ProbeFacts.
Import Strings HTTP Netgear.
Context `{External} {S : Type} `{TokenManager S}.

Lemma probe_request (h : HTTPClient) (path : string) :
  let req := newRequest "GET" (baseURL h +:+ path) None None in
  Method req = "GET" /\ Body req = None /\ Header req !! "Cookie" = None
  /\ Url req = baseURL h +:+ path.
Proof.
  cbv zeta. split; [reflexivity|]. split; [reflexivity|].
  split; [|reflexivity].
  rewrite newRequest_header_any by discriminate. apply lookup_empty.
Qed.

Lemma detected_supported (html : string) :
  Internal.DetectFromHTML html <> "" ->
  IsSupported (Internal.DetectFromHTML html) = true
  /\ (In (Internal.DetectFromHTML html) Internal.specificModels
      \/ Internal.DetectFromHTML html = "GS30xEPx").
Proof.
  intros Hne. split.
  - destruct (DetectFromHTML_supported html); [contradiction | assumption].
  - destruct (DetectFromHTML_range html) as [Hin|[Hg|He]]; tauto.
Qed.

(** X10: model detection sends at most two requests, each a GET without
    body and without cookie, and nothing else; it answers one of the
    model names of the detector, which is then a supported model reached
    after at least one request, or fails with the error that no model
    was detected or with a Network error that carries its cause.  The
    error for an unsupported model is never returned. *)
Theorem detectModel_probes (c : Client S) (sent : list Request) :
  exists reqs : list Request,
    snd (detectModel c sent) = (sent ++ reqs)%list
    /\ length reqs <= 2
    /\ Forall (fun req : Request =>
                 Method req = "GET" /\ Body req = None
                 /\ Header req !! "Cookie" = None) reqs
    /\ match fst (detectModel c sent) with
       | inl m =>
           (In m Internal.specificModels \/ m = "GS30xEPx")
           /\ IsSupported m = true /\ reqs <> []
       | inr err =>
           err = ErrModelNotDetected
           \/ exists (msg : string) (cause : error),
               err = NewNetworkError msg (Some cause)
       end.
Proof.
  unfold detectModel, mbind, Net_bind, bind, mret, Net_ret, ret, validateModel.
  destruct (Get (httpClient c) "/" None sent) as [r1 s1] eqn:E1.
  apply request_inv in E1 as [[-> [e ->]]|[-> ->]].
  { exists []. rewrite app_nil_r. cbn [fst snd length].
    repeat split; [lia | constructor | right; eauto]. }
  pose proof (probe_request (httpClient c) "/") as (Hm1 & Hb1 & Hc1 & _).
  set (req1 := newRequest "GET" (baseURL (httpClient c) +:+ "/") None None) in *.
  destruct (client (httpClient c) sent req1) as [resp|err].
  2:{ exists [req1]. cbn [fst snd length].
      repeat split; [lia | repeat constructor; assumption | right; eauto]. }
  destruct (ReadBody resp) as [body|err].
  2:{ exists [req1]. cbn [fst snd length].
      repeat split; [lia | repeat constructor; assumption | right; eauto]. }
  match goal with
  | |- context [let (a, sent') := ?inner in _] =>
      destruct inner as [ms s2] eqn:E2
  end.
  assert (exists reqs2 : list Request,
             s2 = ((sent ++ [req1]) ++ reqs2)%list /\ length reqs2 <= 1
             /\ Forall (fun req : Request =>
                          Method req = "GET" /\ Body req = None
                          /\ Header req !! "Cookie" = None) reqs2
             /\ (ms = ""
                 \/ IsSupported ms = true
                    /\ (In ms Internal.specificModels \/ ms = "GS30xEPx")))
    as (reqs2 & -> & Hlen & Hall & Hms).
  { assert (Hbody : Internal.DetectFromHTML body = ""
                    \/ IsSupported (Internal.DetectFromHTML body) = true
                       /\ (In (Internal.DetectFromHTML body) Internal.specificModels
                           \/ Internal.DetectFromHTML body = "GS30xEPx")).
    { destruct (String.eqb_spec (Internal.DetectFromHTML body) "");
        [now left | right; now apply detected_supported]. }
    destruct (String.eqb (Internal.DetectFromHTML body) "GS30xEPx").
    2:{ injection E2 as <- <-. exists []. rewrite app_nil_r.
        repeat split; [cbn; lia | constructor | exact Hbody]. }
    destruct (Get (httpClient c) "/login.cgi" None (sent ++ [req1])%list)
      as [r2 s3] eqn:E3.
    apply request_inv in E3 as [[-> [e ->]]|[-> ->]].
    { injection E2 as <- <-. exists []. rewrite app_nil_r.
      repeat split; [cbn; lia | constructor | exact Hbody]. }
    pose proof (probe_request (httpClient c) "/login.cgi") as (Hm2 & Hb2 & Hc2 & _).
    set (req2 := newRequest "GET" (baseURL (httpClient c) +:+ "/login.cgi") None None) in *.
    exists [req2].
    assert (Hall : Forall (fun req : Request =>
                             Method req = "GET" /\ Body req = None
                             /\ Header req !! "Cookie" = None) [req2])
      by (repeat constructor; assumption).
    destruct (client (httpClient c) _ req2) as [loginResp|err];
      [|injection E2 as <- <-; repeat split; [cbn; lia | exact Hall | exact Hbody]].
    destruct (ReadBody loginResp) as [loginBody|err];
      [|injection E2 as <- <-; repeat split; [cbn; lia | exact Hall | exact Hbody]].
    destruct (String.eqb_spec (Internal.DetectFromHTML loginBody) "") as [He|Hne];
      cbn [negb andb] in E2;
      [injection E2 as <- <-; repeat split; [cbn; lia | exact Hall | exact Hbody]|].
    destruct (negb _);
      injection E2 as <- <-; (split; [reflexivity|]); (split; [cbn; lia|]);
      (split; [exact Hall|]); [right; now apply detected_supported | exact Hbody]. }
  exists (req1 :: reqs2). rewrite <- app_assoc. cbn [app length].
  assert (Hall' : Forall (fun req : Request =>
                            Method req = "GET" /\ Body req = None
                            /\ Header req !! "Cookie" = None) (req1 :: reqs2))
    by (constructor; [repeat split; assumption | exact Hall]).
  destruct (String.eqb_spec ms "") as [->|Hne].
  { cbn [fst snd]. repeat split; [lia | exact Hall' | now left]. }
  destruct Hms as [->|[Hsup Hin]]; [contradiction|].
  rewrite Hsup. cbn [negb fst snd].
  repeat split; [lia | exact Hall' | exact Hin | exact Hsup | discriminate].
Qed.
End ProbeFacts.

(** ** Authenticated requests and the update loops *)

Section RequestFacts.
Import Strings HTTP Netgear.
Context `{External} {S : Type} `{TokenManager S}.

Lemma Get_inv (h : HTTPClient) (path : string) (headers : option (gmap string string))
      (sent sent' : list Request) (r : Response + error) :
  Get h path headers sent = (r, sent') ->
  (sent' = sent /\ exists e : error, r = inr (Errorf "failed to create request" e))
  \/ exists req : Request,
      sent' = (sent ++ [req])%list
      /\ Method req = "GET" /\ Url req = baseURL h +:+ path /\ Body req = None
      /\ r = match client h sent req with
             | inr err => inr (Errorf "request failed" err)
             | inl resp => inl resp
             end.
Proof.
  unfold Get. intros Hrun.
  apply request_inv in Hrun as [Hfail|[-> ->]]; [now left|].
  right. eexists. split; [reflexivity|]. now repeat split.
Qed.

Lemma Post_inv (h : HTTPClient) (path : string) (data : option URL.Values)
      (headers : option (gmap string string))
      (sent sent' : list Request) (r : Response + error) :
  Post h path data headers sent = (r, sent') ->
  (sent' = sent /\ exists e : error, r = inr (Errorf "failed to create request" e))
  \/ exists req : Request,
      sent' = (sent ++ [req])%list
      /\ Method req = "POST" /\ Url req = baseURL h +:+ path
      /\ Body req = URL.Encode <$> data
      /\ r = match client h sent req with
             | inr err => inr (Errorf "request failed" err)
             | inl resp => inl resp
             end.
Proof.
  unfold Post. intros Hrun.
  destruct data as [d|];
    (apply request_inv in Hrun as [Hfail|[-> ->]]; [now left|]);
    right; eexists; (split; [reflexivity|]); now repeat split.
Qed.

(** One authenticated POST: at most one request, a POST to the endpoint;
    an answer means that the request was sent and the device's page read. *)
Lemma authenticated_post (c : Client S) (endpoint : string)
      (data : option URL.Values) (sent : list Request) :
  exists reqs : list Request,
    snd (makeAuthenticatedRequest c "POST" endpoint data sent) = (sent ++ reqs)%list
    /\ length reqs <= 1
    /\ Forall (fun req : Request =>
                 Method req = "POST"
                 /\ Url req = baseURL (httpClient c) +:+ endpoint) reqs
    /\ (IsAuthenticated c = false -> reqs = [])
    /\ (forall body : string,
           fst (makeAuthenticatedRequest c "POST" endpoint data sent) = inl body ->
           length reqs = 1).
Proof.
  unfold makeAuthenticatedRequest.
  destruct (IsAuthenticated c); cbn [negb].
  2:{ exists []. rewrite app_nil_r. cbn. repeat split; try lia; try constructor.
      discriminate. }
  match goal with
  | |- context [let '(_, _) := ?e in _] => destruct e as [headers data']
  end.
  change (String.eqb "POST" "GET") with false. cbv iota.
  unfold mbind, Net_bind, bind, mret, Net_ret, ret.
  destruct (Post (httpClient c) endpoint data' (Some headers) sent)
    as [r sent'] eqn:Hrun.
  apply Post_inv in Hrun as [[-> [e ->]]|(req & -> & Hm & Hu & _ & ->)].
  - exists []. rewrite app_nil_r. cbn.
    repeat split; try lia; try constructor; discriminate.
  - exists [req].
    destruct (client (httpClient c) sent req); cbn;
      repeat split; try lia; try discriminate;
      repeat constructor; assumption.
Qed.

Ltac loop_step IH c endpoint sent :=
  match goal with
  | |- context [makeAuthenticatedRequest c "POST" endpoint ?d sent] =>
      destruct (authenticated_post c endpoint d sent)
        as (reqs1 & Hs & Hl & Hall & _ & Hone);
      destruct (makeAuthenticatedRequest c "POST" endpoint d sent)
        as [[body|err] s1];
      cbn [fst snd] in Hs, Hone; subst s1;
      [ destruct (negb (String.eqb (Internal.ExtractErrorMessage body) ""));
        [ exists reqs1; cbn [fst snd length];
          repeat split; [lia | exact Hall | discriminate | now intros ? [= <-]]
        | specialize (Hone body eq_refl);
          destruct (IH (sent ++ reqs1)%list) as (reqs2 & Hs2 & Hl2 & Hall2 & Hnone & Herr);
          exists (reqs1 ++ reqs2)%list; rewrite Hs2, app_assoc, length_app;
          cbn [length];
          repeat split;
          [ lia | now apply Forall_app | intros Hn; specialize (Hnone Hn); lia
          | exact Herr ] ]
      | exists reqs1; cbn [fst snd length];
        repeat split; [lia | exact Hall | discriminate | now intros ? [= <-]] ]
  end.

Lemma applyPortUpdates_trace (c : Client S) (endpoint : string)
      (updates : list PortUpdate) (sent : list Request) :
  exists reqs : list Request,
    snd (applyPortUpdates c endpoint updates sent) = (sent ++ reqs)%list
    /\ length reqs <= length updates
    /\ Forall (fun req : Request =>
                 Method req = "POST"
                 /\ Url req = baseURL (httpClient c) +:+ endpoint) reqs
    /\ (fst (applyPortUpdates c endpoint updates sent) = None ->
        length reqs = length updates)
    /\ (forall err : error,
           fst (applyPortUpdates c endpoint updates sent) = Some err ->
           errorType err = Some ErrorTypeOperation).
Proof.
  revert sent. induction updates as [|update rest IH]; intros sent.
  - exists []. rewrite app_nil_r. cbn [fst snd length].
    split; [reflexivity|]. split; [lia|]. split; [constructor|].
    split; [reflexivity | discriminate].
  - cbn [applyPortUpdates]. unfold mbind, Net_bind, bind, mret, Net_ret, ret.
    loop_step IH c endpoint sent.
Qed.

Lemma applyPOEUpdates_trace (c : Client S) (endpoint : string)
      (updates : list POEPortUpdate) (sent : list Request) :
  exists reqs : list Request,
    snd (applyPOEUpdates c endpoint updates sent) = (sent ++ reqs)%list
    /\ length reqs <= length updates
    /\ Forall (fun req : Request =>
                 Method req = "POST"
                 /\ Url req = baseURL (httpClient c) +:+ endpoint) reqs
    /\ (fst (applyPOEUpdates c endpoint updates sent) = None ->
        length reqs = length updates)
    /\ (forall err : error,
           fst (applyPOEUpdates c endpoint updates sent) = Some err ->
           errorType err = Some ErrorTypeOperation).
Proof.
  revert sent. induction updates as [|update rest IH]; intros sent.
  - exists []. rewrite app_nil_r. cbn [fst snd length].
    split; [reflexivity|]. split; [lia|]. split; [constructor|].
    split; [reflexivity | discriminate].
  - cbn [applyPOEUpdates]. unfold mbind, Net_bind, bind, mret, Net_ret, ret.
    loop_step IH c endpoint sent.
Qed.

Lemma cyclePorts_trace (c : Client S) (endpoint : string)
      (portIDs : list Z) (sent : list Request) :
  exists reqs : list Request,
    snd (cyclePorts c endpoint portIDs sent) = (sent ++ reqs)%list
    /\ length reqs <= length portIDs
    /\ Forall (fun req : Request =>
                 Method req = "POST"
                 /\ Url req = baseURL (httpClient c) +:+ endpoint) reqs
    /\ (fst (cyclePorts c endpoint portIDs sent) = None ->
        length reqs = length portIDs)
    /\ (forall err : error,
           fst (cyclePorts c endpoint portIDs sent) = Some err ->
           errorType err = Some ErrorTypeOperation).
Proof.
  revert sent. induction portIDs as [|portID rest IH]; intros sent.
  - exists []. rewrite app_nil_r. cbn [fst snd length].
    split; [reflexivity|]. split; [lia|]. split; [constructor|].
    split; [reflexivity | discriminate].
  - cbn [cyclePorts]. unfold mbind, Net_bind, bind, mret, Net_ret, ret.
    loop_step IH c endpoint sent.
Qed.

Lemma unsupported_series (m : Model) :
  IsSupported m = false -> IsModel30x m = false /\ IsModel316 m = false.
Proof.
  unfold IsSupported, IsModel30x, IsModel316, caseOf. cbn [existsb].
  repeat (destruct (String.eqb m _); cbn [orb]; try discriminate).
  now split.
Qed.

(** The guards shared by the update and power-cycle operations around
    their loop over [n] items. *)
Lemma guarded_loop_trace (c : Client S) (n : nat)
      (loop : string -> Net (option error))
      (e30x e316 msgEmpty msgModel : string) (sent : list Request) :
  (forall endpoint : string,
      exists reqs : list Request,
        snd (loop endpoint sent) = (sent ++ reqs)%list
        /\ length reqs <= n
        /\ Forall (fun req : Request =>
                     Method req = "POST"
                     /\ Url req = baseURL (httpClient c) +:+ endpoint) reqs
        /\ (fst (loop endpoint sent) = None -> length reqs = n)
        /\ (forall err : error,
               fst (loop endpoint sent) = Some err ->
               errorType err = Some ErrorTypeOperation)) ->
  forall run : Net (option error),
    run = (if negb (IsAuthenticated c) then mret (Some ErrNotAuthenticated)
           else if Nat.eqb n 0 then
             mret (Some (NewOperationError msgEmpty None))
           else if IsModel30x (model c) then loop e30x
           else if IsModel316 (model c) then loop e316
           else mret (Some (NewOperationError msgModel None))) ->
    exists reqs : list Request,
      snd (run sent) = (sent ++ reqs)%list
      /\ length reqs <= n
      /\ Forall (fun req : Request =>
                   Method req = "POST"
                   /\ Url req
                      = baseURL (httpClient c)
                        +:+ (if IsModel30x (model c) then e30x else e316)) reqs
      /\ (fst (run sent) = None ->
          length reqs = n /\ 0 < n /\ IsAuthenticated c = true
          /\ IsSupported (model c) = true)
      /\ (IsAuthenticated c = false -> fst (run sent) = Some ErrNotAuthenticated)
      /\ (IsAuthenticated c = false \/ IsSupported (model c) = false -> reqs = [])
      /\ (forall err : error,
             fst (run sent) = Some err ->
             err = ErrNotAuthenticated
             \/ errorType err = Some ErrorTypeOperation).
Proof.
  intros Hloop run ->.
  assert (Hnone : exists reqs : list Request,
             sent = (sent ++ reqs)%list /\ reqs = [])
    by (exists []; now rewrite app_nil_r).
  destruct (IsAuthenticated c); cbn [negb].
  2:{ exists []. rewrite app_nil_r. cbn [mret Net_ret ret fst snd length].
      split; [reflexivity|]. split; [lia|]. split; [constructor|].
      split; [discriminate|]. split; [reflexivity|]. split; [reflexivity|].
      intros err [= <-]. now left. }
  destruct (Nat.eqb_spec n 0) as [->|Hn].
  { exists []. rewrite app_nil_r. cbn [mret Net_ret ret fst snd length].
    split; [reflexivity|]. split; [lia|]. split; [constructor|].
    split; [discriminate|]. split; [discriminate|]. split; [reflexivity|].
    intros err [= <-]. now right. }
  destruct (IsModel30x (model c)) eqn:H30.
  { destruct (Hloop e30x) as (reqs & Hs & Hl & Hall & Hok & Herr).
    exists reqs. split; [exact Hs|]. split; [exact Hl|]. split; [exact Hall|].
    assert (Hsup : IsSupported (model c) = true).
    { destruct (IsSupported (model c)) eqn:E; [reflexivity|].
      apply unsupported_series in E as [E _]. congruence. }
    split; [intros Hr; repeat split; [now apply Hok | lia | exact Hsup]|].
    split; [discriminate|].
    split; [intros [Hf|Hf]; congruence|].
    intros err Hr. right. now apply Herr. }
  destruct (IsModel316 (model c)) eqn:H316.
  { destruct (Hloop e316) as (reqs & Hs & Hl & Hall & Hok & Herr).
    exists reqs. split; [exact Hs|]. split; [exact Hl|]. split; [exact Hall|].
    assert (Hsup : IsSupported (model c) = true).
    { destruct (IsSupported (model c)) eqn:E; [reflexivity|].
      apply unsupported_series in E as [_ E]. congruence. }
    split; [intros Hr; repeat split; [now apply Hok | lia | exact Hsup]|].
    split; [discriminate|].
    split; [intros [Hf|Hf]; congruence|].
    intros err Hr. right. now apply Herr. }
  exists []. rewrite app_nil_r. cbn [mret Net_ret ret fst snd length].
  split; [reflexivity|]. split; [lia|]. split; [constructor|].
  split; [discriminate|]. split; [discriminate|]. split; [reflexivity|].
  intros err [= <-]. now right.
Qed.

Ltac loop_app IH :=
  unfold mbind, Net_bind, bind, mret, Net_ret, ret;
  match goal with
  | |- context [makeAuthenticatedRequest ?c "POST" ?e ?d ?sent] =>
      destruct (makeAuthenticatedRequest c "POST" e d sent) as [[body|err] s1];
      [ destruct (negb (String.eqb (Internal.ExtractErrorMessage body) ""));
        [reflexivity | apply IH]
      | reflexivity ]
  end.

(** The loops run their items in order and stop at the first one that
    fails: a list in two parts runs the second part only after the
    first succeeded, from the trace the first part left. *)
Lemma applyPortUpdates_app (c : Client S) (endpoint : string)
      (pre post : list PortUpdate) (sent : list Request) :
  applyPortUpdates c endpoint (pre ++ post) sent
  = match fst (applyPortUpdates c endpoint pre sent) with
    | Some _ => applyPortUpdates c endpoint pre sent
    | None =>
        applyPortUpdates c endpoint post (snd (applyPortUpdates c endpoint pre sent))
    end.
Proof.
  revert sent. induction pre as [|update rest IH]; intros sent; [reflexivity|].
  cbn [app applyPortUpdates]. loop_app IH.
Qed.

Lemma applyPOEUpdates_app (c : Client S) (endpoint : string)
      (pre post : list POEPortUpdate) (sent : list Request) :
  applyPOEUpdates c endpoint (pre ++ post) sent
  = match fst (applyPOEUpdates c endpoint pre sent) with
    | Some _ => applyPOEUpdates c endpoint pre sent
    | None =>
        applyPOEUpdates c endpoint post (snd (applyPOEUpdates c endpoint pre sent))
    end.
Proof.
  revert sent. induction pre as [|update rest IH]; intros sent; [reflexivity|].
  cbn [app applyPOEUpdates]. loop_app IH.
Qed.

Lemma cyclePorts_app (c : Client S) (endpoint : string)
      (pre post : list Z) (sent : list Request) :
  cyclePorts c endpoint (pre ++ post) sent
  = match fst (cyclePorts c endpoint pre sent) with
    | Some _ => cyclePorts c endpoint pre sent
    | None => cyclePorts c endpoint post (snd (cyclePorts c endpoint pre sent))
    end.
Proof.
  revert sent. induction pre as [|portID rest IH]; intros sent; [reflexivity|].
  cbn [app cyclePorts]. loop_app IH.
Qed.

(** The guards do not look at the items, so the operations stop at the
    first failure as their loops do. *)
Lemma guarded_loop_prefix (c : Client S) (n k : nat)
      (loopAll loopPre : string -> Net (option error))
      (e30x e316 msgEmpty msgModel : string) (sent : list Request) (err : error) :
  n <> 0 -> k <> 0 ->
  (forall endpoint : string,
      fst (loopPre endpoint sent) <> None ->
      loopAll endpoint sent = loopPre endpoint sent) ->
  fst ((if negb (IsAuthenticated c) then mret (Some ErrNotAuthenticated)
        else if Nat.eqb k 0 then
          mret (Some (NewOperationError msgEmpty None))
        else if IsModel30x (model c) then loopPre e30x
        else if IsModel316 (model c) then loopPre e316
        else mret (Some (NewOperationError msgModel None))) sent) = Some err ->
  (if negb (IsAuthenticated c) then mret (Some ErrNotAuthenticated)
   else if Nat.eqb n 0 then
     mret (Some (NewOperationError msgEmpty None))
   else if IsModel30x (model c) then loopAll e30x
   else if IsModel316 (model c) then loopAll e316
   else mret (Some (NewOperationError msgModel None))) sent
  = (if negb (IsAuthenticated c) then mret (Some ErrNotAuthenticated)
     else if Nat.eqb k 0 then
       mret (Some (NewOperationError msgEmpty None))
     else if IsModel30x (model c) then loopPre e30x
     else if IsModel316 (model c) then loopPre e316
     else mret (Some (NewOperationError msgModel None))) sent.
Proof.
  intros Hn Hk Hloop.
  destruct (negb (IsAuthenticated c)); [reflexivity|].
  destruct (Nat.eqb_spec n 0); [contradiction|].
  destruct (Nat.eqb_spec k 0); [contradiction|].
  destruct (IsModel30x (model c)).
  - intros Herr. apply Hloop. now rewrite Herr.
  - destruct (IsModel316 (model c)); [|reflexivity].
    intros Herr. apply Hloop. now rewrite Herr.
Qed.

Lemma app_length_pos {A} (pre post : list A) :
  pre <> [] -> length (pre ++ post) <> 0 /\ length pre <> 0.
Proof. destruct pre; [contradiction | cbn; lia]. Qed.

(** X11: updating ports, updating POE ports and cycling power never send
    more requests than they are given items, all of them POSTs to the
    endpoint of the model's series; a success means one request per
    item, a non-empty list, an authenticated client and a supported
    model.  Unauthenticated they answer [ErrNotAuthenticated], and then
    or for an unsupported model nothing is sent; every other error is an
    Operation error.  They stop at the first failure: when the
    operation fails on the first items of a list, it does on the whole
    list exactly what it does on those items, with the same error and
    the same requests. *)
Theorem operations_traffic (c : Client S) (sent : list Request)
        (updates : list PortUpdate) (poeUpdates : list POEPortUpdate)
        (portIDs : list Z) :
  (exists reqs : list Request,
      snd (PortManager_UpdatePort c updates sent) = (sent ++ reqs)%list
      /\ length reqs <= length updates
      /\ Forall (fun req : Request =>
                   Method req = "POST"
                   /\ Url req
                      = baseURL (httpClient c)
                        +:+ (if IsModel30x (model c) then "/PortConfig.cgi"
                             else "/iss/specific/interface.html")) reqs
      /\ (fst (PortManager_UpdatePort c updates sent) = None ->
          length reqs = length updates /\ 0 < length updates
          /\ IsAuthenticated c = true /\ IsSupported (model c) = true)
      /\ (IsAuthenticated c = false ->
          fst (PortManager_UpdatePort c updates sent) = Some ErrNotAuthenticated)
      /\ (IsAuthenticated c = false \/ IsSupported (model c) = false -> reqs = [])
      /\ (forall err : error,
             fst (PortManager_UpdatePort c updates sent) = Some err ->
             err = ErrNotAuthenticated
             \/ errorType err = Some ErrorTypeOperation))
  /\ (exists reqs : list Request,
      snd (POEManager_UpdatePort c poeUpdates sent) = (sent ++ reqs)%list
      /\ length reqs <= length poeUpdates
      /\ Forall (fun req : Request =>
                   Method req = "POST"
                   /\ Url req
                      = baseURL (httpClient c)
                        +:+ (if IsModel30x (model c) then "/PoEPortConfig.cgi"
                             else "/iss/specific/poePortConf.html")) reqs
      /\ (fst (POEManager_UpdatePort c poeUpdates sent) = None ->
          length reqs = length poeUpdates /\ 0 < length poeUpdates
          /\ IsAuthenticated c = true /\ IsSupported (model c) = true)
      /\ (IsAuthenticated c = false ->
          fst (POEManager_UpdatePort c poeUpdates sent) = Some ErrNotAuthenticated)
      /\ (IsAuthenticated c = false \/ IsSupported (model c) = false -> reqs = [])
      /\ (forall err : error,
             fst (POEManager_UpdatePort c poeUpdates sent) = Some err ->
             err = ErrNotAuthenticated
             \/ errorType err = Some ErrorTypeOperation))
  /\ (exists reqs : list Request,
      snd (POEManager_CyclePower c portIDs sent) = (sent ++ reqs)%list
      /\ length reqs <= length portIDs
      /\ Forall (fun req : Request =>
                   Method req = "POST"
                   /\ Url req
                      = baseURL (httpClient c)
                        +:+ (if IsModel30x (model c) then "/PoEPortConfig.cgi"
                             else "/iss/specific/poePortConf.html")) reqs
      /\ (fst (POEManager_CyclePower c portIDs sent) = None ->
          length reqs = length portIDs /\ 0 < length portIDs
          /\ IsAuthenticated c = true /\ IsSupported (model c) = true)
      /\ (IsAuthenticated c = false ->
          fst (POEManager_CyclePower c portIDs sent) = Some ErrNotAuthenticated)
      /\ (IsAuthenticated c = false \/ IsSupported (model c) = false -> reqs = [])
      /\ (forall err : error,
             fst (POEManager_CyclePower c portIDs sent) = Some err ->
             err = ErrNotAuthenticated
             \/ errorType err = Some ErrorTypeOperation))
  /\ (forall (pre post : list PortUpdate) (err : error),
         pre <> [] ->
         fst (PortManager_UpdatePort c pre sent) = Some err ->
         PortManager_UpdatePort c (pre ++ post) sent
         = PortManager_UpdatePort c pre sent)
  /\ (forall (pre post : list POEPortUpdate) (err : error),
         pre <> [] ->
         fst (POEManager_UpdatePort c pre sent) = Some err ->
         POEManager_UpdatePort c (pre ++ post) sent
         = POEManager_UpdatePort c pre sent)
  /\ (forall (pre post : list Z) (err : error),
         pre <> [] ->
         fst (POEManager_CyclePower c pre sent) = Some err ->
         POEManager_CyclePower c (pre ++ post) sent
         = POEManager_CyclePower c pre sent).
Proof.
  split; [|split; [|split; [|split; [|split]]]].
  - apply (guarded_loop_trace c (length updates)
             (fun endpoint => applyPortUpdates c endpoint updates)
             "/PortConfig.cgi" "/iss/specific/interface.html"
             "no updates provided" "port updates not supported for this model" sent);
      [intros endpoint; apply applyPortUpdates_trace | reflexivity].
  - apply (guarded_loop_trace c (length poeUpdates)
             (fun endpoint => applyPOEUpdates c endpoint poeUpdates)
             "/PoEPortConfig.cgi" "/iss/specific/poePortConf.html"
             "no updates provided" "POE updates not supported for this model" sent);
      [intros endpoint; apply applyPOEUpdates_trace | reflexivity].
  - apply (guarded_loop_trace c (length portIDs)
             (fun endpoint => cyclePorts c endpoint portIDs)
             "/PoEPortConfig.cgi" "/iss/specific/poePortConf.html"
             "no ports specified for power cycle"
             "POE power cycle not supported for this model" sent);
      [intros endpoint; apply cyclePorts_trace | reflexivity].
  - intros pre post err Hpre Herr.
    destruct (app_length_pos pre post Hpre) as [Hn Hk].
    apply (guarded_loop_prefix c _ _
             (fun e => applyPortUpdates c e (pre ++ post))
             (fun e => applyPortUpdates c e pre) _ _ _ _ sent err Hn Hk);
      [|exact Herr].
    intros endpoint Hfail. rewrite applyPortUpdates_app.
    now destruct (fst (applyPortUpdates c endpoint pre sent)).
  - intros pre post err Hpre Herr.
    destruct (app_length_pos pre post Hpre) as [Hn Hk].
    apply (guarded_loop_prefix c _ _
             (fun e => applyPOEUpdates c e (pre ++ post))
             (fun e => applyPOEUpdates c e pre) _ _ _ _ sent err Hn Hk);
      [|exact Herr].
    intros endpoint Hfail. rewrite applyPOEUpdates_app.
    now destruct (fst (applyPOEUpdates c endpoint pre sent)).
  - intros pre post err Hpre Herr.
    destruct (app_length_pos pre post Hpre) as [Hn Hk].
    apply (guarded_loop_prefix c _ _
             (fun e => cyclePorts c e (pre ++ post))
             (fun e => cyclePorts c e pre) _ _ _ _ sent err Hn Hk);
      [|exact Herr].
    intros endpoint Hfail. rewrite cyclePorts_app.
    now destruct (fst (cyclePorts c endpoint pre sent)).
Qed.

(** X12: an unauthenticated client answers [ErrNotAuthenticated] and
    sends nothing; otherwise at most one request is sent.  A returned
    body is the body of the answer the device gave to the one request
    sent; an error is [ErrNotAuthenticated], a Network error that
    carries its cause, or, when the body of an answer cannot be read,
    the read error with no kind of the package. *)
Theorem makeAuthenticatedRequest_modes (c : Client S) (method path : string)
        (data : option URL.Values) (sent : list Request) :
  (IsAuthenticated c = false ->
   makeAuthenticatedRequest c method path data sent = (inr ErrNotAuthenticated, sent))
  /\ exists reqs : list Request,
      snd (makeAuthenticatedRequest c method path data sent) = (sent ++ reqs)%list
      /\ length reqs <= 1
      /\ match fst (makeAuthenticatedRequest c method path data sent) with
         | inl body =>
             exists (req : Request) (resp : Response),
               reqs = [req] /\ client (httpClient c) sent req = inl resp
               /\ RespBody resp = inl body
         | inr err =>
             (err = ErrNotAuthenticated /\ IsAuthenticated c = false /\ reqs = [])
             \/ (exists (msg : string) (cause : error),
                    err = NewNetworkError msg (Some cause))
             \/ (exists cause : error,
                    err = Errorf "failed to read response body" cause
                    /\ errorType err = None /\ length reqs = 1)
         end.
Proof.
  unfold makeAuthenticatedRequest.
  destruct (IsAuthenticated c); cbn [negb].
  2:{ split; [reflexivity|]. exists []. rewrite app_nil_r. cbn.
      repeat split; [lia | now left]. }
  split; [discriminate|].
  match goal with
  | |- context [let '(_, _) := ?e in _] => destruct e as [headers data']
  end.
  unfold mbind, Net_bind, bind, mret, Net_ret, ret.
  assert (Hread : forall (req : Request) (r : Response + error),
             r = match client (httpClient c) sent req with
                 | inr err => inr (Errorf "request failed" err)
                 | inl resp => inl resp
                 end ->
             forall msg : string,
             match match r with
                   | inl httpResp => ReadBody httpResp
                   | inr err => inr (NewNetworkError msg (Some err))
                   end with
             | inl body =>
                 exists (req' : Request) (resp : Response),
                   [req] = [req'] /\ client (httpClient c) sent req' = inl resp
                   /\ RespBody resp = inl body
             | inr err =>
                 (err = ErrNotAuthenticated /\ true = false /\ [req] = [])
                 \/ (exists (msg : string) (cause : error),
                        err = NewNetworkError msg (Some cause))
                 \/ (exists cause : error,
                        err = Errorf "failed to read response body" cause
                        /\ errorType err = None /\ length [req] = 1)
             end).
  { intros req r -> msg.
    destruct (client (httpClient c) sent req) as [resp|err] eqn:Hresp;
      [|right; left; eauto].
    unfold ReadBody. destruct (RespBody resp) as [body|err] eqn:Hbody.
    - exists req, resp. now repeat split.
    - right; right. eexists. now repeat split. }
  destruct (String.eqb method "GET").
  - match goal with
    | |- context [Get ?h ?p ?hd sent] =>
        destruct (Get h p hd sent) as [r sent'] eqn:Hrun
    end.
    apply Get_inv in Hrun as [[-> [e ->]]|(req & -> & _ & _ & _ & Hr)].
    + exists []. rewrite app_nil_r. cbn. repeat split; [lia | right; left; eauto].
    + exists [req]. specialize (Hread req r Hr "GET request failed").
      destruct r as [resp|err]; cbn [fst snd length] in *;
        (split; [reflexivity|]); (split; [lia|]); exact Hread.
  - destruct (Post (httpClient c) path data' (Some headers) sent)
      as [r sent'] eqn:Hrun.
    apply Post_inv in Hrun as [[-> [e ->]]|(req & -> & _ & _ & _ & Hr)].
    + exists []. rewrite app_nil_r. cbn. repeat split; [lia | right; left; eauto].
    + exists [req]. specialize (Hread req r Hr "POST request failed").
      destruct r as [resp|err]; cbn [fst snd length] in *;
        (split; [reflexivity|]); (split; [lia|]); exact Hread.
Qed.

End RequestFacts.

(** A switch that answers every update with its error page: of two
    updates only the first is sent. *)
Lemma operations_traffic_witness :
  @Netgear.PortManager_UpdatePort Fixture.libraries _
     (Fixture.clientOf Fixture.switchError Netgear.ModelGS305EP "tok1" None)
     [Fixture.emptyPortUpdate; Fixture.emptyPortUpdate] []
  = @Netgear.PortManager_UpdatePort Fixture.libraries _
      (Fixture.clientOf Fixture.switchError Netgear.ModelGS305EP "tok1" None)
      [Fixture.emptyPortUpdate] []
  /\ length (snd (@Netgear.PortManager_UpdatePort Fixture.libraries _
                    (Fixture.clientOf Fixture.switchError Netgear.ModelGS305EP
                       "tok1" None)
                    [Fixture.emptyPortUpdate] []))
     = 1.
Proof.
  split; [|vm_compute; reflexivity].
  pose proof (@operations_traffic Fixture.libraries _
                (Fixture.clientOf Fixture.switchError Netgear.ModelGS305EP "tok1" None)
                [] [] [] [])
    as (_ & _ & _ & Hstop & _).
  apply (Hstop [Fixture.emptyPortUpdate] [Fixture.emptyPortUpdate]
               (Netgear.NewOperationError
                  "update failed for port 1: Wrong password" None)).
  - discriminate.
  - vm_compute. reflexivity.
Defined.

(** ** The login protocols *)

Section LoginFacts.
Import Strings HTTP Netgear.
Context `{External} {S : Type} `{TokenManager S}.

Lemma Encode_single (key value : string) :
  URL.Encode (URL.Set_ ∅ key value)
  = URL.QueryEscape key +:+ "=" +:+ URL.QueryEscape value.
Proof.
  unfold URL.Encode, URL.sortedEntries, URL.Set_.
  rewrite insert_empty, map_to_list_singleton. reflexivity.
Qed.

Lemma QueryEscape_hex (s : string) :
  Forall (fun c => In c hexDigits) (list_ascii_of_string s) ->
  URL.QueryEscape s = s.
Proof.
  induction s as [|c s IH]; [reflexivity|].
  cbn [list_ascii_of_string URL.QueryEscape]. intros Hall.
  apply Forall_cons in Hall as [Hc Hall].
  assert (Hun : URL.unreserved c = true).
  { unfold hexDigits in Hc. cbn [list_ascii_of_string In] in Hc.
    repeat destruct Hc as [<-|Hc]; try contradiction; reflexivity. }
  rewrite Hun. f_equal. now apply IH.
Qed.

(** The seed is asked for with one GET of the login page; a seed that
    is answered was found in the page and is not empty. *)
Lemma getSeedValue_inv (c : Client S) (loginPath : string)
      (sent sent' : list Request) (r : string + error) :
  getSeedValue c loginPath sent = (r, sent') ->
  (sent' = sent /\ exists e : error, r = inr e)
  \/ exists get : Request,
      sent' = (sent ++ [get])%list
      /\ Method get = "GET" /\ Url get = baseURL (httpClient c) +:+ loginPath
      /\ Body get = None
      /\ match r with
         | inl seedValue =>
             seedValue <> ""
             /\ exists (resp : Response) (body : string),
                 client (httpClient c) sent get = inl resp
                 /\ ReadBody resp = inl body
                 /\ seedValue = Internal.ExtractSeedValue body
         | inr _ => True
         end.
Proof.
  unfold getSeedValue, mbind, Net_bind, bind, mret, Net_ret, ret.
  destruct (Get (httpClient c) loginPath None sent) as [r1 s1] eqn:Hget.
  apply Get_inv in Hget as [[-> [e ->]]|(get & -> & Hm & Hu & Hb & ->)].
  { intros [= <- <-]. left. split; [reflexivity | eauto]. }
  intros Hrun. right. exists get.
  destruct (client (httpClient c) sent get) as [resp|err] eqn:Hresp.
  2:{ injection Hrun as <- <-. now repeat split. }
  destruct (ReadBody resp) as [body|err] eqn:Hbody.
  2:{ injection Hrun as <- <-. now repeat split. }
  destruct (String.eqb_spec (Internal.ExtractSeedValue body) "") as [He|Hne];
    injection Hrun as <- <-; repeat split; try assumption.
  exists resp, body. now repeat split.
Qed.

(** The part the two login protocols share: fetch the seed, post the
    encrypted password in one form field, and let [after] read the
    answer. *)
Lemma login_protocol_trace (c : Client S) (password loginPath postPath field msg : string)
      (after : Response -> Net (string + error))
      (parse : Response -> string + error)
      (run : Net (string + error)) (sent : list Request) :
  run = (seed ← getSeedValue c loginPath;
         match seed with
         | inr err => mret (inr (NewAuthError "failed to get seed value" (Some err)))
         | inl seedValue =>
             resp ← Post (httpClient c) postPath
                         (Some (URL.Set_ ∅ field (encryptPassword password seedValue)))
                         None;
             match resp with
             | inr err => mret (inr (NewNetworkError msg (Some err)))
             | inl resp => after resp
             end
         end) ->
  (forall (resp : Response) (s : list Request), after resp s = (parse resp, s)) ->
  URL.QueryEscape field = field ->
  exists reqs : list Request,
    snd (run sent) = (sent ++ reqs)%list
    /\ ((reqs = [] /\ exists e : error, fst (run sent) = inr (NewAuthError "failed to get seed value" (Some e)))
        \/ exists get : Request,
            Method get = "GET" /\ Url get = baseURL (httpClient c) +:+ loginPath
            /\ Body get = None
            /\ ((reqs = [get]
                 /\ exists (t : ErrorType) (m : string) (e : error),
                     fst (run sent) = inr (NetgearError t m (Some e))
                     /\ (t = ErrorTypeAuth \/ t = ErrorTypeNetwork))
                \/ exists (post : Request) (seedValue : string),
                    reqs = [get; post]
                    /\ seedValue <> ""
                    /\ (exists (resp : Response) (body : string),
                           client (httpClient c) sent get = inl resp
                           /\ ReadBody resp = inl body
                           /\ seedValue = Internal.ExtractSeedValue body)
                    /\ Method post = "POST"
                    /\ Url post = baseURL (httpClient c) +:+ postPath
                    /\ Body post
                       = Some (field +:+ "="
                               +:+ Internal.EncryptPasswordWithSeed password seedValue)
                    /\ Header post !! "Content-Type"
                       = Some "application/x-www-form-urlencoded"
                    /\ Header post !! "Cookie" = None
                    /\ fst (run sent)
                       = match client (httpClient c) (sent ++ [get])%list post with
                         | inr err =>
                             inr (NewNetworkError msg (Some (Errorf "request failed" err)))
                         | inl resp => parse resp
                         end)).
Proof.
  intros -> Hafter Hfield.
  unfold mbind, Net_bind, bind, mret, Net_ret, ret.
  destruct (getSeedValue c loginPath sent) as [seed s1] eqn:Hseed.
  apply getSeedValue_inv in Hseed
    as [[-> [e ->]]|(get & -> & Hm & Hu & Hb & Hr)].
  { exists []. rewrite app_nil_r. split; [reflexivity|]. left.
    split; [reflexivity | eauto]. }
  destruct seed as [seedValue|err].
  2:{ exists [get]. split; [reflexivity|]. right. exists get.
      repeat split; try assumption. left. split; [reflexivity|].
      exists ErrorTypeAuth. eexists. eexists. split; [reflexivity | now left]. }
  destruct Hr as [Hne Hfrom].
  unfold Post, request.
  destruct (NewRequestError "POST" (baseURL (httpClient c) +:+ postPath)) as [e|].
  { exists [get]. split; [reflexivity|]. right. exists get.
    repeat split; try assumption. left. split; [reflexivity|].
    exists ErrorTypeNetwork. eexists. eexists. split; [reflexivity | now right]. }
  match goal with
  | |- context [client (httpClient c) _ ?p] => set (post := p)
  end.
  exists [get; post]. split.
  { destruct (client (httpClient c) (sent ++ [get])%list post) as [resp|err];
      [rewrite Hafter|]; cbn [snd]; now rewrite <- app_assoc. }
  right. exists get. repeat split; try assumption. right.
  exists post, seedValue. split; [reflexivity|]. split; [exact Hne|].
  split; [exact Hfrom|]. split; [reflexivity|]. split; [reflexivity|].
  split.
  { subst post. cbn [newRequest Body]. rewrite Encode_single, Hfield.
    unfold encryptPassword. rewrite QueryEscape_hex; [reflexivity|].
    apply digest_format. }
  split.
  { subst post. rewrite newRequest_header_any by discriminate.
    cbn [default]. apply lookup_insert_eq. }
  split.
  { subst post. rewrite newRequest_header_any by discriminate.
    unfold default. cbn [from_option id].
    now rewrite lookup_insert_ne by discriminate. }
  destruct (client (httpClient c) (sent ++ [get])%list post) as [resp|err];
    [now rewrite Hafter | reflexivity].
Qed.

(** [Login] past its guard: the protocol of the model's series, read
    through the generic shape above. *)
Lemma login_variants (c : Client S) (password : string) (sent : list Request) :
  exists (parse : Response -> string + error) (r : string + error)
         (reqs : list Request),
    authenticate c password sent = (finishLogin c r, (sent ++ reqs)%list)
    /\ (forall resp : Response,
           match parse resp with
           | inl tok => tok <> ""
           | inr err =>
               errorType err = Some ErrorTypeAuth
               \/ errorType err = Some ErrorTypeNetwork
           end)
    /\ ((reqs = []
         /\ exists e : error,
             r = inr (NewAuthError "failed to get seed value" (Some e)))
        \/ exists get : Request,
            Method get = "GET"
            /\ Url get = baseURL (httpClient c)
                         +:+ (if IsModel316 (model c) then "/wmi/login"
                              else "/login.cgi")
            /\ Body get = None
            /\ ((reqs = [get]
                 /\ exists (t : ErrorType) (m : string) (e : error),
                     r = inr (NetgearError t m (Some e))
                     /\ (t = ErrorTypeAuth \/ t = ErrorTypeNetwork))
                \/ exists (post : Request) (seedValue : string),
                    reqs = [get; post]
                    /\ seedValue <> ""
                    /\ (exists (resp : Response) (body : string),
                           client (httpClient c) sent get = inl resp
                           /\ ReadBody resp = inl body
                           /\ seedValue = Internal.ExtractSeedValue body)
                    /\ Method post = "POST"
                    /\ Url post = baseURL (httpClient c)
                                  +:+ (if IsModel316 (model c) then "/redirect.html"
                                       else "/login.cgi")
                    /\ Body post
                       = Some ((if IsModel316 (model c) then "LoginPassword"
                                else "password")
                               +:+ "="
                               +:+ Internal.EncryptPasswordWithSeed password seedValue)
                    /\ Header post !! "Content-Type"
                       = Some "application/x-www-form-urlencoded"
                    /\ Header post !! "Cookie" = None
                    /\ r = match client (httpClient c) (sent ++ [get])%list post with
                           | inr err =>
                               inr (NewNetworkError
                                      (if IsModel316 (model c)
                                       then "gambit login request failed"
                                       else "login request failed")
                                      (Some (Errorf "request failed" err)))
                           | inl resp => parse resp
                           end)).
Proof.
  unfold authenticate, GetAuthenticationType.
  destruct (IsModel316 (model c)).
  - change (String.eqb AuthTypeGambit AuthTypeSession) with false.
    change (String.eqb AuthTypeGambit AuthTypeGambit) with true. cbv iota.
    set (parse := fun resp : Response =>
           match ReadBody resp with
           | inr err =>
               inr (NewNetworkError "failed to read gambit login response" (Some err))
           | inl body =>
               if String.eqb (Internal.ExtractGambitToken body) "" then
                 if negb (String.eqb (Internal.ExtractErrorMessage body) "")
                 then inr (NewAuthError
                             ("gambit login failed: "
                              +:+ Internal.ExtractErrorMessage body) None)
                 else inr ErrInvalidCredentials
               else inl (Internal.ExtractGambitToken body)
           end).
    destruct (login_protocol_trace c password "/wmi/login" "/redirect.html"
                "LoginPassword" "gambit login request failed" _ parse
                (loginWithGambit c password) sent eq_refl)
      as (reqs & Hs & Hshape); [|reflexivity|].
    { intros resp s. subst parse. cbv beta zeta.
      destruct (ReadBody resp) as [body|err]; [|reflexivity].
      destruct (String.eqb _ ""); [|reflexivity].
      now destruct (negb _). }
    exists parse, (fst (loginWithGambit c password sent)), reqs.
    split; [|split; [|exact Hshape]].
    + unfold mbind at 1, Net_bind at 1, bind at 1.
      destruct (loginWithGambit c password sent) as [r s1].
      cbn [fst snd] in *. now subst s1.
    + intros resp. subst parse. cbv beta zeta.
      destruct (ReadBody resp) as [body|err]; [|now right].
      destruct (String.eqb_spec (Internal.ExtractGambitToken body) "");
        [|assumption].
      destruct (negb _); now left.
  - change (String.eqb AuthTypeSession AuthTypeSession) with true. cbv iota.
    set (parse := fun resp : Response =>
           if String.eqb (extractSessionToken resp) "" then
             if negb (String.eqb
                        (Internal.ExtractErrorMessage
                           (match ReadBody resp with inl b => b | inr _ => "" end))
                        "")
             then inr (NewAuthError
                         ("login failed: "
                          +:+ Internal.ExtractErrorMessage
                                (match ReadBody resp with inl b => b | inr _ => "" end))
                         None)
             else inr ErrInvalidCredentials
           else inl (extractSessionToken resp)).
    destruct (login_protocol_trace c password "/login.cgi" "/login.cgi"
                "password" "login request failed" _ parse
                (loginWithSession c password) sent eq_refl)
      as (reqs & Hs & Hshape); [|reflexivity|].
    { intros resp s. subst parse. cbv beta zeta.
      destruct (String.eqb _ ""); [|reflexivity].
      now destruct (negb _). }
    exists parse, (fst (loginWithSession c password sent)), reqs.
    split; [|split; [|exact Hshape]].
    + unfold mbind at 1, Net_bind at 1, bind at 1.
      destruct (loginWithSession c password sent) as [r s1].
      cbn [fst snd] in *. now subst s1.
    + intros resp. subst parse. cbv beta zeta.
      destruct (String.eqb_spec (extractSessionToken resp) ""); [|assumption].
      destruct (negb _); now left.
Qed.

(** X13: [Login] sends nothing for an empty password and otherwise at
    most two requests: a GET of the login page of the model's series
    and then, only when that page gave a non-empty seed, one POST whose
    body is exactly the form field of the series with the password
    encrypted under that seed as its value, sent as a form and without
    a cookie.  A successful login has sent both. *)
Theorem Login_requests (c : Client S) (password : string) (sent : list Request) :
  exists reqs : list Request,
    snd (Login c password sent) = (sent ++ reqs)%list
    /\ (password = "" -> reqs = [])
    /\ (snd (fst (Login c password sent)) = None -> length reqs = 2)
    /\ (reqs = []
        \/ exists get : Request,
            Method get = "GET"
            /\ Url get = baseURL (httpClient c)
                         +:+ (if IsModel316 (model c) then "/wmi/login"
                              else "/login.cgi")
            /\ Body get = None
            /\ (reqs = [get]
                \/ exists (post : Request) (seedValue : string),
                    reqs = [get; post]
                    /\ seedValue <> ""
                    /\ (exists (resp : Response) (body : string),
                           client (httpClient c) sent get = inl resp
                           /\ ReadBody resp = inl body
                           /\ seedValue = Internal.ExtractSeedValue body)
                    /\ Method post = "POST"
                    /\ Url post = baseURL (httpClient c)
                                  +:+ (if IsModel316 (model c) then "/redirect.html"
                                       else "/login.cgi")
                    /\ Body post
                       = Some ((if IsModel316 (model c) then "LoginPassword"
                                else "password")
                               +:+ "="
                               +:+ Internal.EncryptPasswordWithSeed password seedValue)
                    /\ Header post !! "Content-Type"
                       = Some "application/x-www-form-urlencoded"
                    /\ Header post !! "Cookie" = None)).
Proof.
  unfold Login. destruct (String.eqb_spec password "") as [->|Hpw].
  { exists []. rewrite app_nil_r. cbn [mret Net_ret ret fst snd].
    split; [reflexivity|]. split; [reflexivity|]. split; [discriminate | now left]. }
  destruct (login_variants c password sent)
    as (parse & r & reqs & -> & Hparse & Hshape).
  exists reqs. cbn [fst snd]. split; [reflexivity|].
  split; [contradiction|].
  pose proof (finishLogin_cases c r) as Hfin.
  destruct Hshape as [[-> [e ->]]|(get & Hm & Hu & Hb & Hcases)].
  { rewrite Hfin. cbn [snd]. split; [discriminate | now left]. }
  destruct Hcases as [[-> (t & m & e & -> & _)]
                     |(post & seedValue & -> & Hne & Hfrom & Hpm & Hpu & Hpb & Hct & Hck & _)].
  - rewrite Hfin. cbn [snd]. split; [discriminate|].
    right. exists get. repeat split; try assumption. now left.
  - split; [reflexivity|]. right. exists get. repeat split; try assumption.
    right. exists post, seedValue. repeat split; assumption.
Qed.

(** What [authenticate] leaves behind, whichever protocol ran. *)
Lemma authenticate_outcome (c : Client S) (password : string) (sent : list Request) :
  match snd (fst (authenticate c password sent)) with
  | None =>
      token (fst (fst (authenticate c password sent))) <> ""
      /\ IsAuthenticated (fst (fst (authenticate c password sent))) = true
      /\ tokenMgr (fst (fst (authenticate c password sent)))
         = fst (StoreToken (tokenMgr c) (address c)
                           (token (fst (fst (authenticate c password sent))))
                           (model c))
      /\ model (fst (fst (authenticate c password sent))) = model c
      /\ address (fst (fst (authenticate c password sent))) = address c
  | Some err =>
      (errorType err = Some ErrorTypeAuth \/ errorType err = Some ErrorTypeNetwork)
      /\ fst (fst (authenticate c password sent)) = c
  end.
Proof.
  destruct (login_variants c password sent)
    as (parse & r & reqs & -> & Hparse & Hshape).
  cbn [fst snd].
  assert (Hr : match r with
               | inl tok => tok <> ""
               | inr err =>
                   errorType err = Some ErrorTypeAuth
                   \/ errorType err = Some ErrorTypeNetwork
               end).
  { destruct Hshape as [[_ [e ->]]|(get & _ & _ & _ & Hcases)]; [now left|].
    destruct Hcases as [[_ (t & m & e & -> & [-> | ->])]
                       |(post & seedValue & _ & _ & _ & _ & _ & _ & _ & _ & ->)];
      [now left | now right|].
    destruct (client (httpClient c) _ post) as [resp|err]; [apply Hparse | now right]. }
  pose proof (finishLogin_cases c r) as Hfin.
  destruct r as [tok|err].
  - destruct Hfin as (-> & Htok & Hmodel & Haddr & Hmgr).
    rewrite Htok. split; [exact Hr|].
    split; [|split; [exact Hmgr | split; [exact Hmodel | exact Haddr]]].
    unfold IsAuthenticated. rewrite Htok.
    now destruct (String.eqb_spec tok "").
  - rewrite Hfin. cbn [fst snd]. now split.
Qed.

(** X14: a [Login] that succeeds was given a non-empty password and
    leaves a client with a non-empty token, so an authenticated one,
    whose token manager is the old one after storing that token for the
    address and the model, whether or not the storing worked; a [Login]
    that fails returns an Authentication or a Network error. *)
Theorem Login_outcome (c : Client S) (password : string) (sent : list Request) :
  match snd (fst (Login c password sent)) with
  | None =>
      password <> ""
      /\ token (fst (fst (Login c password sent))) <> ""
      /\ IsAuthenticated (fst (fst (Login c password sent))) = true
      /\ tokenMgr (fst (fst (Login c password sent)))
         = fst (StoreToken (tokenMgr c) (address c)
                           (token (fst (fst (Login c password sent)))) (model c))
  | Some err =>
      errorType err = Some ErrorTypeAuth \/ errorType err = Some ErrorTypeNetwork
  end.
Proof.
  unfold Login. destruct (String.eqb_spec password "") as [->|Hpw].
  { now left. }
  pose proof (authenticate_outcome c password sent) as Hout.
  destruct (snd (fst (authenticate c password sent))) as [err|].
  - apply Hout.
  - destruct Hout as (Htok & Hauth & Hmgr & _). now repeat split.
Qed.

End LoginFacts.

(** ** The life of a client *)

Section LifecycleFacts.
Import Strings HTTP Netgear.
Context `{External} {S : Type} `{TokenManager S}.



(** X16: [Logout] never fails, whatever the token manager answers to the
    deletion; it leaves the client without token but with its model and
    address, and with the token manager as the deletion left it.  From
    then on every authenticated request and every update or power cycle
    is refused with [ErrNotAuthenticated] and sends nothing. *)
Theorem Logout_effect (c : Client S) (sent : list Request) :
  snd (Logout c) = None
  /\ token (fst (Logout c)) = ""
  /\ model (fst (Logout c)) = model c
  /\ address (fst (Logout c)) = address c
  /\ tokenMgr (fst (Logout c)) = fst (DeleteToken (tokenMgr c) (address c))
  /\ (forall (method path : string) (data : option URL.Values),
         makeAuthenticatedRequest (fst (Logout c)) method path data sent
         = (inr ErrNotAuthenticated, sent))
  /\ (forall updates : list PortUpdate,
         PortManager_UpdatePort (fst (Logout c)) updates sent
         = (Some ErrNotAuthenticated, sent))
  /\ (forall updates : list POEPortUpdate,
         POEManager_UpdatePort (fst (Logout c)) updates sent
         = (Some ErrNotAuthenticated, sent))
  /\ (forall portIDs : list Z,
         POEManager_CyclePower (fst (Logout c)) portIDs sent
         = (Some ErrNotAuthenticated, sent)).
Proof.
  unfold Logout. cbn [set_token tokenMgr address].
  destruct (DeleteToken (tokenMgr c) (address c)) as [mgr e].
  cbn [fst snd]. repeat split.
Qed.



End LifecycleFacts.

(** X18: with the memory token manager a successful [Login] is found
    again: a client created afterwards for the same address with the
    manager the login left takes the same token and model without
    sending anything, and is authenticated.  After [Logout] the manager
    has no token for the address, so a new client has to detect the
    model over the network again. *)
Theorem session_reuse `{External} (c c' : Netgear.Client Netgear.MemoryTokenManager.t)
        (password : string) (sent sent' : list HTTP.Request)
        (transport : HTTP.RoundTripper) (verbose : bool)
        (sent2 : list HTTP.Request) :
  Netgear.Login c password sent = ((c', None), sent') ->
  (exists cl : Netgear.Client Netgear.MemoryTokenManager.t,
      Netgear.NewClient transport (Netgear.address c) (Netgear.tokenMgr c')
                        verbose sent2
      = (inl cl, sent2)
      /\ Netgear.token cl = Netgear.token c'
      /\ Netgear.model cl = Netgear.model c
      /\ Netgear.IsAuthenticated cl = true)
  /\ Netgear.GetToken (Netgear.tokenMgr (fst (Netgear.Logout c'))) (Netgear.address c)
     = inr (Netgear.NewAuthError "token not found" None)
  /\ snd (Netgear.NewClient transport (Netgear.address c)
             (Netgear.tokenMgr (fst (Netgear.Logout c'))) verbose sent2)
     = snd (Netgear.detectModel
              (Netgear.newClient transport (Netgear.address c)
                 (Netgear.tokenMgr (fst (Netgear.Logout c'))) None verbose)
              sent2).
Proof.
  intros Hrun. unfold Netgear.Login in Hrun.
  destruct (String.eqb password ""); [discriminate|].
  pose proof (authenticate_outcome c password sent) as Hout.
  rewrite Hrun in Hout. cbn [fst snd] in Hout.
  destruct Hout as (Htok & Hauth & Hmgr & Hmodel & Haddr).
  assert (Hget : Netgear.GetToken (Netgear.tokenMgr c') (Netgear.address c)
                 = inl (Netgear.token c', Netgear.model c)).
  { rewrite Hmgr. cbn. unfold Netgear.MemoryTokenManager.GetToken.
    cbn [Netgear.MemoryTokenManager.tokens]. now rewrite lookup_insert_eq. }
  assert (Hgone : Netgear.GetToken (Netgear.tokenMgr (fst (Netgear.Logout c')))
                                   (Netgear.address c)
                  = inr (Netgear.NewAuthError "token not found" None)).
  { unfold Netgear.Logout. cbn. unfold Netgear.MemoryTokenManager.GetToken.
    cbn [Netgear.MemoryTokenManager.tokens]. rewrite Haddr.
    now rewrite lookup_delete_eq. }
  split; [|split; [exact Hgone|]].
  - unfold Netgear.NewClient. cbn [Netgear.tokenMgr Netgear.newClient].
    rewrite Hget. eexists. split; [reflexivity|].
    cbn [Netgear.set_model Netgear.set_token Netgear.token Netgear.model].
    repeat split. unfold Netgear.IsAuthenticated. cbn [Netgear.token].
    now destruct (String.eqb_spec (Netgear.token c') "").
  - unfold Netgear.NewClient at 1. cbn [Netgear.tokenMgr Netgear.newClient].
    rewrite Hgone. unfold mbind, HTTP.Net_bind, HTTP.bind.
    unfold Netgear.newClient.
    now destruct (Netgear.detectModel _ sent2) as [[m|err] s1].
Qed.

(** After a login with the password secret at the family-A switch, a new
    client for 192.168.1.1 has the token tok1 at once. *)
Lemma session_reuse_witness :
  exists cl : Netgear.Client Netgear.MemoryTokenManager.t,
    @Netgear.NewClient Fixture.libraries _ _ Fixture.switchA "192.168.1.1"
      (Netgear.tokenMgr
         (fst (fst (@Netgear.Login Fixture.libraries _ _
                      (Fixture.clientOf Fixture.switchA Netgear.ModelGS305EP "" None)
                      "secret" []))))
      false []
    = (inl cl, [])
    /\ Netgear.token cl = "tok1".
Proof.
  assert (Hrun : @Netgear.Login Fixture.libraries _ _
                   (Fixture.clientOf Fixture.switchA Netgear.ModelGS305EP "" None)
                   "secret" []
                 = ((fst (fst (@Netgear.Login Fixture.libraries _ _
                                 (Fixture.clientOf Fixture.switchA
                                    Netgear.ModelGS305EP "" None)
                                 "secret" [])), None),
                    snd (@Netgear.Login Fixture.libraries _ _
                           (Fixture.clientOf Fixture.switchA
                              Netgear.ModelGS305EP "" None)
                           "secret" [])))
    by (vm_compute; reflexivity).
  destruct (@session_reuse Fixture.libraries _ _ "secret" [] _
              Fixture.switchA false [] Hrun)
    as [(cl & Hnew & Htok & _) _].
  exists cl. split; [exact Hnew|]. rewrite Htok. vm_compute. reflexivity.
Defined.

(** X19: with the file token manager [Logout] reports success even when
    the token file cannot be removed: the deletion then fails with an
    Authentication error, the manager is unchanged and the old
    credential is still read for the address.  When the file is absent
    or can be removed, the address has no readable token afterwards. *)
Theorem Logout_token_file (c : Netgear.Client Netgear.FileTokenManager.t) :
  snd (Netgear.Logout c) = None
  /\ (forall content : string,
         OS.files (Netgear.FileTokenManager.fs (Netgear.tokenMgr c))
           !! Netgear.FileTokenManager.getTokenFilename
                (Netgear.tokenMgr c) (Netgear.address c)
         = Some content ->
         Netgear.FileTokenManager.getTokenFilename
           (Netgear.tokenMgr c) (Netgear.address c)
         ∈ OS.denied (Netgear.FileTokenManager.fs (Netgear.tokenMgr c)) ->
         snd (Netgear.DeleteToken (Netgear.tokenMgr c) (Netgear.address c))
         = Some (Netgear.NewAuthError "failed to delete token file"
                                      (Some ErrPermission))
         /\ Netgear.tokenMgr (fst (Netgear.Logout c)) = Netgear.tokenMgr c
         /\ Netgear.GetToken (Netgear.tokenMgr (fst (Netgear.Logout c)))
                             (Netgear.address c)
            = Netgear.GetToken (Netgear.tokenMgr c) (Netgear.address c))
  /\ (OS.files (Netgear.FileTokenManager.fs (Netgear.tokenMgr c))
         !! Netgear.FileTokenManager.getTokenFilename
              (Netgear.tokenMgr c) (Netgear.address c)
       = None
       \/ Netgear.FileTokenManager.getTokenFilename
            (Netgear.tokenMgr c) (Netgear.address c)
          ∉ OS.denied (Netgear.FileTokenManager.fs (Netgear.tokenMgr c)) ->
       Netgear.GetToken (Netgear.tokenMgr (fst (Netgear.Logout c)))
                        (Netgear.address c)
       = inr (Netgear.NewAuthError "failed to read token file" (Some ErrNotExist))).
Proof.
  split; [unfold Netgear.Logout;
          now destruct (Netgear.DeleteToken _ _)|].
  split.
  - intros content Hfile Hdenied.
    unfold Netgear.Logout.
    cbn [Netgear.set_token Netgear.tokenMgr Netgear.address Netgear.DeleteToken
         Netgear.FileTokenManager_ops].
    unfold Netgear.FileTokenManager.DeleteToken, OS.Remove.
    rewrite Hfile. destruct (decide (_ ∈ _)); [|contradiction].
    cbn [IsNotExist negb fst snd Netgear.set_tokenMgr Netgear.tokenMgr].
    rewrite with_fs_same. now repeat split.
  - intros Hcase.
    assert (Hok : snd (Netgear.FileTokenManager.DeleteToken
                         (Netgear.tokenMgr c) (Netgear.address c)) = None).
    { unfold Netgear.FileTokenManager.DeleteToken, OS.Remove.
      destruct (OS.files _ !! _) eqn:Hfile; [|reflexivity].
      destruct (decide (_ ∈ _)); [|reflexivity].
      destruct Hcase; [discriminate | contradiction]. }
    apply FileTokenManager_delete_get in Hok as [Hget _].
    unfold Netgear.Logout.
    cbn [Netgear.set_token Netgear.tokenMgr Netgear.address Netgear.DeleteToken
         Netgear.FileTokenManager_ops Netgear.GetToken].
    destruct (Netgear.FileTokenManager.DeleteToken _ _) as [mgr e].
    exact Hget.
Qed.

(** The token file of 192.168.1.1 may not be removed: after [Logout] the
    old token is still read. *)
Lemma Logout_token_file_witness :
  Netgear.GetToken
    (Netgear.tokenMgr
       (fst (Netgear.Logout
               (Netgear.set_token
                  (@Netgear.newClient Netgear.FileTokenManager.t
                     Fixture.switchA "192.168.1.1" Fixture.deniedManager None false)
                  "old"))))
    "192.168.1.1"
  = inl ("old", Netgear.ModelGS305EP).
Proof.
  etransitivity.
  - apply (proj2 (proj2 (proj1 (proj2 (Logout_token_file
             (Netgear.set_token
                (@Netgear.newClient Netgear.FileTokenManager.t
                   Fixture.switchA "192.168.1.1" Fixture.deniedManager None false)
                "old"))) "GS305EP:old" eq_refl ltac:(vm_compute; set_solver)))).
  - vm_compute. reflexivity.
Defined.


(** ** The environment password manager *)

Section EnvironmentFacts.
Import Strings Netgear.
Variable ToUpper : string -> string.

Lemma parseEntries_host (entries : list string) (targetHost : string)
      (config : SwitchConfig) :
  EnvironmentPasswordManager.parseEntries entries targetHost = Some config ->
  Host config = targetHost.
Proof.
  induction entries as [|entry rest IH]; [discriminate|].
  cbn [EnvironmentPasswordManager.parseEntries]. cbv zeta.
  destruct (String.eqb (TrimSpace entry) ""); [exact IH|].
  destruct (SplitN2 (TrimSpace entry) "=") as [|part0 [|part1 [|? ?]]];
    try exact IH.
  destruct (String.eqb_spec (TrimSpace part0) targetHost) as [Hhost|Hhost];
    cbn [negb]; [|exact IH].
  destruct (Contains (TrimSpace part1) ",").
  - destruct (SplitN2 (TrimSpace part1) ",") as [|m0 [|m1 [|? ?]]];
      intros [= <-]; exact Hhost.
  - intros [= <-]. exact Hhost.
Qed.

(** X20: the environment password manager answers from the variable of
    the host whenever it is set and not empty, whatever the list in
    NETGEAR_SWITCHES says, with the model from the model variable of the
    host; a configuration it finds is always one for the address asked;
    with neither the host variable nor the list set it finds nothing;
    and [GetPassword] is the password of that same configuration. *)
Theorem EnvironmentPasswordManager_lookup (env : gmap string string)
        (address : string) :
  (forall password : string,
      env !! ("NETGEAR_PASSWORD_"
              +:+ EnvironmentPasswordManager.normalizeHost ToUpper address)
      = Some password ->
      password <> "" ->
      EnvironmentPasswordManager.GetSwitchConfig ToUpper env address
      = Some {| Host := address; Password := password;
                ConfigModel :=
                  EnvironmentPasswordManager.Getenv env
                    ("NETGEAR_MODEL_"
                     +:+ EnvironmentPasswordManager.normalizeHost ToUpper address) |})
  /\ (forall config : SwitchConfig,
         EnvironmentPasswordManager.GetSwitchConfig ToUpper env address = Some config ->
         Host config = address)
  /\ (EnvironmentPasswordManager.Getenv env
         ("NETGEAR_PASSWORD_"
          +:+ EnvironmentPasswordManager.normalizeHost ToUpper address) = "" ->
      EnvironmentPasswordManager.Getenv env "NETGEAR_SWITCHES" = "" ->
      EnvironmentPasswordManager.GetSwitchConfig ToUpper env address = None)
  /\ EnvironmentPasswordManager.GetPassword ToUpper env address
     = Password <$> EnvironmentPasswordManager.GetSwitchConfig ToUpper env address.
Proof.
  split; [|split; [|split]].
  - intros password Hvar Hne.
    unfold EnvironmentPasswordManager.GetSwitchConfig. cbv zeta.
    assert (Hget : EnvironmentPasswordManager.Getenv env
                     ("NETGEAR_PASSWORD_"
                      +:+ EnvironmentPasswordManager.normalizeHost ToUpper address)
                   = password)
      by (unfold EnvironmentPasswordManager.Getenv; now rewrite Hvar).
    rewrite Hget.
    now destruct (String.eqb_spec password "").
  - intros config.
    unfold EnvironmentPasswordManager.GetSwitchConfig. cbv zeta.
    destruct (negb _); [now intros [= <-]|].
    unfold EnvironmentPasswordManager.parseMultiSwitchConfig. cbv zeta.
    destruct (String.eqb _ ""); [discriminate|].
    apply parseEntries_host.
  - intros Hhost Hlist.
    unfold EnvironmentPasswordManager.GetSwitchConfig. cbv zeta.
    rewrite Hhost. cbn [String.eqb negb].
    unfold EnvironmentPasswordManager.parseMultiSwitchConfig. cbv zeta.
    now rewrite Hlist.
  - unfold EnvironmentPasswordManager.GetPassword.
    now destruct (EnvironmentPasswordManager.GetSwitchConfig ToUpper env address).
Qed.

End EnvironmentFacts.

(** In the example environment 192.168.1.1 has a variable of its own,
    which wins over the entry of the list. *)
Lemma EnvironmentPasswordManager_lookup_witness :
  Netgear.EnvironmentPasswordManager.GetSwitchConfig
    Fixture.asciiUpper Fixture.environment "192.168.1.1"
  = Some {| Netgear.Host := "192.168.1.1"; Netgear.Password := "secret";
            Netgear.ConfigModel := "" |}.
Proof.
  etransitivity.
  - apply (proj1 (EnvironmentPasswordManager_lookup
                    Fixture.asciiUpper Fixture.environment "192.168.1.1")
                 "secret").
    + vm_compute. reflexivity.
    + discriminate.
  - vm_compute. reflexivity.
Defined.

(** ** What model detection answers *)

Section DetectionResult.
Import Strings HTTP Netgear.
Context `{External} {S : Type} `{TokenManager S}.

(** X21: once the root page is read, a specific model name found in it
    is the answer and no second request is made; a page that shows
    neither a model nor a redirect gives the error that no model was
    detected; and after a page that only redirects, detection asks for
    the login page and cannot fail any more: it answers the specific
    model named by the login page if there is one, and the generic
    model GS30xEPx otherwise, also when the login page cannot be
    fetched or read. *)
Theorem detectModel_answer (c : Client S) (sent sent1 : list Request)
        (resp : Response) (body : string) :
  Get (httpClient c) "/" None sent = (inl resp, sent1) ->
  ReadBody resp = inl body ->
  (In (Internal.DetectFromHTML body) Internal.specificModels ->
   detectModel c sent = (inl (Internal.DetectFromHTML body), sent1))
  /\ (Internal.DetectFromHTML body = "" ->
      detectModel c sent = (inr ErrModelNotDetected, sent1))
  /\ (Internal.DetectFromHTML body = "GS30xEPx" ->
      snd (detectModel c sent) = snd (Get (httpClient c) "/login.cgi" None sent1)
      /\ exists m : Model,
          fst (detectModel c sent) = inl m
          /\ match fst (Get (httpClient c) "/login.cgi" None sent1) with
             | inl loginResp =>
                 match ReadBody loginResp with
                 | inl loginBody =>
                     if decide (In (Internal.DetectFromHTML loginBody)
                                   Internal.specificModels)
                     then m = Internal.DetectFromHTML loginBody
                     else m = "GS30xEPx"
                 | inr _ => m = "GS30xEPx"
                 end
             | inr _ => m = "GS30xEPx"
             end).
Proof.
  intros Hget Hbody.
  unfold detectModel, mbind, Net_bind, bind, mret, Net_ret, ret, validateModel.
  rewrite Hget, Hbody.
  split; [|split].
  - intros Hin.
    assert (Hs : IsSupported (Internal.DetectFromHTML body) = true
                 /\ String.eqb (Internal.DetectFromHTML body) "GS30xEPx" = false
                 /\ String.eqb (Internal.DetectFromHTML body) "" = false).
    { cbn [Internal.specificModels In] in Hin.
      repeat destruct Hin as [<-|Hin]; try contradiction; now repeat split. }
    destruct Hs as (Hs & -> & Hne). now rewrite Hne, Hs.
  - intros ->. reflexivity.
  - intros ->. cbn [String.eqb Ascii.eqb Bool.eqb andb].
    destruct (Get (httpClient c) "/login.cgi" None sent1) as [[loginResp|err] s2];
      cbn [fst snd]; [|split; [reflexivity | now exists "GS30xEPx"]].
    destruct (ReadBody loginResp) as [loginBody|err];
      [|split; [reflexivity | now exists "GS30xEPx"]].
    destruct (decide (In (Internal.DetectFromHTML loginBody) Internal.specificModels))
      as [Hin|Hnot].
    + assert (Hs : IsSupported (Internal.DetectFromHTML loginBody) = true
                   /\ String.eqb (Internal.DetectFromHTML loginBody) "GS30xEPx" = false
                   /\ String.eqb (Internal.DetectFromHTML loginBody) "" = false).
      { cbn [Internal.specificModels In] in Hin.
        repeat destruct Hin as [<-|Hin]; try contradiction; now repeat split. }
      destruct Hs as (Hs & Hg & Hne). rewrite Hg, Hne. cbn [negb andb].
      rewrite Hne, Hs.
      split; [reflexivity | now eexists].
    + destruct (DetectFromHTML_range loginBody) as [Hin|[-> | ->]];
        [contradiction| |]; (split; [reflexivity | now exists "GS30xEPx"]).
Qed.

End DetectionResult.

(** The root page of the family-A switch only redirects and its login
    page names GS305EP, which is the model detected, with two
    requests. *)
Lemma detectModel_answer_witness :
  fst (@Netgear.detectModel Fixture.libraries _
         (Fixture.clientOf Fixture.switchA "" "" None) [])
  = inl Netgear.ModelGS305EP
  /\ length (snd (@Netgear.detectModel Fixture.libraries _
                    (Fixture.clientOf Fixture.switchA "" "" None) []))
     = 2.
Proof.
  destruct (proj2 (proj2 (@detectModel_answer Fixture.libraries _
              (Fixture.clientOf Fixture.switchA "" "" None) [] _
              (Fixture.page "<script>top.location.href=redirect</script>")
              "<script>top.location.href=redirect</script>"
              ltac:(vm_compute; reflexivity) eq_refl)) eq_refl)
    as (Hsent & m & Hm & Hwhich).
  split.
  - rewrite Hm. vm_compute in Hwhich. now subst m.
  - rewrite Hsent. vm_compute. reflexivity.
Defined.
